(** * rtp2httpd: connection data plane and stream context

    A shallow embedding of [src/connection.c] and [src/stream.c]:
    the per-connection backpressure controller, the chunking output
    path, HTTP request routing, and the upstream event and tick
    handlers of the stream context.

    Conventions.
    - [size_t] and [uint64_t] values are integers in [Z] and every C
      operation on them is written with its wrap-around modulo 2^64.
      Signed quantities ([int], [int64_t] clocks) are plain [Z]: their
      overflow is undefined in C and is not given a meaning here.
    - [double] values are binary64 primitive floats.
    - C strings are [string]s without the terminating NUL.
    - Code of the other translation units (zerocopy.c, http.c, fcc.c,
      rtsp.c, multicast.c, snapshot.c, status.c, service.c, rtp.c) and
      the kernel are reached through the record [externs]; each such
      call is also appended to a call log, so that statements can say
      which collaborators a function did or did not invoke.
    - [logger] calls are not modelled.

    Embedded from connection.c: [connection_alloc_output_buffer],
    [connection_compute_limit_bytes], [connection_calculate_queue_limit],
    [connection_record_drop], [connection_report_queue],
    [connection_epoll_update_events], [connection_queue_output],
    [connection_queue_output_and_flush], [connection_route_and_start],
    [connection_queue_zerocopy], [handle_playlist_request].  From
    stream.c: [stream_join_mcast_group], [stream_process_rtp_payload],
    [stream_handle_fd_event], [stream_context_init_for_worker],
    [stream_tick]. *)

From Stdlib Require Import ZArith List String Ascii Bool Lia Floats DecimalString.
From Equations Require Import Equations.
Import ListNotations.

#[local] Set Warnings "-inexact-float".
#[local] Open Scope Z_scope.

(** ** Machine arithmetic *)

Definition SIZE_MAX : Z := 2 ^ 64 - 1.

Definition size_wrap (x : Z) : Z := x mod 2 ^ 64.
Definition size_add (a b : Z) : Z := size_wrap (a + b).
Definition size_sub (a b : Z) : Z := size_wrap (a - b).
Definition size_mul (a b : Z) : Z := size_wrap (a * b).
Definition size_div (a b : Z) : Z := a / b.

Definition u64_add (a b : Z) : Z := (a + b) mod 2 ^ 64.
Definition u64_sub (a b : Z) : Z := (a - b) mod 2 ^ 64.
Definition u64_mul (a b : Z) : Z := (a * b) mod 2 ^ 64.
Definition u32_wrap (a : Z) : Z := a mod 2 ^ 32.

(** ** Doubles *)

(** [(double)n] for an unsigned integer: round to nearest even. *)
Definition double_of_size (n : Z) : float :=
  SF2Prim (binary_normalize 53 1024 n 0 false).

(** Truncation toward zero of a finite double; infinities and NaN give 0
    (C leaves these conversions undefined). *)
Definition double_trunc (x : float) : Z :=
  match Prim2SF x with
  | S754_finite s m e =>
      let mag := if 0 <=? e then Z.shiftl (Z.pos m) e else Z.shiftr (Z.pos m) (- e) in
      if s then - mag else mag
  | _ => 0
  end.

(** [(size_t)x]: truncation, reduced modulo 2^64 where C gives no value. *)
Definition size_of_double (x : float) : Z := size_wrap (double_trunc x).

(** [(int)x]. *)
Definition int_of_double (x : float) : Z := double_trunc x.

Definition fgt (a b : float) : bool := PrimFloat.ltb b a.
Definition fge (a b : float) : bool := PrimFloat.leb b a.
Definition flt (a b : float) : bool := PrimFloat.ltb a b.
Definition fle (a b : float) : bool := PrimFloat.leb a b.

(** ** Constants of connection.c *)

Definition CONNECTION_TCP_USER_TIMEOUT_MS : Z := 10000.
Definition CONN_QUEUE_MIN_BUFFERS : Z := 64.
Definition CONN_QUEUE_BURST_FACTOR : float := 3.0%float.
Definition CONN_QUEUE_BURST_FACTOR_CONGESTED : float := 1.5%float.
Definition CONN_QUEUE_BURST_FACTOR_DRAIN : float := 1.0%float.
Definition CONN_QUEUE_EWMA_ALPHA : float := 0.2%float.
Definition CONN_QUEUE_SLOW_FACTOR : float := 1.5%float.
Definition CONN_QUEUE_SLOW_EXIT_FACTOR : float := 1.1%float.
Definition CONN_QUEUE_SLOW_DEBOUNCE_MS : Z := 3000.
Definition CONN_QUEUE_HIGH_UTIL_THRESHOLD : float := 0.85%float.
Definition CONN_QUEUE_DRAIN_UTIL_THRESHOLD : float := 0.95%float.
Definition CONN_QUEUE_SLOW_LIMIT_RATIO : float := 0.9%float.
Definition CONN_QUEUE_SLOW_EXIT_LIMIT_RATIO : float := 0.75%float.
Definition CONN_QUEUE_SLOW_CLAMP_FACTOR : float := 0.8%float.

(** service.h *)
Definition HTTP_URL_BUFFER_SIZE : Z := 1024.

(** epoll event bits (sys/epoll.h). *)
Definition EPOLLIN : Z := 1.
Definition EPOLLOUT : Z := 4.
Definition EPOLLERR : Z := 8.
Definition EPOLLHUP : Z := 16.
Definition EPOLLRDHUP : Z := 8192.

Definition EV_READ_WRITE : Z :=
  Z.lor EPOLLIN (Z.lor EPOLLOUT (Z.lor EPOLLRDHUP (Z.lor EPOLLHUP EPOLLERR))).

(** ** Data model *)

Inductive service_type_t : Type := SERVICE_MRTP | SERVICE_RTSP.
Inductive service_source_t : Type := SERVICE_SOURCE_INLINE | SERVICE_SOURCE_EXTERNAL.

Record service_t : Type := mk_service {
  url : string;
  msrc : option string;
  service_type : service_type_t;
  source : service_source_t;
  addr : option string;
  msrc_addr : option string;
  fcc_addr : option string;
  rtsp_url : option string;
  playseek_param : option string;
  user_agent : option string
}.

Definition set_user_agent (v : option string) (r : service_t) : service_t :=
  {| url := url r; msrc := msrc r; service_type := service_type r; source := source r;
     addr := addr r; msrc_addr := msrc_addr r; fcc_addr := fcc_addr r;
     rtsp_url := rtsp_url r; playseek_param := playseek_param r; user_agent := v |}.

(** The fields of the pool that connection.c reads. *)
Record buffer_pool_t : Type := mk_buffer_pool {
  num_buffers : Z;
  num_free : Z;
  max_buffers : Z;
  low_watermark : Z
}.

(** A pool buffer: [data] is the payload region from its first byte. *)
Record buffer_ref_t : Type := mk_buffer_ref {
  data : list Byte.byte;
  data_offset : Z;
  data_size : Z
}.

Definition set_data (v : list Byte.byte) (r : buffer_ref_t) : buffer_ref_t :=
  {| data := v; data_offset := data_offset r; data_size := data_size r |}.

Definition set_data_size (v : Z) (r : buffer_ref_t) : buffer_ref_t :=
  {| data := data r; data_offset := data_offset r; data_size := v |}.

(** The parsed request, as far as routing reads it. *)
Record http_request_t : Type := mk_http_request {
  method : string;
  req_url : string;
  req_hostname : string;
  req_user_agent : string;
  accept : string;
  x_request_snapshot : Z
}.

Record config_t : Type := mk_config {
  hostname : option string;
  r2h_token : option string;
  status_page_route : option string;
  udpxy : Z;
  maxclients : Z;
  mcast_rejoin_interval : Z;
  video_snapshot : Z
}.

Inductive conn_state_t : Type :=
| CONN_READ_REQ_LINE | CONN_READ_HEADERS | CONN_ROUTE | CONN_STREAMING | CONN_CLOSING.

Inductive connection_buffer_class_t : Type :=
| CONNECTION_BUFFER_CONTROL | CONNECTION_BUFFER_MEDIA.

Inductive fcc_state_t : Type :=
| FCC_STATE_INIT | FCC_STATE_REQUESTED | FCC_STATE_UNICAST_PENDING
| FCC_STATE_UNICAST_ACTIVE | FCC_STATE_MCAST_REQUESTED | FCC_STATE_MCAST_ACTIVE.

Inductive rtsp_state_t : Type :=
| RTSP_STATE_INIT | RTSP_STATE_OPTIONS | RTSP_STATE_DESCRIBE | RTSP_STATE_SETUP
| RTSP_STATE_PLAY | RTSP_STATE_PLAYING.

Inductive rtsp_transport_mode_t : Type := RTSP_TRANSPORT_TCP | RTSP_TRANSPORT_UDP.

Inductive http_status_t : Type :=
| STATUS_200 | STATUS_400 | STATUS_401 | STATUS_404 | STATUS_500 | STATUS_503.

Inductive content_type_t : Type := CONTENT_HTML | CONTENT_MP2T.

Record sockaddr_in : Type := mk_sockaddr_in { sin_addr : Z; sin_port : Z }.

Record zerocopy_queue_t : Type := mk_zerocopy_queue {
  items : list buffer_ref_t;
  num_queued : Z
}.

Record fcc_session_t : Type := mk_fcc_session {
  fcc_sock : Z;
  fcc_state : fcc_state_t;
  fcc_server : sockaddr_in;
  media_port : Z;
  unicast_start_time : Z;
  fcc_status_index : Z
}.

Definition set_fcc_state (v : fcc_state_t) (r : fcc_session_t) : fcc_session_t :=
  {| fcc_sock := fcc_sock r; fcc_state := v; fcc_server := fcc_server r;
     media_port := media_port r; unicast_start_time := unicast_start_time r;
     fcc_status_index := fcc_status_index r |}.

Definition set_fcc_status_index (v : Z) (r : fcc_session_t) : fcc_session_t :=
  {| fcc_sock := fcc_sock r; fcc_state := fcc_state r; fcc_server := fcc_server r;
     media_port := media_port r; unicast_start_time := unicast_start_time r;
     fcc_status_index := v |}.

Record rtsp_session_t : Type := mk_rtsp_session {
  rtsp_socket : Z;
  rtp_socket : Z;
  rtcp_socket : Z;
  rtsp_state : rtsp_state_t;
  transport_mode : rtsp_transport_mode_t;
  keepalive_interval_ms : Z;
  last_keepalive_ms : Z;
  session_id : string;
  rtsp_status_index : Z;
  rtsp_epoll_fd : Z
}.

Definition set_last_keepalive_ms (v : Z) (r : rtsp_session_t) : rtsp_session_t :=
  {| rtsp_socket := rtsp_socket r; rtp_socket := rtp_socket r; rtcp_socket := rtcp_socket r;
     rtsp_state := rtsp_state r; transport_mode := transport_mode r;
     keepalive_interval_ms := keepalive_interval_ms r; last_keepalive_ms := v;
     session_id := session_id r; rtsp_status_index := rtsp_status_index r;
     rtsp_epoll_fd := rtsp_epoll_fd r |}.

Definition set_rtsp_status_index (v : Z) (r : rtsp_session_t) : rtsp_session_t :=
  {| rtsp_socket := rtsp_socket r; rtp_socket := rtp_socket r; rtcp_socket := rtcp_socket r;
     rtsp_state := rtsp_state r; transport_mode := transport_mode r;
     keepalive_interval_ms := keepalive_interval_ms r;
     last_keepalive_ms := last_keepalive_ms r; session_id := session_id r;
     rtsp_status_index := v; rtsp_epoll_fd := rtsp_epoll_fd r |}.

Definition set_rtsp_epoll_fd (v : Z) (r : rtsp_session_t) : rtsp_session_t :=
  {| rtsp_socket := rtsp_socket r; rtp_socket := rtp_socket r; rtcp_socket := rtcp_socket r;
     rtsp_state := rtsp_state r; transport_mode := transport_mode r;
     keepalive_interval_ms := keepalive_interval_ms r;
     last_keepalive_ms := last_keepalive_ms r; session_id := session_id r;
     rtsp_status_index := rtsp_status_index r; rtsp_epoll_fd := v |}.

Record snapshot_context_t : Type := mk_snapshot_context {
  enabled : Z;
  start_time : Z;
  fallback_to_streaming : Z
}.

Definition set_fallback_to_streaming (v : Z) (r : snapshot_context_t) : snapshot_context_t :=
  {| enabled := enabled r; start_time := start_time r; fallback_to_streaming := v |}.

Record stream_context_t : Type := mk_stream_context {
  ctx_service : option service_t;
  epoll_fd : Z;
  ctx_status_index : Z;
  fcc : fcc_session_t;
  rtsp : rtsp_session_t;
  snapshot : snapshot_context_t;
  mcast_sock : Z;
  total_bytes_sent : Z;
  last_bytes_sent : Z;
  last_status_update : Z;
  last_mcast_data_time : Z;
  last_fcc_data_time : Z;
  last_mcast_rejoin_time : Z;
  reorder_enabled : Z;
  reorder_slots : list (option buffer_ref_t);
  reorder_expected_seqn : Z;
  reorder_base_seqn : Z;
  reorder_first_packet : Z;
  reorder_waiting : Z;
  reorder_wait_start : Z;
  reorder_drops : Z;
  reorder_duplicates : Z;
  reorder_out_of_order : Z;
  reorder_recovered : Z
}.

Definition set_fcc (v : fcc_session_t) (r : stream_context_t) : stream_context_t :=
  {| ctx_service := ctx_service r; epoll_fd := epoll_fd r;
     ctx_status_index := ctx_status_index r; fcc := v; rtsp := rtsp r; snapshot := snapshot r;
     mcast_sock := mcast_sock r; total_bytes_sent := total_bytes_sent r;
     last_bytes_sent := last_bytes_sent r; last_status_update := last_status_update r;
     last_mcast_data_time := last_mcast_data_time r;
     last_fcc_data_time := last_fcc_data_time r;
     last_mcast_rejoin_time := last_mcast_rejoin_time r; reorder_enabled := reorder_enabled r;
     reorder_slots := reorder_slots r; reorder_expected_seqn := reorder_expected_seqn r;
     reorder_base_seqn := reorder_base_seqn r; reorder_first_packet := reorder_first_packet r;
     reorder_waiting := reorder_waiting r; reorder_wait_start := reorder_wait_start r;
     reorder_drops := reorder_drops r; reorder_duplicates := reorder_duplicates r;
     reorder_out_of_order := reorder_out_of_order r;
     reorder_recovered := reorder_recovered r |}.

Definition set_rtsp (v : rtsp_session_t) (r : stream_context_t) : stream_context_t :=
  {| ctx_service := ctx_service r; epoll_fd := epoll_fd r;
     ctx_status_index := ctx_status_index r; fcc := fcc r; rtsp := v; snapshot := snapshot r;
     mcast_sock := mcast_sock r; total_bytes_sent := total_bytes_sent r;
     last_bytes_sent := last_bytes_sent r; last_status_update := last_status_update r;
     last_mcast_data_time := last_mcast_data_time r;
     last_fcc_data_time := last_fcc_data_time r;
     last_mcast_rejoin_time := last_mcast_rejoin_time r; reorder_enabled := reorder_enabled r;
     reorder_slots := reorder_slots r; reorder_expected_seqn := reorder_expected_seqn r;
     reorder_base_seqn := reorder_base_seqn r; reorder_first_packet := reorder_first_packet r;
     reorder_waiting := reorder_waiting r; reorder_wait_start := reorder_wait_start r;
     reorder_drops := reorder_drops r; reorder_duplicates := reorder_duplicates r;
     reorder_out_of_order := reorder_out_of_order r;
     reorder_recovered := reorder_recovered r |}.

Definition set_snapshot (v : snapshot_context_t) (r : stream_context_t) : stream_context_t :=
  {| ctx_service := ctx_service r; epoll_fd := epoll_fd r;
     ctx_status_index := ctx_status_index r; fcc := fcc r; rtsp := rtsp r; snapshot := v;
     mcast_sock := mcast_sock r; total_bytes_sent := total_bytes_sent r;
     last_bytes_sent := last_bytes_sent r; last_status_update := last_status_update r;
     last_mcast_data_time := last_mcast_data_time r;
     last_fcc_data_time := last_fcc_data_time r;
     last_mcast_rejoin_time := last_mcast_rejoin_time r; reorder_enabled := reorder_enabled r;
     reorder_slots := reorder_slots r; reorder_expected_seqn := reorder_expected_seqn r;
     reorder_base_seqn := reorder_base_seqn r; reorder_first_packet := reorder_first_packet r;
     reorder_waiting := reorder_waiting r; reorder_wait_start := reorder_wait_start r;
     reorder_drops := reorder_drops r; reorder_duplicates := reorder_duplicates r;
     reorder_out_of_order := reorder_out_of_order r;
     reorder_recovered := reorder_recovered r |}.

Definition set_mcast_sock (v : Z) (r : stream_context_t) : stream_context_t :=
  {| ctx_service := ctx_service r; epoll_fd := epoll_fd r;
     ctx_status_index := ctx_status_index r; fcc := fcc r; rtsp := rtsp r;
     snapshot := snapshot r; mcast_sock := v; total_bytes_sent := total_bytes_sent r;
     last_bytes_sent := last_bytes_sent r; last_status_update := last_status_update r;
     last_mcast_data_time := last_mcast_data_time r;
     last_fcc_data_time := last_fcc_data_time r;
     last_mcast_rejoin_time := last_mcast_rejoin_time r; reorder_enabled := reorder_enabled r;
     reorder_slots := reorder_slots r; reorder_expected_seqn := reorder_expected_seqn r;
     reorder_base_seqn := reorder_base_seqn r; reorder_first_packet := reorder_first_packet r;
     reorder_waiting := reorder_waiting r; reorder_wait_start := reorder_wait_start r;
     reorder_drops := reorder_drops r; reorder_duplicates := reorder_duplicates r;
     reorder_out_of_order := reorder_out_of_order r;
     reorder_recovered := reorder_recovered r |}.

Definition set_total_bytes_sent (v : Z) (r : stream_context_t) : stream_context_t :=
  {| ctx_service := ctx_service r; epoll_fd := epoll_fd r;
     ctx_status_index := ctx_status_index r; fcc := fcc r; rtsp := rtsp r;
     snapshot := snapshot r; mcast_sock := mcast_sock r; total_bytes_sent := v;
     last_bytes_sent := last_bytes_sent r; last_status_update := last_status_update r;
     last_mcast_data_time := last_mcast_data_time r;
     last_fcc_data_time := last_fcc_data_time r;
     last_mcast_rejoin_time := last_mcast_rejoin_time r; reorder_enabled := reorder_enabled r;
     reorder_slots := reorder_slots r; reorder_expected_seqn := reorder_expected_seqn r;
     reorder_base_seqn := reorder_base_seqn r; reorder_first_packet := reorder_first_packet r;
     reorder_waiting := reorder_waiting r; reorder_wait_start := reorder_wait_start r;
     reorder_drops := reorder_drops r; reorder_duplicates := reorder_duplicates r;
     reorder_out_of_order := reorder_out_of_order r;
     reorder_recovered := reorder_recovered r |}.

Definition set_last_bytes_sent (v : Z) (r : stream_context_t) : stream_context_t :=
  {| ctx_service := ctx_service r; epoll_fd := epoll_fd r;
     ctx_status_index := ctx_status_index r; fcc := fcc r; rtsp := rtsp r;
     snapshot := snapshot r; mcast_sock := mcast_sock r;
     total_bytes_sent := total_bytes_sent r; last_bytes_sent := v;
     last_status_update := last_status_update r;
     last_mcast_data_time := last_mcast_data_time r;
     last_fcc_data_time := last_fcc_data_time r;
     last_mcast_rejoin_time := last_mcast_rejoin_time r; reorder_enabled := reorder_enabled r;
     reorder_slots := reorder_slots r; reorder_expected_seqn := reorder_expected_seqn r;
     reorder_base_seqn := reorder_base_seqn r; reorder_first_packet := reorder_first_packet r;
     reorder_waiting := reorder_waiting r; reorder_wait_start := reorder_wait_start r;
     reorder_drops := reorder_drops r; reorder_duplicates := reorder_duplicates r;
     reorder_out_of_order := reorder_out_of_order r;
     reorder_recovered := reorder_recovered r |}.

Definition set_last_status_update (v : Z) (r : stream_context_t) : stream_context_t :=
  {| ctx_service := ctx_service r; epoll_fd := epoll_fd r;
     ctx_status_index := ctx_status_index r; fcc := fcc r; rtsp := rtsp r;
     snapshot := snapshot r; mcast_sock := mcast_sock r;
     total_bytes_sent := total_bytes_sent r; last_bytes_sent := last_bytes_sent r;
     last_status_update := v; last_mcast_data_time := last_mcast_data_time r;
     last_fcc_data_time := last_fcc_data_time r;
     last_mcast_rejoin_time := last_mcast_rejoin_time r; reorder_enabled := reorder_enabled r;
     reorder_slots := reorder_slots r; reorder_expected_seqn := reorder_expected_seqn r;
     reorder_base_seqn := reorder_base_seqn r; reorder_first_packet := reorder_first_packet r;
     reorder_waiting := reorder_waiting r; reorder_wait_start := reorder_wait_start r;
     reorder_drops := reorder_drops r; reorder_duplicates := reorder_duplicates r;
     reorder_out_of_order := reorder_out_of_order r;
     reorder_recovered := reorder_recovered r |}.

Definition set_last_mcast_data_time (v : Z) (r : stream_context_t) : stream_context_t :=
  {| ctx_service := ctx_service r; epoll_fd := epoll_fd r;
     ctx_status_index := ctx_status_index r; fcc := fcc r; rtsp := rtsp r;
     snapshot := snapshot r; mcast_sock := mcast_sock r;
     total_bytes_sent := total_bytes_sent r; last_bytes_sent := last_bytes_sent r;
     last_status_update := last_status_update r; last_mcast_data_time := v;
     last_fcc_data_time := last_fcc_data_time r;
     last_mcast_rejoin_time := last_mcast_rejoin_time r; reorder_enabled := reorder_enabled r;
     reorder_slots := reorder_slots r; reorder_expected_seqn := reorder_expected_seqn r;
     reorder_base_seqn := reorder_base_seqn r; reorder_first_packet := reorder_first_packet r;
     reorder_waiting := reorder_waiting r; reorder_wait_start := reorder_wait_start r;
     reorder_drops := reorder_drops r; reorder_duplicates := reorder_duplicates r;
     reorder_out_of_order := reorder_out_of_order r;
     reorder_recovered := reorder_recovered r |}.

Definition set_last_fcc_data_time (v : Z) (r : stream_context_t) : stream_context_t :=
  {| ctx_service := ctx_service r; epoll_fd := epoll_fd r;
     ctx_status_index := ctx_status_index r; fcc := fcc r; rtsp := rtsp r;
     snapshot := snapshot r; mcast_sock := mcast_sock r;
     total_bytes_sent := total_bytes_sent r; last_bytes_sent := last_bytes_sent r;
     last_status_update := last_status_update r;
     last_mcast_data_time := last_mcast_data_time r; last_fcc_data_time := v;
     last_mcast_rejoin_time := last_mcast_rejoin_time r; reorder_enabled := reorder_enabled r;
     reorder_slots := reorder_slots r; reorder_expected_seqn := reorder_expected_seqn r;
     reorder_base_seqn := reorder_base_seqn r; reorder_first_packet := reorder_first_packet r;
     reorder_waiting := reorder_waiting r; reorder_wait_start := reorder_wait_start r;
     reorder_drops := reorder_drops r; reorder_duplicates := reorder_duplicates r;
     reorder_out_of_order := reorder_out_of_order r;
     reorder_recovered := reorder_recovered r |}.

Definition set_last_mcast_rejoin_time (v : Z) (r : stream_context_t) : stream_context_t :=
  {| ctx_service := ctx_service r; epoll_fd := epoll_fd r;
     ctx_status_index := ctx_status_index r; fcc := fcc r; rtsp := rtsp r;
     snapshot := snapshot r; mcast_sock := mcast_sock r;
     total_bytes_sent := total_bytes_sent r; last_bytes_sent := last_bytes_sent r;
     last_status_update := last_status_update r;
     last_mcast_data_time := last_mcast_data_time r;
     last_fcc_data_time := last_fcc_data_time r; last_mcast_rejoin_time := v;
     reorder_enabled := reorder_enabled r; reorder_slots := reorder_slots r;
     reorder_expected_seqn := reorder_expected_seqn r;
     reorder_base_seqn := reorder_base_seqn r; reorder_first_packet := reorder_first_packet r;
     reorder_waiting := reorder_waiting r; reorder_wait_start := reorder_wait_start r;
     reorder_drops := reorder_drops r; reorder_duplicates := reorder_duplicates r;
     reorder_out_of_order := reorder_out_of_order r;
     reorder_recovered := reorder_recovered r |}.

Definition set_reorder_waiting (v : Z) (r : stream_context_t) : stream_context_t :=
  {| ctx_service := ctx_service r; epoll_fd := epoll_fd r;
     ctx_status_index := ctx_status_index r; fcc := fcc r; rtsp := rtsp r;
     snapshot := snapshot r; mcast_sock := mcast_sock r;
     total_bytes_sent := total_bytes_sent r; last_bytes_sent := last_bytes_sent r;
     last_status_update := last_status_update r;
     last_mcast_data_time := last_mcast_data_time r;
     last_fcc_data_time := last_fcc_data_time r;
     last_mcast_rejoin_time := last_mcast_rejoin_time r; reorder_enabled := reorder_enabled r;
     reorder_slots := reorder_slots r; reorder_expected_seqn := reorder_expected_seqn r;
     reorder_base_seqn := reorder_base_seqn r; reorder_first_packet := reorder_first_packet r;
     reorder_waiting := v; reorder_wait_start := reorder_wait_start r;
     reorder_drops := reorder_drops r; reorder_duplicates := reorder_duplicates r;
     reorder_out_of_order := reorder_out_of_order r;
     reorder_recovered := reorder_recovered r |}.

Record connection_t : Type := mk_connection {
  fd : Z;
  epfd : Z;
  state : conn_state_t;
  service : option service_t;
  service_owned : Z;
  streaming : Z;
  status_index : Z;
  client_addr_len : Z;
  zc_queue : zerocopy_queue_t;
  buffer_class : connection_buffer_class_t;
  queue_limit_bytes : Z;
  queue_bytes_highwater : Z;
  queue_buffers_highwater : Z;
  dropped_packets : Z;
  dropped_bytes : Z;
  backpressure_events : Z;
  stream_registered : Z;
  queue_avg_bytes : float;
  slow_active : Z;
  slow_candidate_since : Z;
  http_req : http_request_t;
  stream : stream_context_t
}.

Definition set_state (v : conn_state_t) (r : connection_t) : connection_t :=
  {| fd := fd r; epfd := epfd r; state := v; service := service r;
     service_owned := service_owned r; streaming := streaming r;
     status_index := status_index r; client_addr_len := client_addr_len r;
     zc_queue := zc_queue r; buffer_class := buffer_class r;
     queue_limit_bytes := queue_limit_bytes r;
     queue_bytes_highwater := queue_bytes_highwater r;
     queue_buffers_highwater := queue_buffers_highwater r;
     dropped_packets := dropped_packets r; dropped_bytes := dropped_bytes r;
     backpressure_events := backpressure_events r; stream_registered := stream_registered r;
     queue_avg_bytes := queue_avg_bytes r; slow_active := slow_active r;
     slow_candidate_since := slow_candidate_since r; http_req := http_req r;
     stream := stream r |}.

Definition set_service (v : option service_t) (r : connection_t) : connection_t :=
  {| fd := fd r; epfd := epfd r; state := state r; service := v;
     service_owned := service_owned r; streaming := streaming r;
     status_index := status_index r; client_addr_len := client_addr_len r;
     zc_queue := zc_queue r; buffer_class := buffer_class r;
     queue_limit_bytes := queue_limit_bytes r;
     queue_bytes_highwater := queue_bytes_highwater r;
     queue_buffers_highwater := queue_buffers_highwater r;
     dropped_packets := dropped_packets r; dropped_bytes := dropped_bytes r;
     backpressure_events := backpressure_events r; stream_registered := stream_registered r;
     queue_avg_bytes := queue_avg_bytes r; slow_active := slow_active r;
     slow_candidate_since := slow_candidate_since r; http_req := http_req r;
     stream := stream r |}.

Definition set_service_owned (v : Z) (r : connection_t) : connection_t :=
  {| fd := fd r; epfd := epfd r; state := state r; service := service r; service_owned := v;
     streaming := streaming r; status_index := status_index r;
     client_addr_len := client_addr_len r; zc_queue := zc_queue r;
     buffer_class := buffer_class r; queue_limit_bytes := queue_limit_bytes r;
     queue_bytes_highwater := queue_bytes_highwater r;
     queue_buffers_highwater := queue_buffers_highwater r;
     dropped_packets := dropped_packets r; dropped_bytes := dropped_bytes r;
     backpressure_events := backpressure_events r; stream_registered := stream_registered r;
     queue_avg_bytes := queue_avg_bytes r; slow_active := slow_active r;
     slow_candidate_since := slow_candidate_since r; http_req := http_req r;
     stream := stream r |}.

Definition set_streaming (v : Z) (r : connection_t) : connection_t :=
  {| fd := fd r; epfd := epfd r; state := state r; service := service r;
     service_owned := service_owned r; streaming := v; status_index := status_index r;
     client_addr_len := client_addr_len r; zc_queue := zc_queue r;
     buffer_class := buffer_class r; queue_limit_bytes := queue_limit_bytes r;
     queue_bytes_highwater := queue_bytes_highwater r;
     queue_buffers_highwater := queue_buffers_highwater r;
     dropped_packets := dropped_packets r; dropped_bytes := dropped_bytes r;
     backpressure_events := backpressure_events r; stream_registered := stream_registered r;
     queue_avg_bytes := queue_avg_bytes r; slow_active := slow_active r;
     slow_candidate_since := slow_candidate_since r; http_req := http_req r;
     stream := stream r |}.

Definition set_status_index (v : Z) (r : connection_t) : connection_t :=
  {| fd := fd r; epfd := epfd r; state := state r; service := service r;
     service_owned := service_owned r; streaming := streaming r; status_index := v;
     client_addr_len := client_addr_len r; zc_queue := zc_queue r;
     buffer_class := buffer_class r; queue_limit_bytes := queue_limit_bytes r;
     queue_bytes_highwater := queue_bytes_highwater r;
     queue_buffers_highwater := queue_buffers_highwater r;
     dropped_packets := dropped_packets r; dropped_bytes := dropped_bytes r;
     backpressure_events := backpressure_events r; stream_registered := stream_registered r;
     queue_avg_bytes := queue_avg_bytes r; slow_active := slow_active r;
     slow_candidate_since := slow_candidate_since r; http_req := http_req r;
     stream := stream r |}.

Definition set_zc_queue (v : zerocopy_queue_t) (r : connection_t) : connection_t :=
  {| fd := fd r; epfd := epfd r; state := state r; service := service r;
     service_owned := service_owned r; streaming := streaming r;
     status_index := status_index r; client_addr_len := client_addr_len r; zc_queue := v;
     buffer_class := buffer_class r; queue_limit_bytes := queue_limit_bytes r;
     queue_bytes_highwater := queue_bytes_highwater r;
     queue_buffers_highwater := queue_buffers_highwater r;
     dropped_packets := dropped_packets r; dropped_bytes := dropped_bytes r;
     backpressure_events := backpressure_events r; stream_registered := stream_registered r;
     queue_avg_bytes := queue_avg_bytes r; slow_active := slow_active r;
     slow_candidate_since := slow_candidate_since r; http_req := http_req r;
     stream := stream r |}.

Definition set_buffer_class (v : connection_buffer_class_t) (r : connection_t) : connection_t :=
  {| fd := fd r; epfd := epfd r; state := state r; service := service r;
     service_owned := service_owned r; streaming := streaming r;
     status_index := status_index r; client_addr_len := client_addr_len r;
     zc_queue := zc_queue r; buffer_class := v; queue_limit_bytes := queue_limit_bytes r;
     queue_bytes_highwater := queue_bytes_highwater r;
     queue_buffers_highwater := queue_buffers_highwater r;
     dropped_packets := dropped_packets r; dropped_bytes := dropped_bytes r;
     backpressure_events := backpressure_events r; stream_registered := stream_registered r;
     queue_avg_bytes := queue_avg_bytes r; slow_active := slow_active r;
     slow_candidate_since := slow_candidate_since r; http_req := http_req r;
     stream := stream r |}.

Definition set_queue_limit_bytes (v : Z) (r : connection_t) : connection_t :=
  {| fd := fd r; epfd := epfd r; state := state r; service := service r;
     service_owned := service_owned r; streaming := streaming r;
     status_index := status_index r; client_addr_len := client_addr_len r;
     zc_queue := zc_queue r; buffer_class := buffer_class r; queue_limit_bytes := v;
     queue_bytes_highwater := queue_bytes_highwater r;
     queue_buffers_highwater := queue_buffers_highwater r;
     dropped_packets := dropped_packets r; dropped_bytes := dropped_bytes r;
     backpressure_events := backpressure_events r; stream_registered := stream_registered r;
     queue_avg_bytes := queue_avg_bytes r; slow_active := slow_active r;
     slow_candidate_since := slow_candidate_since r; http_req := http_req r;
     stream := stream r |}.

Definition set_queue_bytes_highwater (v : Z) (r : connection_t) : connection_t :=
  {| fd := fd r; epfd := epfd r; state := state r; service := service r;
     service_owned := service_owned r; streaming := streaming r;
     status_index := status_index r; client_addr_len := client_addr_len r;
     zc_queue := zc_queue r; buffer_class := buffer_class r;
     queue_limit_bytes := queue_limit_bytes r; queue_bytes_highwater := v;
     queue_buffers_highwater := queue_buffers_highwater r;
     dropped_packets := dropped_packets r; dropped_bytes := dropped_bytes r;
     backpressure_events := backpressure_events r; stream_registered := stream_registered r;
     queue_avg_bytes := queue_avg_bytes r; slow_active := slow_active r;
     slow_candidate_since := slow_candidate_since r; http_req := http_req r;
     stream := stream r |}.

Definition set_queue_buffers_highwater (v : Z) (r : connection_t) : connection_t :=
  {| fd := fd r; epfd := epfd r; state := state r; service := service r;
     service_owned := service_owned r; streaming := streaming r;
     status_index := status_index r; client_addr_len := client_addr_len r;
     zc_queue := zc_queue r; buffer_class := buffer_class r;
     queue_limit_bytes := queue_limit_bytes r;
     queue_bytes_highwater := queue_bytes_highwater r; queue_buffers_highwater := v;
     dropped_packets := dropped_packets r; dropped_bytes := dropped_bytes r;
     backpressure_events := backpressure_events r; stream_registered := stream_registered r;
     queue_avg_bytes := queue_avg_bytes r; slow_active := slow_active r;
     slow_candidate_since := slow_candidate_since r; http_req := http_req r;
     stream := stream r |}.

Definition set_dropped_packets (v : Z) (r : connection_t) : connection_t :=
  {| fd := fd r; epfd := epfd r; state := state r; service := service r;
     service_owned := service_owned r; streaming := streaming r;
     status_index := status_index r; client_addr_len := client_addr_len r;
     zc_queue := zc_queue r; buffer_class := buffer_class r;
     queue_limit_bytes := queue_limit_bytes r;
     queue_bytes_highwater := queue_bytes_highwater r;
     queue_buffers_highwater := queue_buffers_highwater r; dropped_packets := v;
     dropped_bytes := dropped_bytes r; backpressure_events := backpressure_events r;
     stream_registered := stream_registered r; queue_avg_bytes := queue_avg_bytes r;
     slow_active := slow_active r; slow_candidate_since := slow_candidate_since r;
     http_req := http_req r; stream := stream r |}.

Definition set_dropped_bytes (v : Z) (r : connection_t) : connection_t :=
  {| fd := fd r; epfd := epfd r; state := state r; service := service r;
     service_owned := service_owned r; streaming := streaming r;
     status_index := status_index r; client_addr_len := client_addr_len r;
     zc_queue := zc_queue r; buffer_class := buffer_class r;
     queue_limit_bytes := queue_limit_bytes r;
     queue_bytes_highwater := queue_bytes_highwater r;
     queue_buffers_highwater := queue_buffers_highwater r;
     dropped_packets := dropped_packets r; dropped_bytes := v;
     backpressure_events := backpressure_events r; stream_registered := stream_registered r;
     queue_avg_bytes := queue_avg_bytes r; slow_active := slow_active r;
     slow_candidate_since := slow_candidate_since r; http_req := http_req r;
     stream := stream r |}.

Definition set_backpressure_events (v : Z) (r : connection_t) : connection_t :=
  {| fd := fd r; epfd := epfd r; state := state r; service := service r;
     service_owned := service_owned r; streaming := streaming r;
     status_index := status_index r; client_addr_len := client_addr_len r;
     zc_queue := zc_queue r; buffer_class := buffer_class r;
     queue_limit_bytes := queue_limit_bytes r;
     queue_bytes_highwater := queue_bytes_highwater r;
     queue_buffers_highwater := queue_buffers_highwater r;
     dropped_packets := dropped_packets r; dropped_bytes := dropped_bytes r;
     backpressure_events := v; stream_registered := stream_registered r;
     queue_avg_bytes := queue_avg_bytes r; slow_active := slow_active r;
     slow_candidate_since := slow_candidate_since r; http_req := http_req r;
     stream := stream r |}.

Definition set_stream_registered (v : Z) (r : connection_t) : connection_t :=
  {| fd := fd r; epfd := epfd r; state := state r; service := service r;
     service_owned := service_owned r; streaming := streaming r;
     status_index := status_index r; client_addr_len := client_addr_len r;
     zc_queue := zc_queue r; buffer_class := buffer_class r;
     queue_limit_bytes := queue_limit_bytes r;
     queue_bytes_highwater := queue_bytes_highwater r;
     queue_buffers_highwater := queue_buffers_highwater r;
     dropped_packets := dropped_packets r; dropped_bytes := dropped_bytes r;
     backpressure_events := backpressure_events r; stream_registered := v;
     queue_avg_bytes := queue_avg_bytes r; slow_active := slow_active r;
     slow_candidate_since := slow_candidate_since r; http_req := http_req r;
     stream := stream r |}.

Definition set_queue_avg_bytes (v : float) (r : connection_t) : connection_t :=
  {| fd := fd r; epfd := epfd r; state := state r; service := service r;
     service_owned := service_owned r; streaming := streaming r;
     status_index := status_index r; client_addr_len := client_addr_len r;
     zc_queue := zc_queue r; buffer_class := buffer_class r;
     queue_limit_bytes := queue_limit_bytes r;
     queue_bytes_highwater := queue_bytes_highwater r;
     queue_buffers_highwater := queue_buffers_highwater r;
     dropped_packets := dropped_packets r; dropped_bytes := dropped_bytes r;
     backpressure_events := backpressure_events r; stream_registered := stream_registered r;
     queue_avg_bytes := v; slow_active := slow_active r;
     slow_candidate_since := slow_candidate_since r; http_req := http_req r;
     stream := stream r |}.

Definition set_slow_active (v : Z) (r : connection_t) : connection_t :=
  {| fd := fd r; epfd := epfd r; state := state r; service := service r;
     service_owned := service_owned r; streaming := streaming r;
     status_index := status_index r; client_addr_len := client_addr_len r;
     zc_queue := zc_queue r; buffer_class := buffer_class r;
     queue_limit_bytes := queue_limit_bytes r;
     queue_bytes_highwater := queue_bytes_highwater r;
     queue_buffers_highwater := queue_buffers_highwater r;
     dropped_packets := dropped_packets r; dropped_bytes := dropped_bytes r;
     backpressure_events := backpressure_events r; stream_registered := stream_registered r;
     queue_avg_bytes := queue_avg_bytes r; slow_active := v;
     slow_candidate_since := slow_candidate_since r; http_req := http_req r;
     stream := stream r |}.

Definition set_slow_candidate_since (v : Z) (r : connection_t) : connection_t :=
  {| fd := fd r; epfd := epfd r; state := state r; service := service r;
     service_owned := service_owned r; streaming := streaming r;
     status_index := status_index r; client_addr_len := client_addr_len r;
     zc_queue := zc_queue r; buffer_class := buffer_class r;
     queue_limit_bytes := queue_limit_bytes r;
     queue_bytes_highwater := queue_bytes_highwater r;
     queue_buffers_highwater := queue_buffers_highwater r;
     dropped_packets := dropped_packets r; dropped_bytes := dropped_bytes r;
     backpressure_events := backpressure_events r; stream_registered := stream_registered r;
     queue_avg_bytes := queue_avg_bytes r; slow_active := slow_active r;
     slow_candidate_since := v; http_req := http_req r; stream := stream r |}.

Definition set_stream (v : stream_context_t) (r : connection_t) : connection_t :=
  {| fd := fd r; epfd := epfd r; state := state r; service := service r;
     service_owned := service_owned r; streaming := streaming r;
     status_index := status_index r; client_addr_len := client_addr_len r;
     zc_queue := zc_queue r; buffer_class := buffer_class r;
     queue_limit_bytes := queue_limit_bytes r;
     queue_bytes_highwater := queue_bytes_highwater r;
     queue_buffers_highwater := queue_buffers_highwater r;
     dropped_packets := dropped_packets r; dropped_bytes := dropped_bytes r;
     backpressure_events := backpressure_events r; stream_registered := stream_registered r;
     queue_avg_bytes := queue_avg_bytes r; slow_active := slow_active r;
     slow_candidate_since := slow_candidate_since r; http_req := http_req r; stream := v |}.


(** What one [recv] / [recvfrom] hands back: the return value, whether
    [errno] is [EAGAIN] after a negative return, the bytes stored, and
    the peer address ([recvfrom] only). *)
Record recv_result : Type := mk_recv_result {
  actualr : Z;
  errno_is_EAGAIN : bool;
  rx_bytes : list Byte.byte;
  peer_addr : sockaddr_in
}.

(** A request that reached the media branch (line 724): the service, the
    [owned] flag, the decoded path and the query text from '?' on. *)
Record resolved : Type := mk_resolved {
  rs_service : service_t;
  rs_owned : Z;
  rs_decoded_path : string;
  rs_query_start : option string
}.

(** ** Calls to collaborators *)

Inductive epoll_op : Type := EPOLL_CTL_ADD | EPOLL_CTL_MOD.

Inductive call : Type :=
| call_get_time_ms
| call_buffer_pool_alloc
| call_buffer_pool_alloc_control
| call_buffer_ref_put (b : buffer_ref_t)
| call_status_update_client_queue
    (idx queue_bytes queue_buffers limit hw_bytes hw_buffers drop_pkts drop_bytes bp slow : Z)
| call_status_update_client_bytes (idx bytes bandwidth : Z)
| call_status_register_client (display_url : string)
| call_epoll_ctl (op : epoll_op) (ep sock events : Z)
| call_http_send (st : http_status_t)
| call_send_http_headers (st : http_status_t) (ct : content_type_t) (extra : option string)
| call_handle_status_page
| call_status_handle_sse_init
| call_handle_disconnect_client
| call_handle_set_log_level
| call_m3u_get_transformed_playlist
| call_service_create_from_udpxy_url (u : string)
| call_service_create_with_query_merge (s : service_t) (u : string)
| call_service_clone (s : service_t)
| call_service_free (s : service_t)
| call_zerocopy_register_stream_client
| call_join_mcast_group (s : option service_t)
| call_rejoin_mcast_group (sock : Z)
| call_fdmap_set (sock : Z)
| call_close (sock : Z)
| call_recv (sock len : Z)
| call_recvfrom (sock len : Z)
| call_fcc_session_set_state (st : fcc_state_t) (reason : string)
| call_fcc_initialize_and_request
| call_fcc_handle_server_response
| call_fcc_handle_sync_notification (timeout_ms : Z)
| call_fcc_handle_unicast_media
| call_fcc_handle_mcast_active
| call_fcc_handle_mcast_transition
| call_rtsp_parse_server_url
| call_rtsp_connect
| call_rtsp_handle_socket_event
| call_rtsp_handle_udp_rtp_data
| call_rtsp_send_keepalive
| call_snapshot_init
| call_snapshot_process_packet
| call_snapshot_fallback_to_streaming
| call_rtp_reorder_and_queue
| call_rtp_reorder_timeout_recovery.

(** ** The world outside the modelled records

    [W] stands for everything the modelled functions do not own: the
    buffer pool, the status table, the kernel. *)

Record world (W : Type) : Type := mk_world { ext : W; calls : list call }.
Arguments mk_world {W} _ _.
Arguments ext {W} _.
Arguments calls {W} _.

(** A computation returns, or ends the process through [exit]. *)
Inductive outcome (W A : Type) : Type :=
| Returned (a : A) (w : world W)
| Exited (code : Z) (w : world W).
Arguments Returned {W A} _ _.
Arguments Exited {W A} _ _.

Definition M (W A : Type) : Type := world W -> outcome W A.

Definition ret {W A : Type} (a : A) : M W A := fun w => Returned a w.

Definition bind {W A B : Type} (m : M W A) (k : A -> M W B) : M W B :=
  fun w => match m w with
           | Returned a w' => k a w'
           | Exited code w' => Exited code w'
           end.

Definition exit {W A : Type} (code : Z) : M W A := fun w => Exited code w.

(** A call that yields a result. *)
Definition extcall {W A : Type} (e : call) (f : W -> A * W) : M W A :=
  fun w => Returned (fst (f (ext w))) (mk_world (snd (f (ext w))) (calls w ++ [e])).

(** A call to a [void] function. *)
Definition extcall_ {W : Type} (e : call) (f : W -> W) : M W unit :=
  fun w => Returned tt (mk_world (f (ext w)) (calls w ++ [e])).

(** Reading a global without calling anything. *)
Definition peek {W A : Type} (f : W -> A) : M W A := fun w => Returned (f (ext w)) w.

Declare Scope m_scope.
Delimit Scope m_scope with m.
Notation "x <- m ;; k" := (bind m (fun x => k))
  (at level 100, m at next level, right associativity) : m_scope.
Notation "' p <- m ;; k" := (bind m (fun x => let p := x in k))
  (at level 100, p pattern, m at next level, right associativity) : m_scope.
Notation "m ;; k" := (bind m (fun _ => k))
  (at level 100, right associativity) : m_scope.

(** ** Collaborators *)

#[local] Set Implicit Arguments.

Record externs (W : Type) : Type := mk_externs {
  (* clock *)
  get_time_ms : W -> Z * W;
  (* zerocopy.c *)
  zerocopy_state_pool : W -> buffer_pool_t;
  zerocopy_active_streams : W -> Z;
  buffer_pool_alloc : W -> option buffer_ref_t * W;
  buffer_pool_alloc_control : W -> option buffer_ref_t * W;
  buffer_ref_put : buffer_ref_t -> W -> W;
  zerocopy_queue_refuses : zerocopy_queue_t -> buffer_ref_t -> bool;
  zerocopy_should_flush : zerocopy_queue_t -> W -> bool;
  zerocopy_register_stream_client : W -> W;
  (* status.c *)
  status_shared_total_clients : W -> option Z;
  status_update_client_queue : Z -> Z -> Z -> Z -> Z -> Z -> Z -> Z -> Z -> Z -> W -> W;
  status_update_client_bytes : Z -> Z -> Z -> W -> W;
  status_register_client : Z -> string -> W -> Z * W;
  handle_status_page : connection_t -> W -> connection_t * W;
  status_handle_sse_init : connection_t -> W -> (Z * connection_t) * W;
  handle_disconnect_client : connection_t -> W -> connection_t * W;
  handle_set_log_level : connection_t -> W -> connection_t * W;
  (* http.c *)
  http_parse_query_param : string -> string -> Z -> option string;
  http_url_decode : string -> option string;
  http_error_response : http_status_t -> connection_t -> W -> connection_t * W;
  send_http_headers :
    http_status_t -> content_type_t -> option string -> connection_t -> W -> connection_t * W;
  (* m3u.c, service.c *)
  m3u_get_transformed_playlist : W -> option string * W;
  service_create_from_udpxy_url : string -> W -> option service_t * W;
  service_create_with_query_merge :
    service_t -> string -> service_type_t -> W -> option service_t * W;
  service_clone : service_t -> W -> option service_t * W;
  service_free : service_t -> W -> W;
  (* kernel *)
  epoll_ctl : epoll_op -> Z -> Z -> Z -> W -> Z * W;
  sys_recv : Z -> Z -> W -> recv_result * W;
  sys_recvfrom : Z -> Z -> W -> recv_result * W;
  sys_close : Z -> W -> W;
  (* multicast.c, worker.c *)
  join_mcast_group : option service_t -> W -> Z * W;
  rejoin_mcast_group : Z -> option service_t -> W -> Z * W;
  fdmap_set : Z -> W -> W;
  (* fcc.c *)
  fcc_session_init : fcc_session_t -> fcc_session_t;
  fcc_state_changed : fcc_state_t -> string -> W -> W;
  fcc_initialize_and_request : connection_t -> W -> (Z * connection_t) * W;
  fcc_handle_server_response :
    connection_t -> list Byte.byte -> Z -> sockaddr_in -> W -> (Z * connection_t) * W;
  fcc_handle_sync_notification : connection_t -> Z -> W -> (Z * connection_t) * W;
  fcc_handle_unicast_media : connection_t -> buffer_ref_t -> W -> (Z * connection_t) * W;
  fcc_handle_mcast_active : connection_t -> buffer_ref_t -> W -> (Z * connection_t) * W;
  fcc_handle_mcast_transition : connection_t -> buffer_ref_t -> W -> (Z * connection_t) * W;
  (* rtsp.c *)
  rtsp_session_init : rtsp_session_t -> rtsp_session_t;
  rtsp_parse_server_url :
    connection_t -> string -> option string -> option string -> W -> (Z * connection_t) * W;
  rtsp_connect : connection_t -> W -> (Z * connection_t) * W;
  rtsp_handle_socket_event : connection_t -> Z -> W -> (Z * connection_t) * W;
  rtsp_handle_udp_rtp_data : connection_t -> W -> (Z * connection_t) * W;
  rtsp_send_keepalive : connection_t -> W -> (Z * connection_t) * W;
  (* snapshot.c, rtp.c *)
  snapshot_init : connection_t -> W -> (Z * connection_t) * W;
  snapshot_process_packet : connection_t -> buffer_ref_t -> W -> (Z * connection_t) * W;
  snapshot_fallback_to_streaming : connection_t -> W -> connection_t * W;
  rtp_reorder_and_queue : connection_t -> buffer_ref_t -> W -> (Z * connection_t) * W;
  rtp_reorder_timeout_recovery : connection_t -> W -> connection_t * W
}.

#[local] Unset Implicit Arguments.

(** Compile-time constants whose headers are not among the sources. *)
Record constants : Type := mk_constants {
  BUFFER_POOL_BUFFER_SIZE : Z;
  BUFFER_POOL_INITIAL_SIZE : Z;
  MCAST_TIMEOUT_SEC : Z;
  FCC_TIMEOUT_SIGNALING_MS : Z;
  FCC_TIMEOUT_UNICAST_SEC : float;
  FCC_TIMEOUT_SYNC_WAIT_SEC : float;
  RTP_REORDER_TIMEOUT_MS : Z;
  RTP_REORDER_BUFFER_SIZE : Z;
  SNAPSHOT_TIMEOUT_SEC : Z;
  RTCP_BUFFER_SIZE : Z;
  RETVAL_SOCK_READ_FAILED : Z
}.

(** The buffer size is positive; without it the loop of
    [connection_queue_output] would not advance. *)
Definition constants_ok (K : constants) : Prop := 0 < BUFFER_POOL_BUFFER_SIZE K.

(** ** String helpers (string.h, strings.h) *)

(** [strchr]: index of the first occurrence. *)
Fixpoint strchr (s : string) (ch : ascii) : option nat :=
  match s with
  | EmptyString => None
  | String a rest =>
      if Ascii.eqb a ch then Some O
      else match strchr rest ch with Some i => Some (S i) | None => None end
  end.

(** The string that starts [n] characters into [s] (pointer addition). *)
Fixpoint str_from (n : nat) (s : string) : string :=
  match n, s with
  | O, _ => s
  | S n', String _ rest => str_from n' rest
  | S _, EmptyString => EmptyString
  end.

(** [strncmp a b n == 0]. *)
Fixpoint strncmp_eq (a b : string) (n : nat) : bool :=
  match n with
  | O => true
  | S n' =>
      match a, b with
      | EmptyString, EmptyString => true
      | String x a', String y b' => Ascii.eqb x y && strncmp_eq a' b' n'
      | _, _ => false
      end
  end.

Definition tolower (a : ascii) : ascii :=
  let n := nat_of_ascii a in
  if (65 <=? n)%nat && (n <=? 90)%nat then ascii_of_nat (n + 32) else a.

(** [strcasecmp a b == 0]. *)
Fixpoint strcasecmp_eq (a b : string) : bool :=
  match a, b with
  | EmptyString, EmptyString => true
  | String x a', String y b' => Ascii.eqb (tolower x) (tolower y) && strcasecmp_eq a' b'
  | _, _ => false
  end.

(** [strstr hay needle != NULL]. *)
Fixpoint strstr_found (hay needle : string) : bool :=
  String.prefix needle hay ||
  match hay with
  | EmptyString => false
  | String _ rest => strstr_found rest needle
  end.

(** What [snprintf] / [strncpy] leave in a buffer of [size] bytes. *)
Definition truncate_to (size : Z) (s : string) : string :=
  String.substring 0 (Z.to_nat (size - 1)) s.

(** [%zu]. *)
Definition string_of_size (n : nat) : string :=
  DecimalString.NilZero.string_of_uint (Nat.to_uint n).

(** [s[0] != '\0']. *)
Definition nonempty (s : string) : bool :=
  match s with EmptyString => false | String _ _ => true end.

Definition Zbool (z : Z) : bool := negb (z =? 0).

(** ** A small simulated world

    A concrete instance of the collaborators, used to run the model on
    explicit inputs. *)

Record sim_world : Type := mk_sim_world {
  sim_pool : buffer_pool_t;
  sim_streams : Z;
  sim_clock : Z;
  sim_clients : option Z;
  sim_join_sock : Z
}.

Definition sim_take_buffer (w : sim_world) : option buffer_ref_t * sim_world :=
  let p := sim_pool w in
  if 0 <? num_free p then
    (Some {| data := []; data_offset := 0; data_size := 0 |},
     {| sim_pool := {| num_buffers := num_buffers p; num_free := num_free p - 1;
                       max_buffers := max_buffers p; low_watermark := low_watermark p |};
        sim_streams := sim_streams w; sim_clock := sim_clock w;
        sim_clients := sim_clients w; sim_join_sock := sim_join_sock w |})
  else (None, w).

Fixpoint sim_split (sep : ascii) (s : string) : list string :=
  match s with
  | EmptyString => [EmptyString]
  | String a rest =>
      if Ascii.eqb a sep then EmptyString :: sim_split sep rest
      else match sim_split sep rest with
           | [] => [String a EmptyString]
           | x :: xs => String a x :: xs
           end
  end.

(** [name=value] pairs separated by ampersands; a value that does not fit
    the caller's buffer is an error. *)
Definition sim_parse_query_param (query name : string) (size : Z) : option string :=
  let key := (name ++ "=")%string in
  match find (fun seg => String.prefix key seg) (sim_split "&" query) with
  | Some seg =>
      let v := str_from (String.length key) seg in
      if Z.of_nat (String.length v) <? size then Some v else None
  | None => None
  end.

(** Strings without an escape decode to themselves; escapes are refused. *)
Definition sim_url_decode (s : string) : option string :=
  match strchr s "%" with Some _ => None | None => Some s end.

Definition sim_recv : recv_result :=
  {| actualr := 0; errno_is_EAGAIN := false; rx_bytes := [];
     peer_addr := {| sin_addr := 0; sin_port := 0 |} |}.

Definition X0 : externs sim_world :=
  {| get_time_ms := fun w => (sim_clock w, w);
     zerocopy_state_pool := sim_pool;
     zerocopy_active_streams := sim_streams;
     buffer_pool_alloc := sim_take_buffer;
     buffer_pool_alloc_control := sim_take_buffer;
     buffer_ref_put := fun _ w => w;
     zerocopy_queue_refuses := fun _ _ => false;
     zerocopy_should_flush := fun q _ => 8 <=? num_queued q;
     zerocopy_register_stream_client := fun w => w;
     status_shared_total_clients := sim_clients;
     status_update_client_queue := fun _ _ _ _ _ _ _ _ _ _ w => w;
     status_update_client_bytes := fun _ _ _ w => w;
     status_register_client := fun _ _ w => (0, w);
     handle_status_page := fun c w => (c, w);
     status_handle_sse_init := fun c w => ((0, c), w);
     handle_disconnect_client := fun c w => (c, w);
     handle_set_log_level := fun c w => (c, w);
     http_parse_query_param := sim_parse_query_param;
     http_url_decode := sim_url_decode;
     http_error_response := fun _ c w => (c, w);
     send_http_headers := fun _ _ _ c w => (c, w);
     m3u_get_transformed_playlist := fun w => (None, w);
     service_create_from_udpxy_url := fun _ w => (None, w);
     service_create_with_query_merge := fun _ _ _ w => (None, w);
     service_clone := fun s w => (Some s, w);
     service_free := fun _ w => w;
     epoll_ctl := fun _ _ _ _ w => (0, w);
     sys_recv := fun _ _ w => (sim_recv, w);
     sys_recvfrom := fun _ _ w => (sim_recv, w);
     sys_close := fun _ w => w;
     join_mcast_group := fun _ w => (sim_join_sock w, w);
     rejoin_mcast_group := fun _ _ w => (0, w);
     fdmap_set := fun _ w => w;
     fcc_session_init := fun f => f;
     fcc_state_changed := fun _ _ w => w;
     fcc_initialize_and_request := fun c w => ((0, c), w);
     fcc_handle_server_response := fun c _ _ _ w => ((0, c), w);
     fcc_handle_sync_notification := fun c _ w => ((0, c), w);
     fcc_handle_unicast_media := fun c _ w => ((0, c), w);
     fcc_handle_mcast_active := fun c _ w => ((0, c), w);
     fcc_handle_mcast_transition := fun c _ w => ((0, c), w);
     rtsp_session_init := fun r => r;
     rtsp_parse_server_url := fun c _ _ _ w => ((0, c), w);
     rtsp_connect := fun c w => ((0, c), w);
     rtsp_handle_socket_event := fun c _ w => ((0, c), w);
     rtsp_handle_udp_rtp_data := fun c w => ((0, c), w);
     rtsp_send_keepalive := fun c w => ((0, c), w);
     snapshot_init := fun c w => ((0, c), w);
     snapshot_process_packet := fun c _ w => ((0, c), w);
     snapshot_fallback_to_streaming := fun c w => (c, w);
     rtp_reorder_and_queue := fun c _ w => ((0, c), w);
     rtp_reorder_timeout_recovery := fun c w => (c, w) |}.

(** Buffers of 2 KiB, a multicast timeout of 10 s, a reorder window of
    32 slots and 40 ms; the remaining values are examples. *)
Definition K0 : constants :=
  {| BUFFER_POOL_BUFFER_SIZE := 2048;
     BUFFER_POOL_INITIAL_SIZE := 1024;
     MCAST_TIMEOUT_SEC := 10;
     FCC_TIMEOUT_SIGNALING_MS := 80;
     FCC_TIMEOUT_UNICAST_SEC := 1.0%float;
     FCC_TIMEOUT_SYNC_WAIT_SEC := 15.0%float;
     RTP_REORDER_TIMEOUT_MS := 40;
     RTP_REORDER_BUFFER_SIZE := 32;
     SNAPSHOT_TIMEOUT_SEC := 5;
     RTCP_BUFFER_SIZE := 64;
     RETVAL_SOCK_READ_FAILED := 5 |}.

Definition pool0 : buffer_pool_t :=
  {| num_buffers := 1024; num_free := 900; max_buffers := 16384; low_watermark := 64 |}.

(** The pool of scenario S3, capped at 64 buffers. *)
Definition small_pool : buffer_pool_t :=
  {| num_buffers := 64; num_free := 64; max_buffers := 64; low_watermark := 8 |}.

Definition sim0 : sim_world :=
  {| sim_pool := pool0; sim_streams := 16; sim_clock := 5000; sim_clients := Some 3;
     sim_join_sock := 9 |}.

Definition w0 : world sim_world := mk_world sim0 [].

Definition req0 : http_request_t :=
  {| method := "GET"; req_url := "/ch1"; req_hostname := "gw"; req_user_agent := "";
     accept := ""; x_request_snapshot := 0 |}.

Definition ctx0 : stream_context_t :=
  {| ctx_service := None; epoll_fd := 3; ctx_status_index := -1;
     fcc := {| fcc_sock := 0; fcc_state := FCC_STATE_INIT;
               fcc_server := {| sin_addr := 0; sin_port := 0 |}; media_port := 0;
               unicast_start_time := 0; fcc_status_index := -1 |};
     rtsp := {| rtsp_socket := 0; rtp_socket := 0; rtcp_socket := 0;
                rtsp_state := RTSP_STATE_INIT; transport_mode := RTSP_TRANSPORT_TCP;
                keepalive_interval_ms := 0; last_keepalive_ms := 0; session_id := "";
                rtsp_status_index := -1; rtsp_epoll_fd := 0 |};
     snapshot := {| enabled := 0; start_time := 0; fallback_to_streaming := 0 |};
     mcast_sock := 0; total_bytes_sent := 0; last_bytes_sent := 0; last_status_update := 0;
     last_mcast_data_time := 0; last_fcc_data_time := 0; last_mcast_rejoin_time := 0;
     reorder_enabled := 1; reorder_slots := []; reorder_expected_seqn := 0;
     reorder_base_seqn := 0; reorder_first_packet := 1; reorder_waiting := 0;
     reorder_wait_start := 0; reorder_drops := 0; reorder_duplicates := 0;
     reorder_out_of_order := 0; reorder_recovered := 0 |}.

(** The connection [connection_create] returns, with a parsed request. *)
Definition conn0 : connection_t :=
  {| fd := 7; epfd := 3; state := CONN_READ_REQ_LINE; service := None; service_owned := 0;
     streaming := 0; status_index := -1; client_addr_len := 16;
     zc_queue := {| items := []; num_queued := 0 |};
     buffer_class := CONNECTION_BUFFER_CONTROL; queue_limit_bytes := 0;
     queue_bytes_highwater := 0; queue_buffers_highwater := 0; dropped_packets := 0;
     dropped_bytes := 0; backpressure_events := 0; stream_registered := 0;
     queue_avg_bytes := 0%float; slow_active := 0; slow_candidate_since := 0;
     http_req := req0; stream := ctx0 |}.

Definition full_buf : buffer_ref_t :=
  {| data := repeat Byte.x47 2048; data_offset := 0; data_size := 2048 |}.

Definition empty_buf : buffer_ref_t :=
  {| data := []; data_offset := 0; data_size := 0 |}.

(** A buffer whose [data_size] is [(size_t)-1], and an item of a million
    bytes. *)
Definition wrapped_buf : buffer_ref_t :=
  {| data := []; data_offset := 0; data_size := SIZE_MAX |}.

Definition huge_buf : buffer_ref_t :=
  {| data := []; data_offset := 0; data_size := 1000000 |}.

(** A connection with two hundred full buffers queued. *)
Definition conn_backlog : connection_t :=
  set_zc_queue {| items := repeat full_buf 200; num_queued := 200 |} conn0.

Definition svc_ch1 : service_t :=
  {| url := "ch1"; msrc := None; service_type := SERVICE_MRTP; source := SERVICE_SOURCE_INLINE;
     addr := Some "239.0.0.1:1234"%string; msrc_addr := None; fcc_addr := None; rtsp_url := None;
     playseek_param := None; user_agent := None |}.

Definition services0 : list service_t := [svc_ch1].

(** No Host check, no token, at most ten clients. *)
Definition config0 : config_t :=
  {| hostname := None; r2h_token := None; status_page_route := None; udpxy := 1;
     maxclients := 10; mcast_rejoin_interval := 0; video_snapshot := 0 |}.

(** The same with the auth token of scenario S5. *)
Definition config_token : config_t :=
  {| hostname := None; r2h_token := Some "abc"%string; status_page_route := None; udpxy := 1;
     maxclients := 10; mcast_rejoin_interval := 0; video_snapshot := 0 |}.

Definition with_request (m u : string) (c : connection_t) : connection_t :=
  {| fd := fd c; epfd := epfd c; state := state c; service := service c;
     service_owned := service_owned c; streaming := streaming c;
     status_index := status_index c; client_addr_len := client_addr_len c;
     zc_queue := zc_queue c; buffer_class := buffer_class c;
     queue_limit_bytes := queue_limit_bytes c;
     queue_bytes_highwater := queue_bytes_highwater c;
     queue_buffers_highwater := queue_buffers_highwater c;
     dropped_packets := dropped_packets c; dropped_bytes := dropped_bytes c;
     backpressure_events := backpressure_events c; stream_registered := stream_registered c;
     queue_avg_bytes := queue_avg_bytes c; slow_active := slow_active c;
     slow_candidate_since := slow_candidate_since c;
     http_req := {| method := m; req_url := u; req_hostname := "gw"; req_user_agent := "";
                    accept := ""; x_request_snapshot := 0 |};
     stream := stream c |}.

(** A configured token of 256 characters, one more than a 256-byte
    buffer holds, and the request that carries exactly it. *)
Definition long_token : string := string_of_list_ascii (repeat "a"%char 256).

Definition config_long_token : config_t :=
  {| hostname := None; r2h_token := Some long_token; status_page_route := None; udpxy := 1;
     maxclients := 10; mcast_rejoin_interval := 0; video_snapshot := 0 |}.

Definition long_token_request : connection_t :=
  with_request "GET" ("/ch1?r2h-token=" ++ long_token) conn0.

(** A world in which eleven clients are already streaming. *)
Definition w_busy : world sim_world :=
  mk_world {| sim_pool := pool0; sim_streams := 11; sim_clock := 5000;
              sim_clients := Some 11; sim_join_sock := 9 |} [].


Definition w_one_buffer : world sim_world :=
  mk_world {| sim_pool := {| num_buffers := 1024; num_free := 1; max_buffers := 16384;
                             low_watermark := 64 |};
              sim_streams := 1; sim_clock := 5000; sim_clients := Some 1;
              sim_join_sock := 9 |} [].

(** A streaming connection waiting for the FCC server: request sent on
    socket 5 at time 0, multicast not joined. *)
Definition conn_fcc_requested : connection_t :=
  set_stream
    (set_fcc {| fcc_sock := 5; fcc_state := FCC_STATE_REQUESTED;
                fcc_server := {| sin_addr := 167772161; sin_port := 8027 |};
                media_port := 0; unicast_start_time := 0; fcc_status_index := -1 |} ctx0)
    conn0.

(** A connection streaming plain multicast from socket 9. *)
Definition conn_mcast : connection_t :=
  set_stream
    (set_mcast_sock 9
       (set_fcc {| fcc_sock := 0; fcc_state := FCC_STATE_MCAST_ACTIVE;
                   fcc_server := {| sin_addr := 0; sin_port := 0 |};
                   media_port := 0; unicast_start_time := 0; fcc_status_index := -1 |} ctx0))
    conn0.

(** Five thousand bytes: two full buffers and a remainder. *)
Definition payload5000 : list Byte.byte := repeat Byte.x47 5000.

(** Scenario S6: [HEAD /ch1], here while eleven clients are streaming. *)
Definition head_conn : connection_t := with_request "HEAD" "/ch1" conn0.

Definition get_conn : connection_t := with_request "GET" "/ch1" conn0.

(** What routing resolves [/ch1] to, and the world after the lookup. *)
Definition resolved_ch1 : resolved :=
  {| rs_service := svc_ch1; rs_owned := 1; rs_decoded_path := "ch1"; rs_query_start := None |}.

Definition w_busy_resolved : world sim_world :=
  mk_world (ext w_busy)
    [call_service_create_with_query_merge svc_ch1 "/ch1"; call_service_clone svc_ch1].

(** A connection whose one queued item is [huge_buf]. *)
Definition conn_huge_item : connection_t :=
  set_zc_queue {| items := [huge_buf]; num_queued := 1 |} conn0.

(** [conn0] after its first full buffer was accepted in [w0]. *)
Definition conn_one_queued : connection_t :=
  set_queue_buffers_highwater 1
    (set_queue_limit_bytes 393216
       (set_zc_queue {| items := [full_buf]; num_queued := 1 |} conn0)).


(** *** Collaborators with adjustable answers

    [X_sim k] behaves as [X0] except for the answers named in [k]. *)

Record sim_knobs : Type := mk_sim_knobs {
  knob_queue_refuses : bool;
  knob_recv : recv_result;
  knob_epoll_ctl : Z;
  knob_handler : Z
}.

Definition X_sim (k : sim_knobs) : externs sim_world :=
  {| get_time_ms := get_time_ms X0;
     zerocopy_state_pool := zerocopy_state_pool X0;
     zerocopy_active_streams := zerocopy_active_streams X0;
     buffer_pool_alloc := buffer_pool_alloc X0;
     buffer_pool_alloc_control := buffer_pool_alloc_control X0;
     buffer_ref_put := buffer_ref_put X0;
     zerocopy_queue_refuses := fun _ _ => knob_queue_refuses k;
     zerocopy_should_flush := zerocopy_should_flush X0;
     zerocopy_register_stream_client := zerocopy_register_stream_client X0;
     status_shared_total_clients := status_shared_total_clients X0;
     status_update_client_queue := status_update_client_queue X0;
     status_update_client_bytes := status_update_client_bytes X0;
     status_register_client := status_register_client X0;
     handle_status_page := handle_status_page X0;
     status_handle_sse_init := status_handle_sse_init X0;
     handle_disconnect_client := handle_disconnect_client X0;
     handle_set_log_level := handle_set_log_level X0;
     http_parse_query_param := http_parse_query_param X0;
     http_url_decode := http_url_decode X0;
     http_error_response := http_error_response X0;
     send_http_headers := send_http_headers X0;
     m3u_get_transformed_playlist := m3u_get_transformed_playlist X0;
     service_create_from_udpxy_url := service_create_from_udpxy_url X0;
     service_create_with_query_merge := service_create_with_query_merge X0;
     service_clone := service_clone X0;
     service_free := service_free X0;
     epoll_ctl := fun _ _ _ _ w => (knob_epoll_ctl k, w);
     sys_recv := fun _ _ w => (knob_recv k, w);
     sys_recvfrom := fun _ _ w => (knob_recv k, w);
     sys_close := sys_close X0;
     join_mcast_group := join_mcast_group X0;
     rejoin_mcast_group := rejoin_mcast_group X0;
     fdmap_set := fdmap_set X0;
     fcc_session_init := fcc_session_init X0;
     fcc_state_changed := fcc_state_changed X0;
     fcc_initialize_and_request := fun c w => ((knob_handler k, c), w);
     fcc_handle_server_response := fun c _ _ _ w => ((knob_handler k, c), w);
     fcc_handle_sync_notification := fun c _ w => ((knob_handler k, c), w);
     fcc_handle_unicast_media := fun c _ w => ((knob_handler k, c), w);
     fcc_handle_mcast_active := fun c _ w => ((knob_handler k, c), w);
     fcc_handle_mcast_transition := fun c _ w => ((knob_handler k, c), w);
     rtsp_session_init := rtsp_session_init X0;
     rtsp_parse_server_url := fun c _ _ _ w => ((knob_handler k, c), w);
     rtsp_connect := fun c w => ((knob_handler k, c), w);
     rtsp_handle_socket_event := fun c _ w => ((knob_handler k, c), w);
     rtsp_handle_udp_rtp_data := fun c w => ((knob_handler k, c), w);
     rtsp_send_keepalive := fun c w => ((knob_handler k, c), w);
     snapshot_init := fun c w => ((knob_handler k, c), w);
     snapshot_process_packet := fun c _ w => ((knob_handler k, c), w);
     snapshot_fallback_to_streaming := snapshot_fallback_to_streaming X0;
     rtp_reorder_and_queue := fun c _ w => ((knob_handler k, c), w);
     rtp_reorder_timeout_recovery := rtp_reorder_timeout_recovery X0 |}.

(** A datagram of 1316 bytes from 10.0.0.1:8027. *)
Definition recv_from_server : recv_result :=
  {| actualr := 1316; errno_is_EAGAIN := false; rx_bytes := repeat Byte.x47 1316;
     peer_addr := {| sin_addr := 167772161; sin_port := 8027 |} |}.

(** The same datagram from 10.0.0.2. *)
Definition recv_from_stranger : recv_result :=
  {| actualr := 1316; errno_is_EAGAIN := false; rx_bytes := repeat Byte.x47 1316;
     peer_addr := {| sin_addr := 167772162; sin_port := 8027 |} |}.

(** A receive that would block. *)
Definition recv_eagain : recv_result :=
  {| actualr := -1; errno_is_EAGAIN := true; rx_bytes := [];
     peer_addr := {| sin_addr := 0; sin_port := 0 |} |}.

Definition knobs0 : sim_knobs :=
  {| knob_queue_refuses := false; knob_recv := recv_from_server; knob_epoll_ctl := 0;
     knob_handler := 0 |}.

Definition knobs_refusing : sim_knobs :=
  {| knob_queue_refuses := true; knob_recv := recv_from_server; knob_epoll_ctl := 0;
     knob_handler := 0 |}.

Definition knobs_stranger : sim_knobs :=
  {| knob_queue_refuses := false; knob_recv := recv_from_stranger; knob_epoll_ctl := 0;
     knob_handler := 0 |}.

(** Every [epoll_ctl] fails. *)
Definition knobs_epoll_fails : sim_knobs :=
  {| knob_queue_refuses := false; knob_recv := recv_from_server; knob_epoll_ctl := -1;
     knob_handler := 0 |}.

(** A world in which [join_mcast_group] fails with -1. *)
Definition w_join_fails : world sim_world :=
  mk_world {| sim_pool := pool0; sim_streams := 16; sim_clock := 5000;
              sim_clients := Some 3; sim_join_sock := -1 |} [].

(** The world after one buffer was taken from the pool of [sim0]. *)
Definition sim0_one_taken : sim_world := snd (sim_take_buffer sim0).

(** A Host check against the name [Example.COM]. *)
Definition config_host : config_t :=
  {| hostname := Some "Example.COM"%string; r2h_token := None; status_page_route := None;
     udpxy := 1; maxclients := 10; mcast_rejoin_interval := 0; video_snapshot := 0 |}.

Definition req_with_port : http_request_t :=
  {| method := "GET"; req_url := "/ch1"; req_hostname := "example.com:8080";
     req_user_agent := ""; accept := ""; x_request_snapshot := 0 |}.

(** Snapshots enabled. *)
Definition config_snapshot : config_t :=
  {| hostname := None; r2h_token := None; status_page_route := None; udpxy := 1;
     maxclients := 10; mcast_rejoin_interval := 0; video_snapshot := 1 |}.

Definition snapshot_conn : connection_t := with_request "GET" "/ch1?snapshot=1" conn0.

Definition resolved_snapshot : resolved :=
  {| rs_service := svc_ch1; rs_owned := 1; rs_decoded_path := "ch1";
     rs_query_start := Some "?snapshot=1"%string |}.

Definition w0_resolved_snapshot : world sim_world :=
  mk_world sim0
    [call_service_create_with_query_merge svc_ch1 "/ch1?snapshot=1"; call_service_clone svc_ch1].


(** A connection receiving FCC unicast on socket 5 since time 0, with the
    multicast socket 9 already open. *)
Definition conn_fcc_unicast : connection_t :=
  set_stream
    (set_mcast_sock 9
       (set_fcc {| fcc_sock := 5; fcc_state := FCC_STATE_UNICAST_ACTIVE;
                   fcc_server := {| sin_addr := 167772161; sin_port := 8027 |};
                   media_port := 0; unicast_start_time := 0; fcc_status_index := -1 |} ctx0))
    conn0.

(** ** Life cycle and socket I/O

    The functions of connection.c and stream.c that create and free a
    connection and move bytes between the client socket and the queues
    have collaborators of their own, gathered in [io_externs].  They run
    in [IO]: the same state passing as [M], with a trace that records
    their calls interleaved with the calls of the functions above that
    they run. *)

Definition EV_READ : Z :=
  Z.lor EPOLLIN (Z.lor EPOLLRDHUP (Z.lor EPOLLHUP EPOLLERR)).

Inductive sockopt_t : Type := TCP_NODELAY | TCP_USER_TIMEOUT | SO_ZEROCOPY.

Inductive connection_write_status_t : Type :=
| CONNECTION_WRITE_IDLE | CONNECTION_WRITE_PENDING
| CONNECTION_WRITE_BLOCKED | CONNECTION_WRITE_CLOSED.

(** What one [read] hands back: the return value, whether [errno] is
    [EAGAIN] after a negative return, and the bytes stored. *)
Record read_result : Type := mk_read_result {
  read_r : Z;
  read_errno_is_EAGAIN : bool;
  read_bytes : list Byte.byte
}.

(** The fields of [connection_t] on the socket side, which the data
    plane above does not read: the input buffer and the flags
    [connection_create] sets. *)
Record connection_io_t : Type := mk_connection_io {
  inbuf : list Byte.byte;
  in_len : Z;
  sse_active : Z;
  zerocopy_enabled : Z;
  write_queue_pending : Z
}.

(** What [http_parse_request] leaves behind: its return value and the
    three objects it was given pointers to. *)
Record parse_result : Type := mk_parse_result {
  parse_rc : Z;
  parse_inbuf : list Byte.byte;
  parse_in_len : Z;
  parse_req : http_request_t
}.

Inductive io_call : Type :=
| call_fcntl_getfl (sock : Z)
| call_fcntl_setfl (sock flags : Z)
| call_setsockopt (sock : Z) (opt : sockopt_t) (value : Z)
| call_calloc
| call_zerocopy_unregister_stream_client
| call_zerocopy_queue_cleanup
| call_buffer_pool_try_shrink
| call_status_unregister_client (idx : Z)
| call_zerocopy_send (sock : Z)
| call_zerocopy_queue_add_file (file_fd file_offset file_size : Z)
| call_read (sock len : Z)
| call_http_parse_request
| call_snapshot_free
| call_fcc_session_cleanup
| call_rtsp_session_cleanup
| call_worker_cleanup_socket_from_epoll (ep sock : Z).

(** An entry of the trace: a call logged by the functions above, or a
    call to one of the collaborators of this part. *)
Definition event : Type := (call + io_call)%type.

Record io_world (W : Type) : Type := mk_io_world { io_ext : W; trace : list event }.
Arguments mk_io_world {W} _ _.
Arguments io_ext {W} _.
Arguments trace {W} _.

Inductive io_outcome (W A : Type) : Type :=
| io_Returned (a : A) (w : io_world W)
| io_Exited (code : Z) (w : io_world W).
Arguments io_Returned {W A} _ _.
Arguments io_Exited {W A} _ _.

Definition IO (W A : Type) : Type := io_world W -> io_outcome W A.

Definition io_ret {W A : Type} (a : A) : IO W A := fun w => io_Returned a w.

Definition io_bind {W A B : Type} (m : IO W A) (k : A -> IO W B) : IO W B :=
  fun w => match m w with
           | io_Returned a w' => k a w'
           | io_Exited code w' => io_Exited code w'
           end.

(** A call to a collaborator of this part. *)
Definition io_extcall {W A : Type} (e : io_call) (f : W -> A * W) : IO W A :=
  fun w => io_Returned (fst (f (io_ext w)))
             (mk_io_world (snd (f (io_ext w))) (trace w ++ [inr e])).

Definition io_extcall_ {W : Type} (e : io_call) (f : W -> W) : IO W unit :=
  fun w => io_Returned tt (mk_io_world (f (io_ext w)) (trace w ++ [inr e])).

Definition io_peek {W A : Type} (f : W -> A) : IO W A :=
  fun w => io_Returned (f (io_ext w)) w.

(** Running one of the functions above: the calls it logs are appended
    to the trace in their order. *)
Definition lift {W A : Type} (m : M W A) : IO W A :=
  fun w => match m (mk_world (io_ext w) []) with
           | Returned a w' =>
               io_Returned a (mk_io_world (ext w') (trace w ++ map inl (calls w')))
           | Exited code w' =>
               io_Exited code (mk_io_world (ext w') (trace w ++ map inl (calls w')))
           end.

Declare Scope io_scope.
Delimit Scope io_scope with io.
Notation "x <- m ;; k" := (io_bind m (fun x => k))
  (at level 100, m at next level, right associativity) : io_scope.
Notation "m ;; k" := (io_bind m (fun _ => k))
  (at level 100, right associativity) : io_scope.

#[local] Set Implicit Arguments.

Record io_externs (W : Type) : Type := mk_io_externs {
  (* libc, kernel *)
  calloc : W -> bool * W;
  fcntl_getfl : Z -> W -> Z * W;
  fcntl_setfl : Z -> Z -> W -> Z * W;
  setsockopt : Z -> sockopt_t -> Z -> W -> Z * W;
  sys_read : Z -> Z -> W -> read_result * W;
  (* zerocopy.c *)
  zerocopy_state_features : W -> Z;
  zerocopy_queue_init : zerocopy_queue_t -> zerocopy_queue_t;
  zerocopy_queue_head : zerocopy_queue_t -> W -> bool;
  zerocopy_queue_pending_head : zerocopy_queue_t -> W -> bool;
  zerocopy_send : Z -> zerocopy_queue_t -> W -> (Z * zerocopy_queue_t) * W;
  zerocopy_queue_add_file :
    zerocopy_queue_t -> Z -> Z -> Z -> W -> (Z * zerocopy_queue_t) * W;
  zerocopy_queue_cleanup : zerocopy_queue_t -> W -> zerocopy_queue_t * W;
  zerocopy_unregister_stream_client : W -> W;
  buffer_pool_try_shrink : W -> W;
  (* status.c, http.c *)
  status_unregister_client : Z -> W -> W;
  http_request_init : http_request_t -> http_request_t;
  http_parse_request :
    list Byte.byte -> Z -> http_request_t -> W -> parse_result * W;
  (* snapshot.c, fcc.c, rtsp.c, worker.c *)
  snapshot_free : connection_t -> W -> connection_t * W;
  fcc_session_cleanup : connection_t -> W -> connection_t * W;
  rtsp_session_cleanup : connection_t -> W -> (Z * connection_t) * W;
  worker_cleanup_socket_from_epoll : Z -> Z -> W -> W
}.

#[local] Unset Implicit Arguments.

(** Constants of headers that are not among the sources. *)
Record io_constants : Type := mk_io_constants {
  INBUF_SIZE : Z;
  O_NONBLOCK : Z;
  ZEROCOPY_MSG_ZEROCOPY : Z
}.

(** Setters for the fields the life-cycle functions write. *)
Definition set_http_req (v : http_request_t) (r : connection_t) : connection_t :=
  {| fd := fd r; epfd := epfd r; state := state r; service := service r;
     service_owned := service_owned r; streaming := streaming r;
     status_index := status_index r; client_addr_len := client_addr_len r;
     zc_queue := zc_queue r; buffer_class := buffer_class r;
     queue_limit_bytes := queue_limit_bytes r;
     queue_bytes_highwater := queue_bytes_highwater r;
     queue_buffers_highwater := queue_buffers_highwater r;
     dropped_packets := dropped_packets r; dropped_bytes := dropped_bytes r;
     backpressure_events := backpressure_events r; stream_registered := stream_registered r;
     queue_avg_bytes := queue_avg_bytes r; slow_active := slow_active r;
     slow_candidate_since := slow_candidate_since r; http_req := v; stream := stream r |}.

Definition set_ctx_service (v : option service_t) (r : stream_context_t) : stream_context_t :=
  {| ctx_service := v; epoll_fd := epoll_fd r; ctx_status_index := ctx_status_index r;
     fcc := fcc r; rtsp := rtsp r; snapshot := snapshot r; mcast_sock := mcast_sock r;
     total_bytes_sent := total_bytes_sent r; last_bytes_sent := last_bytes_sent r;
     last_status_update := last_status_update r;
     last_mcast_data_time := last_mcast_data_time r;
     last_fcc_data_time := last_fcc_data_time r;
     last_mcast_rejoin_time := last_mcast_rejoin_time r; reorder_enabled := reorder_enabled r;
     reorder_slots := reorder_slots r; reorder_expected_seqn := reorder_expected_seqn r;
     reorder_base_seqn := reorder_base_seqn r; reorder_first_packet := reorder_first_packet r;
     reorder_waiting := reorder_waiting r; reorder_wait_start := reorder_wait_start r;
     reorder_drops := reorder_drops r; reorder_duplicates := reorder_duplicates r;
     reorder_out_of_order := reorder_out_of_order r;
     reorder_recovered := reorder_recovered r |}.

Definition set_reorder_slots (v : list (option buffer_ref_t)) (r : stream_context_t) : stream_context_t :=
  {| ctx_service := ctx_service r; epoll_fd := epoll_fd r;
     ctx_status_index := ctx_status_index r; fcc := fcc r; rtsp := rtsp r;
     snapshot := snapshot r; mcast_sock := mcast_sock r;
     total_bytes_sent := total_bytes_sent r; last_bytes_sent := last_bytes_sent r;
     last_status_update := last_status_update r;
     last_mcast_data_time := last_mcast_data_time r;
     last_fcc_data_time := last_fcc_data_time r;
     last_mcast_rejoin_time := last_mcast_rejoin_time r; reorder_enabled := reorder_enabled r;
     reorder_slots := v; reorder_expected_seqn := reorder_expected_seqn r;
     reorder_base_seqn := reorder_base_seqn r; reorder_first_packet := reorder_first_packet r;
     reorder_waiting := reorder_waiting r; reorder_wait_start := reorder_wait_start r;
     reorder_drops := reorder_drops r; reorder_duplicates := reorder_duplicates r;
     reorder_out_of_order := reorder_out_of_order r;
     reorder_recovered := reorder_recovered r |}.


(** *** Simulated socket-side collaborators

    [Y_sim rd rc parsed]: every [read] answers [rd]; the parser answers
    [rc] and, for a complete request, consumes the buffer and leaves
    [parsed]; the queue has a head while it holds a buffer, [zerocopy_send]
    sends all of it, and no completion stays pending. *)

Definition read_eof : read_result :=
  {| read_r := 0; read_errno_is_EAGAIN := false; read_bytes := [] |}.

(** The 22 bytes of [HEAD /ch1 HTTP/1.0] and the empty line. *)
Definition read_head_request : read_result :=
  {| read_r := 22; read_errno_is_EAGAIN := false;
     read_bytes := list_byte_of_string "HEAD /ch1 HTTP/1.0"
                   ++ [Byte.x0d; Byte.x0a; Byte.x0d; Byte.x0a] |}.

Definition Y_sim (rd : read_result) (rc : Z) (parsed : http_request_t)
  : io_externs sim_world :=
  {| calloc := fun w => (true, w);
     fcntl_getfl := fun _ w => (2, w);
     fcntl_setfl := fun _ _ w => (0, w);
     setsockopt := fun _ _ _ w => (0, w);
     sys_read := fun _ _ w => (rd, w);
     zerocopy_state_features := fun _ => 3;
     zerocopy_queue_init := fun _ => {| items := []; num_queued := 0 |};
     zerocopy_queue_head := fun q _ => 0 <? num_queued q;
     zerocopy_queue_pending_head := fun _ _ => false;
     zerocopy_send := fun _ _ w => ((0, {| items := []; num_queued := 0 |}), w);
     zerocopy_queue_add_file := fun q _ _ _ w => ((0, q), w);
     zerocopy_queue_cleanup := fun _ w => ({| items := []; num_queued := 0 |}, w);
     zerocopy_unregister_stream_client := fun w => w;
     buffer_pool_try_shrink := fun w => w;
     status_unregister_client := fun _ w => w;
     http_request_init := fun r => r;
     http_parse_request := fun buf len req w =>
       (if rc =? 1
        then {| parse_rc := rc; parse_inbuf := buf; parse_in_len := 0; parse_req := parsed |}
        else {| parse_rc := rc; parse_inbuf := buf; parse_in_len := len; parse_req := req |},
        w);
     snapshot_free := fun c w => (c, w);
     fcc_session_cleanup := fun c w => (c, w);
     rtsp_session_cleanup := fun c w => ((0, c), w);
     worker_cleanup_socket_from_epoll := fun _ _ w => w |}.

Definition Y0 : io_externs sim_world := Y_sim read_eof 0 req0.

(** One read brings the whole of [HEAD /ch1]. *)
Definition Y_head : io_externs sim_world :=
  Y_sim read_head_request 1 (http_req head_conn).

Definition io_head_done : connection_io_t :=
  {| inbuf := read_bytes read_head_request; in_len := 0; sse_active := 0;
     zerocopy_enabled := 1; write_queue_pending := 0 |}.

Definition iow_head_done : io_world sim_world :=
  mk_io_world (ext w_busy)
    ([inr (call_read 7 8192); inr call_http_parse_request]
     ++ map inl (calls w_busy_resolved
                 ++ [call_send_http_headers STATUS_200 CONTENT_MP2T None;
                     call_epoll_ctl EPOLL_CTL_MOD 3 7 EV_READ_WRITE;
                     call_service_free svc_ch1])).

Definition KIO0 : io_constants :=
  {| INBUF_SIZE := 8192; O_NONBLOCK := 2048; ZEROCOPY_MSG_ZEROCOPY := 2 |}.

(** The socket side of a connection that has read nothing yet. *)
Definition io0 : connection_io_t :=
  {| inbuf := []; in_len := 0; sse_active := 0; zerocopy_enabled := 1;
     write_queue_pending := 0 |}.

Definition iow0 : io_world sim_world := mk_io_world sim0 [].
Section Model.

Context {W : Type}.
Variable X : externs W.
Variable K : constants.
Variable config : config_t.
Variable services : list service_t.

#[local] Open Scope m_scope.
#[local] Abbreviation BUF := (BUFFER_POOL_BUFFER_SIZE K).

(** ** connection.c: output buffers and the backpressure controller *)

Definition connection_alloc_output_buffer (c : connection_t) : M W (option buffer_ref_t) :=
  match buffer_class c with
  | CONNECTION_BUFFER_CONTROL =>
      buf_ref <- extcall call_buffer_pool_alloc_control (buffer_pool_alloc_control X) ;;
      match buf_ref with
      | Some b => ret (Some b)
      | None => extcall call_buffer_pool_alloc (buffer_pool_alloc X)
      end
  | CONNECTION_BUFFER_MEDIA => extcall call_buffer_pool_alloc (buffer_pool_alloc X)
  end.

Definition connection_compute_limit_bytes
    (pool : buffer_pool_t) (fair_bytes : Z) (burst_factor : float) : Z :=
  let limit_bytes := size_of_double (double_of_size fair_bytes * burst_factor)%float in
  let limit_bytes :=
    if 0 <? max_buffers pool then
      let global_cap := size_mul (max_buffers pool) BUF in
      let reserve := size_mul CONN_QUEUE_MIN_BUFFERS BUF in
      if reserve <? global_cap then
        let hard_cap := size_sub global_cap reserve in
        if hard_cap <? limit_bytes then hard_cap else limit_bytes
      else
        if global_cap <? limit_bytes then global_cap else limit_bytes
    else limit_bytes in
  if limit_bytes <? size_mul BUF 4 then size_mul BUF 4 else limit_bytes.

(** The body of [connection_calculate_queue_limit], given the two globals
    it reads: [zerocopy_state.pool] and [zerocopy_active_streams()]. *)
Definition calculate_queue_limit
    (pool : buffer_pool_t) (active : Z) (c : connection_t) (now_ms : Z) : Z * connection_t :=
  let active := if active =? 0 then 1 else active in
  let total_buffers :=
    if Zbool (num_buffers pool) then num_buffers pool else BUFFER_POOL_INITIAL_SIZE K in
  let share_buffers := size_div total_buffers active in
  let share_buffers :=
    if share_buffers <? CONN_QUEUE_MIN_BUFFERS then CONN_QUEUE_MIN_BUFFERS else share_buffers in
  let utilization :=
    if 0 <? max_buffers pool then
      let used_buffers :=
        if num_free pool <? num_buffers pool
        then size_sub (num_buffers pool) (num_free pool) else 0 in
      (double_of_size used_buffers / double_of_size (max_buffers pool))%float
    else 0%float in
  let burst_factor := CONN_QUEUE_BURST_FACTOR in
  let burst_factor :=
    if (max_buffers pool <=? num_buffers pool) || fge utilization CONN_QUEUE_HIGH_UTIL_THRESHOLD
    then CONN_QUEUE_BURST_FACTOR_CONGESTED else burst_factor in
  let burst_factor :=
    if (num_free pool <? size_div (low_watermark pool) 2)
       || fge utilization CONN_QUEUE_DRAIN_UTIL_THRESHOLD
    then CONN_QUEUE_BURST_FACTOR_DRAIN else burst_factor in
  let fair_bytes := size_mul share_buffers BUF in
  let queue_mem_bytes :=
    (double_of_size (num_queued (zc_queue c)) * double_of_size BUF)%float in
  let c :=
    if fle (queue_avg_bytes c) 0%float
    then set_queue_avg_bytes queue_mem_bytes c
    else set_queue_avg_bytes
           ((1.0 - CONN_QUEUE_EWMA_ALPHA) * queue_avg_bytes c
            + CONN_QUEUE_EWMA_ALPHA * queue_mem_bytes)%float c in
  let bursted_bytes := connection_compute_limit_bytes pool fair_bytes burst_factor in
  let slow_threshold := (double_of_size fair_bytes * CONN_QUEUE_SLOW_FACTOR)%float in
  let limit_based_threshold :=
    (double_of_size bursted_bytes * CONN_QUEUE_SLOW_LIMIT_RATIO)%float in
  let slow_threshold :=
    if fgt slow_threshold limit_based_threshold then limit_based_threshold else slow_threshold in
  let slow_exit_threshold := (double_of_size fair_bytes * CONN_QUEUE_SLOW_EXIT_FACTOR)%float in
  let limit_exit_threshold :=
    (double_of_size bursted_bytes * CONN_QUEUE_SLOW_EXIT_LIMIT_RATIO)%float in
  let slow_exit_threshold :=
    if fgt slow_exit_threshold limit_exit_threshold
    then limit_exit_threshold else slow_exit_threshold in
  let slow_exit_threshold :=
    if fge slow_exit_threshold slow_threshold
    then (slow_threshold * CONN_QUEUE_SLOW_EXIT_LIMIT_RATIO)%float else slow_exit_threshold in
  let c :=
    if fgt (queue_avg_bytes c) slow_threshold then
      if slow_candidate_since c =? 0 then set_slow_candidate_since now_ms c
      else if negb (Zbool (slow_active c)) && (slow_candidate_since c <=? now_ms)
              && (CONN_QUEUE_SLOW_DEBOUNCE_MS <=? now_ms - slow_candidate_since c)
           then set_slow_active 1 c
           else c
    else set_slow_candidate_since 0 c in
  let c :=
    if Zbool (slow_active c) && flt (queue_avg_bytes c) slow_exit_threshold
    then set_slow_candidate_since 0 (set_slow_active 0 c)
    else c in
  let burst_factor :=
    if Zbool (slow_active c) && fgt burst_factor CONN_QUEUE_SLOW_CLAMP_FACTOR
    then CONN_QUEUE_SLOW_CLAMP_FACTOR else burst_factor in
  let limit_bytes := connection_compute_limit_bytes pool fair_bytes burst_factor in
  (limit_bytes, c).

Definition connection_calculate_queue_limit (c : connection_t) (now_ms : Z)
  : M W (Z * connection_t) :=
  pool <- peek (zerocopy_state_pool X) ;;
  active <- peek (zerocopy_active_streams X) ;;
  ret (calculate_queue_limit pool active c now_ms).

(** The three drop counters are taken as 64-bit unsigned: connection.h is
    not among the sources, and [dropped_packets] is logged through
    [unsigned long long]. *)
Definition connection_record_drop (c : connection_t) (len : Z) : connection_t :=
  let c := set_dropped_packets (u64_add (dropped_packets c) 1) c in
  let c := set_dropped_bytes (u64_add (dropped_bytes c) len) c in
  set_backpressure_events (u64_add (backpressure_events c) 1) c.

Definition connection_report_queue (c : connection_t) : M W unit :=
  if status_index c <? 0 then ret tt
  else
    let queue_buffers := num_queued (zc_queue c) in
    let queue_bytes := size_mul (num_queued (zc_queue c)) BUF in
    extcall_
      (call_status_update_client_queue (status_index c) queue_bytes queue_buffers
         (queue_limit_bytes c) (queue_bytes_highwater c) (queue_buffers_highwater c)
         (dropped_packets c) (dropped_bytes c) (backpressure_events c) (slow_active c))
      (status_update_client_queue X (status_index c) queue_bytes queue_buffers
         (queue_limit_bytes c) (queue_bytes_highwater c) (queue_buffers_highwater c)
         (dropped_packets c) (dropped_bytes c) (backpressure_events c) (slow_active c)).

Definition connection_epoll_update_events (ep sock events : Z) : M W unit :=
  extcall (call_epoll_ctl EPOLL_CTL_MOD ep sock events) (epoll_ctl X EPOLL_CTL_MOD ep sock events) ;;
  ret tt.

(** Modelled from the spec: [zerocopy_queue_add] of zerocopy.c, which is
    not among the sources.  Section 4.2: "queue_buf(buf_ref): append; take
    a reference".  The caller tests for a negative return ("Queue full");
    when the queue refuses a buffer is left to [zerocopy_queue_refuses]. *)
Definition zerocopy_queue_add (q : zerocopy_queue_t) (buf_ref : buffer_ref_t)
  : Z * zerocopy_queue_t :=
  if zerocopy_queue_refuses X q buf_ref then (-1, q)
  else (0, {| items := items q ++ [buf_ref]; num_queued := size_add (num_queued q) 1 |}).

(** [connection_queue_zerocopy]; the arguments are records, so the two
    null-pointer tests of the first guard have no counterpart. *)
Definition connection_queue_zerocopy (c : connection_t) (buf_ref : buffer_ref_t)
  : M W (Z * connection_t) :=
  if data_size buf_ref =? 0 then ret (0, c)
  else
    now_ms <- extcall call_get_time_ms (get_time_ms X) ;;
    lc <- connection_calculate_queue_limit c now_ms ;;
    let limit_bytes := fst lc in
    let c := snd lc in
    let queued_bytes := size_mul (num_queued (zc_queue c)) BUF in
    let projected_bytes := size_add queued_bytes (data_size buf_ref) in
    let c := set_queue_limit_bytes limit_bytes c in
    if limit_bytes <? projected_bytes then
      let c := connection_record_drop c (data_size buf_ref) in
      connection_report_queue c ;;
      ret (-1, c)
    else
      let rq := zerocopy_queue_add (zc_queue c) buf_ref in
      if fst rq <? 0 then ret (-1, c)
      else
        let c := set_zc_queue (snd rq) c in
        let c :=
          if queue_bytes_highwater c <? queued_bytes
          then set_queue_bytes_highwater queued_bytes c else c in
        let c :=
          if queue_buffers_highwater c <? num_queued (zc_queue c)
          then set_queue_buffers_highwater (num_queued (zc_queue c)) c else c in
        connection_report_queue c ;;
        flush <- peek (zerocopy_should_flush X (zc_queue c)) ;;
        (if flush : bool
         then connection_epoll_update_events (epfd c) (fd c) EV_READ_WRITE
         else ret tt) ;;
        ret (0, c).

(** [memcpy(buf_ref->data, src, n)]: the first bytes of the payload region
    are overwritten. *)
Definition memcpy_into (dst src : list Byte.byte) : list Byte.byte :=
  src ++ skipn (List.length src) dst.

(** One pass of the [while (remaining > 0)] loop of
    [connection_queue_output] has [src] left to queue. *)
Definition chunk_size_of (src : list Byte.byte) : Z :=
  let remaining := Z.of_nat (List.length src) in
  if BUF <? remaining then BUF else remaining.

Hypothesis K_ok : constants_ok K.

Equations? queue_output_loop (src : list Byte.byte) (c : connection_t)
  : M W (Z * connection_t) by wf (List.length src) lt :=
queue_output_loop [] c := ret (0, c);
queue_output_loop (b :: rest) c :=
  let src := b :: rest in
  buf_ref <- connection_alloc_output_buffer c ;;
  match buf_ref with
  | None => ret (-1, c)
  | Some buf_ref =>
      let chunk_size := chunk_size_of src in
      let chunk := firstn (Z.to_nat chunk_size) src in
      let buf_ref :=
        set_data_size chunk_size (set_data (memcpy_into (data buf_ref) chunk) buf_ref) in
      rc <- connection_queue_zerocopy c buf_ref ;;
      if fst rc <? 0 then
        extcall_ (call_buffer_ref_put buf_ref) (buffer_ref_put X buf_ref) ;;
        ret (-1, snd rc)
      else
        extcall_ (call_buffer_ref_put buf_ref) (buffer_ref_put X buf_ref) ;;
        queue_output_loop (skipn (Z.to_nat chunk_size) src) (snd rc)
  end.
Proof.
  pose proof K_ok as Hpos. unfold constants_ok in Hpos.
  subst chunk_size src. unfold chunk_size_of.
  rewrite length_skipn. cbn [List.length].
  destruct (Z.ltb_spec (BUFFER_POOL_BUFFER_SIZE K) (Z.of_nat (S (List.length rest)))); lia.
Qed.

(** [connection_queue_output]: [data] carries its length; a null [data]
    and [len == 0] are both the empty list. *)
Definition connection_queue_output (c : connection_t) (data : list Byte.byte)
  : M W (Z * connection_t) :=
  match data with
  | [] => ret (0, c)
  | _ => queue_output_loop data c
  end.

Definition connection_queue_output_and_flush (c : connection_t) (data : list Byte.byte)
  : M W (Z * connection_t) :=
  rc <- connection_queue_output c data ;;
  if fst rc <? 0 then ret rc
  else
    connection_epoll_update_events (epfd (snd rc)) (fd (snd rc)) EV_READ_WRITE ;;
    ret (0, snd rc).


(** ** stream.c

    A stream context is the [stream] field of its connection and
    [ctx->conn] points back at that connection, so the functions of
    stream.c take the connection [c] and read [ctx] as [stream c]; the
    collaborators that receive [ctx] may change any part of [c]. *)

Definition upd_stream (f : stream_context_t -> stream_context_t) (c : connection_t)
  : connection_t :=
  set_stream (f (stream c)) c.

Definition upd_fcc (f : fcc_session_t -> fcc_session_t) (c : connection_t) : connection_t :=
  upd_stream (fun ctx => set_fcc (f (fcc ctx)) ctx) c.

Definition upd_rtsp (f : rtsp_session_t -> rtsp_session_t) (c : connection_t) : connection_t :=
  upd_stream (fun ctx => set_rtsp (f (rtsp ctx)) ctx) c.

Definition buffer_put (b : buffer_ref_t) : M W unit :=
  extcall_ (call_buffer_ref_put b) (buffer_ref_put X b).

(** Modelled from the spec: [fcc_session_set_state] of fcc.c, which is not
    among the sources.  Section 4.5 gives the states and has the timeouts
    "set MCAST_ACTIVE": the session's state field takes the new value.
    What else the function touches outside the connection is left to
    [fcc_state_changed]. *)
Definition fcc_session_set_state (c : connection_t) (st : fcc_state_t) (reason : string)
  : M W connection_t :=
  extcall_ (call_fcc_session_set_state st reason) (fcc_state_changed X st reason) ;;
  ret (upd_fcc (set_fcc_state st) c).

Definition stream_join_mcast_group (c : connection_t) : M W (Z * connection_t) :=
  let ctx := stream c in
  sock <- extcall (call_join_mcast_group (ctx_service ctx)) (join_mcast_group X (ctx_service ctx)) ;;
  if 0 <? sock then
    r <- extcall (call_epoll_ctl EPOLL_CTL_ADD (epoll_fd ctx) sock EPOLLIN)
                 (epoll_ctl X EPOLL_CTL_ADD (epoll_fd ctx) sock EPOLLIN) ;;
    if r <? 0 then
      extcall_ (call_close sock) (sys_close X sock) ;;
      exit (RETVAL_SOCK_READ_FAILED K)
    else
      extcall_ (call_fdmap_set sock) (fdmap_set X sock) ;;
      now <- extcall call_get_time_ms (get_time_ms X) ;;
      ret (sock,
           upd_stream (fun ctx => set_last_mcast_rejoin_time now (set_last_mcast_data_time now ctx)) c)
  else ret (sock, c).

Definition stream_process_rtp_payload (c : connection_t) (buf_ref : buffer_ref_t)
  : M W (Z * connection_t) :=
  if Zbool (enabled (snapshot (stream c)))
  then extcall call_snapshot_process_packet (snapshot_process_packet X c buf_ref)
  else extcall call_rtp_reorder_and_queue (rtp_reorder_and_queue X c buf_ref).

(** [recv_data[0]]. *)
Definition first_byte (b : buffer_ref_t) : Byte.byte := nth 0 (data b) Byte.x00.

Definition stream_handle_fd_event (c : connection_t) (sock events now : Z)
  : M W (Z * connection_t) :=
  let ctx := stream c in
  (* Process FCC socket events *)
  if (0 <? fcc_sock (fcc ctx)) && (sock =? fcc_sock (fcc ctx)) then
    recv_buf <- extcall call_buffer_pool_alloc (buffer_pool_alloc X) ;;
    match recv_buf with
    | None =>
        let c := upd_stream (set_last_fcc_data_time now) c in
        extcall (call_recvfrom (fcc_sock (fcc ctx)) BUF) (sys_recvfrom X (fcc_sock (fcc ctx)) BUF) ;;
        ret (0, c)
    | Some recv_buf =>
        rx <- extcall (call_recvfrom (fcc_sock (fcc ctx)) BUF)
                      (sys_recvfrom X (fcc_sock (fcc ctx)) BUF) ;;
        let recv_buf := set_data (memcpy_into (data recv_buf) (rx_bytes rx)) recv_buf in
        if (actualr rx <? 0) && negb (errno_is_EAGAIN rx) then
          buffer_put recv_buf ;; ret (0, c)
        else if negb (sin_addr (peer_addr rx) =? sin_addr (fcc_server (fcc ctx))) then
          buffer_put recv_buf ;; ret (0, c)
        else
          let c := upd_stream (set_last_fcc_data_time now) c in
          let recv_buf := set_data_size (size_wrap (actualr rx)) recv_buf in
          if sin_port (peer_addr rx) =? sin_port (fcc_server (fcc ctx)) then
            if Byte.eqb (first_byte recv_buf) Byte.x83 then
              rc <- extcall call_fcc_handle_server_response
                      (fcc_handle_server_response X c (data recv_buf) (actualr rx) (peer_addr rx)) ;;
              if fst rc =? 1 then
                rr <- extcall call_fcc_initialize_and_request
                        (fcc_initialize_and_request X (snd rc)) ;;
                if fst rr <? 0 then buffer_put recv_buf ;; ret (-1, snd rr)
                else buffer_put recv_buf ;; ret (0, snd rr)
              else buffer_put recv_buf ;; ret rc
            else if Byte.eqb (first_byte recv_buf) Byte.x84 then
              rc <- extcall (call_fcc_handle_sync_notification 0)
                      (fcc_handle_sync_notification X c 0) ;;
              buffer_put recv_buf ;; ret rc
            else buffer_put recv_buf ;; ret (0, c)
          else if sin_port (peer_addr rx) =? media_port (fcc ctx) then
            rc <- extcall call_fcc_handle_unicast_media (fcc_handle_unicast_media X c recv_buf) ;;
            buffer_put recv_buf ;; ret rc
          else buffer_put recv_buf ;; ret (0, c)
    end
  (* Process multicast socket events *)
  else if (0 <? mcast_sock ctx) && (sock =? mcast_sock ctx) then
    recv_buf <- extcall call_buffer_pool_alloc (buffer_pool_alloc X) ;;
    match recv_buf with
    | None =>
        let c := upd_stream (set_last_mcast_data_time now) c in
        extcall (call_recv (mcast_sock ctx) BUF) (sys_recv X (mcast_sock ctx) BUF) ;;
        ret (0, c)
    | Some recv_buf =>
        rx <- extcall (call_recv (mcast_sock ctx) BUF) (sys_recv X (mcast_sock ctx) BUF) ;;
        let recv_buf := set_data (memcpy_into (data recv_buf) (rx_bytes rx)) recv_buf in
        if (actualr rx <? 0) && negb (errno_is_EAGAIN rx) then
          buffer_put recv_buf ;; ret (0, c)
        else
          let c := upd_stream (set_last_mcast_data_time now) c in
          let recv_buf := set_data_size (size_wrap (actualr rx)) recv_buf in
          match fcc_state (fcc ctx) with
          | FCC_STATE_MCAST_ACTIVE =>
              rc <- extcall call_fcc_handle_mcast_active (fcc_handle_mcast_active X c recv_buf) ;;
              buffer_put recv_buf ;; ret rc
          | FCC_STATE_MCAST_REQUESTED =>
              rc <- extcall call_fcc_handle_mcast_transition
                      (fcc_handle_mcast_transition X c recv_buf) ;;
              buffer_put recv_buf ;; ret rc
          | _ => buffer_put recv_buf ;; ret (0, c)
          end
    end
  (* Process RTSP socket events *)
  else if (0 <? rtsp_socket (rtsp ctx)) && (sock =? rtsp_socket (rtsp ctx)) then
    rc <- extcall call_rtsp_handle_socket_event (rtsp_handle_socket_event X c events) ;;
    if fst rc <? 0 then ret (-1, snd rc)
    else if 0 <? fst rc then
      ret (0, upd_stream (fun ctx => set_total_bytes_sent
                                       (u64_add (total_bytes_sent ctx) (fst rc)) ctx) (snd rc))
    else ret (0, snd rc)
  (* Process RTSP RTP socket events (UDP mode) *)
  else if (0 <? rtp_socket (rtsp ctx)) && (sock =? rtp_socket (rtsp ctx)) then
    rc <- extcall call_rtsp_handle_udp_rtp_data (rtsp_handle_udp_rtp_data X c) ;;
    if fst rc <? 0 then ret (-1, snd rc)
    else if 0 <? fst rc then
      ret (0, upd_stream (fun ctx => set_total_bytes_sent
                                       (u64_add (total_bytes_sent ctx) (fst rc)) ctx) (snd rc))
    else ret (0, snd rc)
  (* Handle UDP RTCP socket *)
  else if (0 <? rtcp_socket (rtsp ctx)) && (sock =? rtcp_socket (rtsp ctx)) then
    extcall (call_recv (rtcp_socket (rtsp ctx)) (RTCP_BUFFER_SIZE K))
            (sys_recv X (rtcp_socket (rtsp ctx)) (RTCP_BUFFER_SIZE K)) ;;
    ret (0, c)
  else ret (0, c).

(** The all-zero context that [memset] leaves. *)
Definition zero_sockaddr : sockaddr_in := {| sin_addr := 0; sin_port := 0 |}.

Definition zero_fcc_session : fcc_session_t :=
  {| fcc_sock := 0; fcc_state := FCC_STATE_INIT; fcc_server := zero_sockaddr; media_port := 0;
     unicast_start_time := 0; fcc_status_index := 0 |}.

Definition zero_rtsp_session : rtsp_session_t :=
  {| rtsp_socket := 0; rtp_socket := 0; rtcp_socket := 0; rtsp_state := RTSP_STATE_INIT;
     transport_mode := RTSP_TRANSPORT_TCP; keepalive_interval_ms := 0; last_keepalive_ms := 0;
     session_id := EmptyString; rtsp_status_index := 0; rtsp_epoll_fd := 0 |}.

Definition zero_snapshot_context : snapshot_context_t :=
  {| enabled := 0; start_time := 0; fallback_to_streaming := 0 |}.

(** [stream_context_init_for_worker]; [ctx] is [&conn->stream], and the
    three pointers are never null here. *)
Definition stream_context_init_for_worker
    (c : connection_t) (srv : service_t) (epoll status_idx is_snapshot : Z)
  : M W (Z * connection_t) :=
  t1 <- extcall call_get_time_ms (get_time_ms X) ;;
  t2 <- extcall call_get_time_ms (get_time_ms X) ;;
  t3 <- extcall call_get_time_ms (get_time_ms X) ;;
  t4 <- extcall call_get_time_ms (get_time_ms X) ;;
  let ctx :=
    {| ctx_service := Some srv; epoll_fd := epoll; ctx_status_index := status_idx;
       fcc := set_fcc_status_index status_idx (fcc_session_init X zero_fcc_session);
       rtsp := set_rtsp_status_index status_idx (rtsp_session_init X zero_rtsp_session);
       snapshot := zero_snapshot_context; mcast_sock := 0;
       total_bytes_sent := 0; last_bytes_sent := 0; last_status_update := t1;
       last_mcast_data_time := t2; last_fcc_data_time := t3; last_mcast_rejoin_time := t4;
       reorder_enabled := 1;
       reorder_slots := repeat None (Z.to_nat (RTP_REORDER_BUFFER_SIZE K));
       reorder_expected_seqn := 0; reorder_base_seqn := 0; reorder_first_packet := 1;
       reorder_waiting := 0; reorder_wait_start := 0; reorder_drops := 0;
       reorder_duplicates := 0; reorder_out_of_order := 0; reorder_recovered := 0 |} in
  let c := set_stream ctx c in
  rs <- (if Zbool is_snapshot then
           r <- extcall call_snapshot_init (snapshot_init X c) ;;
           if fst r <? 0 then ret (-1, snd r)
           else if is_snapshot =? 2 then
             ret (0, upd_stream (fun ctx => set_snapshot
                                   (set_fallback_to_streaming 1 (snapshot ctx)) ctx) (snd r))
           else ret (0, snd r)
         else ret (0, c)) ;;
  if fst rs <? 0 then ret (-1, snd rs)
  else
    let c := snd rs in
    match service_type srv with
    | SERVICE_RTSP =>
        let c := upd_rtsp (set_rtsp_epoll_fd (epoll_fd (stream c))) c in
        match rtsp_url srv with
        | None => ret (-1, c)
        | Some u =>
            r <- extcall call_rtsp_parse_server_url
                   (rtsp_parse_server_url X c u (playseek_param srv) (user_agent srv)) ;;
            if fst r <? 0 then ret (-1, snd r)
            else
              r <- extcall call_rtsp_connect (rtsp_connect X (snd r)) ;;
              if fst r <? 0 then ret (-1, snd r) else ret (0, snd r)
        end
    | SERVICE_MRTP =>
        match fcc_addr srv with
        | Some _ =>
            r <- extcall call_fcc_initialize_and_request (fcc_initialize_and_request X c) ;;
            if fst r <? 0 then ret (-1, snd r) else ret (0, snd r)
        | None =>
            r <- stream_join_mcast_group c ;;
            let c := upd_stream (set_mcast_sock (fst r)) (snd r) in
            c <- fcc_session_set_state c FCC_STATE_MCAST_ACTIVE "Direct multicast" ;;
            ret (0, c)
        end
    end.

(** *** [stream_tick], one definition per commented block of the source *)

(** Periodic multicast rejoin. *)
Definition tick_mcast_rejoin (c : connection_t) (now : Z) : M W connection_t :=
  let ctx := stream c in
  if (0 <? mcast_rejoin_interval config) && (0 <? mcast_sock ctx) then
    let elapsed_ms := now - last_mcast_rejoin_time ctx in
    if mcast_rejoin_interval config * 1000 <=? elapsed_ms then
      r <- extcall (call_rejoin_mcast_group (mcast_sock ctx))
                   (rejoin_mcast_group X (mcast_sock ctx) (ctx_service ctx)) ;;
      if r =? 0 then ret (upd_stream (set_last_mcast_rejoin_time now) c) else ret c
    else ret c
  else ret c.

(** The multicast stream timeout: [true] when the tick returns -1 here. *)
Definition tick_mcast_timed_out (c : connection_t) (now : Z) : bool :=
  let ctx := stream c in
  (0 <? mcast_sock ctx) && (MCAST_TIMEOUT_SEC K * 1000 <=? now - last_mcast_data_time ctx).

(** FCC timeouts. *)
Definition tick_fcc_timeouts (c : connection_t) (now : Z) : M W connection_t :=
  let ctx := stream c in
  if 0 <? fcc_sock (fcc ctx) then
    let elapsed_ms := now - last_fcc_data_time ctx in
    match fcc_state (fcc ctx) with
    | FCC_STATE_REQUESTED | FCC_STATE_UNICAST_PENDING =>
        let timeout_ms := FCC_TIMEOUT_SIGNALING_MS K in
        if timeout_ms <=? elapsed_ms then
          c <- match fcc_state (fcc ctx) with
               | FCC_STATE_REQUESTED =>
                   fcc_session_set_state c FCC_STATE_MCAST_ACTIVE "Signaling timeout"
               | _ =>
                   fcc_session_set_state c FCC_STATE_MCAST_ACTIVE "First unicast packet timeout"
               end ;;
          r <- stream_join_mcast_group c ;;
          ret (upd_stream (set_mcast_sock (fst r)) (snd r))
        else ret c
    | FCC_STATE_UNICAST_ACTIVE | FCC_STATE_MCAST_REQUESTED =>
        let timeout_ms := int_of_double (FCC_TIMEOUT_UNICAST_SEC K * 1000)%float in
        c <- (if timeout_ms <=? elapsed_ms then
                c <- fcc_session_set_state c FCC_STATE_MCAST_ACTIVE "Unicast interrupted" ;;
                if negb (Zbool (mcast_sock (stream c))) then
                  r <- stream_join_mcast_group c ;;
                  ret (upd_stream (set_mcast_sock (fst r)) (snd r))
                else ret c
              else ret c) ;;
        match fcc_state (fcc (stream c)) with
        | FCC_STATE_UNICAST_ACTIVE =>
            if 0 <? unicast_start_time (fcc (stream c)) then
              let unicast_duration_ms := now - unicast_start_time (fcc (stream c)) in
              let sync_wait_timeout_ms :=
                int_of_double (FCC_TIMEOUT_SYNC_WAIT_SEC K * 1000)%float in
              if sync_wait_timeout_ms <=? unicast_duration_ms then
                r <- extcall (call_fcc_handle_sync_notification sync_wait_timeout_ms)
                       (fcc_handle_sync_notification X c sync_wait_timeout_ms) ;;
                ret (snd r)
              else ret c
            else ret c
        | _ => ret c
        end
    | _ => ret c
    end
  else ret c.

(** Periodic RTSP OPTIONS keepalive when using UDP transport. *)
Definition tick_rtsp_keepalive (c : connection_t) (now : Z) : M W connection_t :=
  let r := rtsp (stream c) in
  match rtsp_state r, transport_mode r with
  | RTSP_STATE_PLAYING, RTSP_TRANSPORT_UDP =>
      if (0 <? keepalive_interval_ms r) && nonempty (session_id r) then
        let c := if last_keepalive_ms r =? 0 then upd_rtsp (set_last_keepalive_ms now) c else c in
        let keepalive_elapsed := now - last_keepalive_ms (rtsp (stream c)) in
        if keepalive_interval_ms (rtsp (stream c)) <=? keepalive_elapsed then
          ka <- extcall call_rtsp_send_keepalive (rtsp_send_keepalive X c) ;;
          if fst ka =? 0 then ret (upd_rtsp (set_last_keepalive_ms now) (snd ka))
          else ret (snd ka)
        else ret c
      else ret c
  | _, _ => ret c
  end.

(** RTP reordering wait timeout. *)
Definition tick_reorder_timeout (c : connection_t) (now : Z) : M W connection_t :=
  let ctx := stream c in
  if Zbool (reorder_waiting ctx) then
    let wait_duration := now - reorder_wait_start ctx in
    if RTP_REORDER_TIMEOUT_MS K <=? wait_duration then
      c <- extcall call_rtp_reorder_timeout_recovery (rtp_reorder_timeout_recovery X c) ;;
      ret (upd_stream (set_reorder_waiting 0) c)
    else ret c
  else ret c.

(** Snapshot timeout. *)
Definition tick_snapshot_timeout (c : connection_t) (now : Z) : M W connection_t :=
  let ctx := stream c in
  if Zbool (enabled (snapshot ctx)) then
    let snapshot_elapsed := now - start_time (snapshot ctx) in
    if SNAPSHOT_TIMEOUT_SEC K * 1000 <? snapshot_elapsed then
      extcall call_snapshot_fallback_to_streaming (snapshot_fallback_to_streaming X c)
    else ret c
  else ret c.

(** Bandwidth update, once per second. *)
Definition tick_bandwidth (c : connection_t) (now : Z) : M W connection_t :=
  let ctx := stream c in
  if negb (Zbool (enabled (snapshot ctx))) && (1000 <=? now - last_status_update ctx) then
    let bytes_diff := u64_sub (total_bytes_sent ctx) (last_bytes_sent ctx) in
    let elapsed_ms := now - last_status_update ctx in
    let current_bandwidth :=
      if 0 <? elapsed_ms then u32_wrap (u64_mul bytes_diff 1000 / elapsed_ms) else 0 in
    extcall_ (call_status_update_client_bytes (ctx_status_index ctx) (total_bytes_sent ctx)
                current_bandwidth)
             (status_update_client_bytes X (ctx_status_index ctx) (total_bytes_sent ctx)
                current_bandwidth) ;;
    ret (upd_stream (fun ctx => set_last_status_update now
                                  (set_last_bytes_sent (total_bytes_sent ctx) ctx)) c)
  else ret c.

(** Everything after the FCC block; it always returns 0. *)
Definition stream_tick_rest (c : connection_t) (now : Z) : M W (Z * connection_t) :=
  c <- tick_rtsp_keepalive c now ;;
  c <- tick_reorder_timeout c now ;;
  c <- tick_snapshot_timeout c now ;;
  c <- tick_bandwidth c now ;;
  ret (0, c).

(** [stream_tick]; [ctx] is never null here. *)
Definition stream_tick (c : connection_t) (now : Z) : M W (Z * connection_t) :=
  c <- tick_mcast_rejoin c now ;;
  if tick_mcast_timed_out c now then ret (-1, c)
  else
    c <- tick_fcc_timeouts c now ;;
    stream_tick_rest c now.

(** ** connection.c: routing *)

(** Modelled from the spec: [http_send_400], [http_send_401],
    [http_send_404], [http_send_500] and [http_send_503] of http.c, which
    is not among the sources.  Section 7: request-layer rejections are
    "mapped to HTTP status and close".  The response they put on the
    connection is left to [http_error_response]. *)
Definition http_send (st : http_status_t) (c : connection_t) : M W connection_t :=
  c <- extcall (call_http_send st) (http_error_response X st c) ;;
  ret (set_state CONN_CLOSING c).

Definition http_send_400 : connection_t -> M W connection_t := http_send STATUS_400.
Definition http_send_401 : connection_t -> M W connection_t := http_send STATUS_401.
Definition http_send_404 : connection_t -> M W connection_t := http_send STATUS_404.
Definition http_send_500 : connection_t -> M W connection_t := http_send STATUS_500.
Definition http_send_503 : connection_t -> M W connection_t := http_send STATUS_503.

Definition CRLF : string := String (ascii_of_nat 13) (String (ascii_of_nat 10) EmptyString).

Definition handle_playlist_request (c : connection_t) : M W connection_t :=
  playlist <- extcall call_m3u_get_transformed_playlist (m3u_get_transformed_playlist X) ;;
  match playlist with
  | None => http_send_404 c
  | Some playlist =>
      let playlist_len := String.length playlist in
      let extra_headers :=
        truncate_to 128
          ("Content-Type: audio/x-mpegurl" ++ CRLF ++
           "Content-Length: " ++ string_of_size playlist_len ++ CRLF)%string in
      c <- extcall (call_send_http_headers STATUS_200 CONTENT_HTML (Some extra_headers))
                   (send_http_headers X STATUS_200 CONTENT_HTML (Some extra_headers) c) ;;
      rc <- connection_queue_output_and_flush c (list_byte_of_string playlist) ;;
      ret (snd rc)
  end.

(** The Host header without its port, as left in [host_without_port[256]]. *)
Definition host_without_port (h : string) : string :=
  match strchr h ":" with
  | Some host_len => String.substring 0 (Nat.min host_len 255) h
  | None => String.substring 0 255 h
  end.

(** Lines 503-541: [true] when the request is rejected with 400. *)
Definition hostname_rejected (req : http_request_t) : bool :=
  match hostname config with
  | Some h =>
      if nonempty h then
        if negb (nonempty (req_hostname req)) then true
        else negb (strcasecmp_eq (host_without_port (req_hostname req)) h)
      else false
  | None => false
  end.

(** Lines 549-583: [true] when the request is rejected with 401.
    [query] is the text after the question mark, if there is one. *)
Definition r2h_token_rejected (query : option string) : bool :=
  match r2h_token config with
  | Some tok =>
      if nonempty tok then
        match query with
        | None => true
        | Some q =>
            match http_parse_query_param X q "r2h-token" 256 with
            | None => true
            | Some token_value =>
                match http_url_decode X token_value with
                | None => true
                | Some token_value => negb (String.eqb token_value tok)
                end
            end
        end
      else false
  | None => false
  end.

(** Lines 654-722: find the configured service or build one. *)
Definition lookup_service (c : connection_t) (decoded_path : string)
    (query_start : option string) : M W ((Z * connection_t) + resolved) :=
  match find (fun s => String.eqb decoded_path (url s)) services with
  | None =>
      if Zbool (udpxy config) then
        s <- extcall (call_service_create_from_udpxy_url (req_url (http_req c)))
                     (service_create_from_udpxy_url X (req_url (http_req c))) ;;
        match s with
        | Some s => ret (inr (mk_resolved s 1 decoded_path query_start))
        | None => c <- http_send_404 c ;; ret (inl (0, c))
        end
      else c <- http_send_404 c ;; ret (inl (0, c))
  | Some s =>
      merged <- extcall (call_service_create_with_query_merge s (req_url (http_req c)))
                  (service_create_with_query_merge X s (req_url (http_req c)) (service_type s)) ;;
      match merged with
      | Some m => ret (inr (mk_resolved m 1 decoded_path query_start))
      | None =>
          cl <- extcall (call_service_clone s) (service_clone X s) ;;
          match cl with
          | None => c <- http_send_500 c ;; ret (inl (0, c))
          | Some s' => ret (inr (mk_resolved s' 1 decoded_path query_start))
          end
      end
  end.

(** Lines 489-722 of [connection_route_and_start]: every path that
    returns before the media branch, or the resolved service. *)
Definition connection_route_resolve (c : connection_t)
  : M W ((Z * connection_t) + resolved) :=
  let req := http_req c in
  let url := req_url req in
  if negb (String.prefix "/" url) then c <- http_send_400 c ;; ret (inl (0, c))
  else
  if hostname_rejected req then c <- http_send_400 c ;; ret (inl (0, c))
  else
    let service_path := str_from 1 url in
    let query_idx := strchr service_path "?" in
    let query_start := option_map (fun i => str_from i service_path) query_idx in
    let path_len :=
      match query_idx with Some i => i | None => String.length service_path end in
    if r2h_token_rejected (option_map (fun i => str_from (S i) service_path) query_idx)
    then c <- http_send_401 c ;; ret (inl (0, c))
    else
      let path_len :=
        match path_len with
        | S n => match String.get n service_path with
                 | Some "/"%char => n
                 | _ => path_len
                 end
        | O => path_len
        end in
      let status_route :=
        match status_page_route config with Some r => r | None => "status"%string end in
      let status_route_len := String.length status_route in
      let status_sse_route :=
        if (0 <? status_route_len)%nat
        then truncate_to HTTP_URL_BUFFER_SIZE (status_route ++ "/sse")%string
        else "sse"%string in
      let status_api_prefix :=
        if (0 <? status_route_len)%nat
        then truncate_to HTTP_URL_BUFFER_SIZE (status_route ++ "/api/")%string
        else "api/"%string in
      let playlist_route := "playlist.m3u"%string in
      let status_api_prefix_len := String.length status_api_prefix in
      if (status_route_len =? path_len)%nat && strncmp_eq service_path status_route path_len
      then
        c <- extcall call_handle_status_page (handle_status_page X c) ;;
        ret (inl (0, set_state CONN_CLOSING c))
      else if (String.length playlist_route =? path_len)%nat
              && strncmp_eq service_path playlist_route path_len
      then
        c <- handle_playlist_request c ;;
        ret (inl (0, set_state CONN_CLOSING c))
      else if (String.length status_sse_route =? path_len)%nat
              && strncmp_eq service_path status_sse_route path_len
      then
        r <- extcall call_status_handle_sse_init (status_handle_sse_init X c) ;;
        ret (inl r)
      else if (status_api_prefix_len <=? path_len)%nat
              && strncmp_eq service_path status_api_prefix status_api_prefix_len
      then
        let api_name := str_from status_api_prefix_len service_path in
        let api_name_len := (path_len - status_api_prefix_len)%nat in
        if (api_name_len =? String.length "disconnect")%nat
           && strncmp_eq api_name "disconnect" api_name_len
        then
          c <- extcall call_handle_disconnect_client (handle_disconnect_client X c) ;;
          ret (inl (0, set_state CONN_CLOSING c))
        else if (api_name_len =? String.length "log-level")%nat
                && strncmp_eq api_name "log-level" api_name_len
        then
          c <- extcall call_handle_set_log_level (handle_set_log_level X c) ;;
          ret (inl (0, set_state CONN_CLOSING c))
        else
          c <- http_send_404 c ;;
          ret (inl (0, set_state CONN_CLOSING c))
      else if HTTP_URL_BUFFER_SIZE <=? Z.of_nat path_len
      then c <- http_send_400 c ;; ret (inl (0, c))
      else
        match http_url_decode X (String.substring 0 path_len service_path) with
        | None => c <- http_send_400 c ;; ret (inl (0, c))
        | Some decoded_path => lookup_service c decoded_path query_start
        end.

(** Lines 750-785: 0 = no snapshot, 1 = [snapshot=1], 2 = header-driven. *)
Definition detect_snapshot_request (req : http_request_t) (query_start : option string) : Z :=
  if Zbool (video_snapshot config) then
    let is_snapshot_request := if Zbool (x_request_snapshot req) then 2 else 0 in
    let is_snapshot_request :=
      if negb (Zbool is_snapshot_request) && nonempty (accept req)
      then if strstr_found (accept req) "image/jpeg" then 2 else is_snapshot_request
      else is_snapshot_request in
    if negb (Zbool is_snapshot_request) then
      match query_start with
      | Some q =>
          match http_parse_query_param X (str_from 1 q) "snapshot" 16 with
          | Some snapshot_value =>
              if String.eqb snapshot_value "1" then 1 else is_snapshot_request
          | None => is_snapshot_request
          end
      | None => is_snapshot_request
      end
    else is_snapshot_request
  else 0.

(** Lines 790-816: the URL shown in the status table. *)
Definition build_display_url (decoded_path : string) (query_start : option string) : string :=
  let display_url := "/"%string in
  let display_url :=
    if Z.of_nat (String.length display_url + String.length decoded_path) <? HTTP_URL_BUFFER_SIZE
    then (display_url ++ decoded_path)%string else display_url in
  match query_start with
  | Some q =>
      if (Z.of_nat (String.length display_url) <? HTTP_URL_BUFFER_SIZE)
         && (Z.of_nat (String.length display_url + String.length q) <? HTTP_URL_BUFFER_SIZE)
      then (display_url ++ q)%string else display_url
  | None => display_url
  end.

Definition service_free_if (owned : Z) (s : service_t) : M W unit :=
  if Zbool owned then extcall_ (call_service_free s) (service_free X s) else ret tt.

(** Lines 724-855 of [connection_route_and_start]: the media branch. *)
Definition connection_route_media (c : connection_t) (rs : resolved)
  : M W (Z * connection_t) :=
  let srv := rs_service rs in
  let owned := rs_owned rs in
  let req := http_req c in
  (* HEAD requests for media streams *)
  if strcasecmp_eq (method req) "HEAD" then
    c <- extcall (call_send_http_headers STATUS_200 CONTENT_MP2T None)
                 (send_http_headers X STATUS_200 CONTENT_MP2T None c) ;;
    connection_epoll_update_events (epfd c) (fd c) EV_READ_WRITE ;;
    service_free_if owned srv ;;
    ret (0, set_state CONN_CLOSING c)
  else
    let srv :=
      if Zbool owned && nonempty (req_user_agent req)
      then set_user_agent (Some (req_user_agent req)) srv else srv in
    (* Capacity check *)
    total_clients <- peek (status_shared_total_clients X) ;;
    if match total_clients with Some n => maxclients config <=? n | None => false end then
      c <- http_send_503 c ;;
      service_free_if owned srv ;;
      ret (0, c)
    else
      let is_snapshot_request := detect_snapshot_request req (rs_query_start rs) in
      (* Register streaming client in status tracking *)
      c <- (if 0 <? client_addr_len c then
              let display_url := build_display_url (rs_decoded_path rs) (rs_query_start rs) in
              idx <- extcall (call_status_register_client display_url)
                       (status_register_client X (client_addr_len c) display_url) ;;
              ret (set_status_index idx c)
            else ret (set_status_index (-1) c)) ;;
      (* Send success headers, except for snapshots *)
      c <- (if negb (Zbool is_snapshot_request) then
              extcall (call_send_http_headers STATUS_200 CONTENT_MP2T None)
                      (send_http_headers X STATUS_200 CONTENT_MP2T None c)
            else ret c) ;;
      r <- stream_context_init_for_worker c srv (epfd c) (status_index c) is_snapshot_request ;;
      let c := snd r in
      if fst r =? 0 then
        c <- (if negb (Zbool is_snapshot_request) && negb (Zbool (stream_registered c)) then
                extcall_ call_zerocopy_register_stream_client
                         (zerocopy_register_stream_client X) ;;
                ret (set_stream_registered 1 c)
              else ret c) ;;
        let c := set_streaming 1 c in
        let c := set_service (Some srv) c in
        let c := set_service_owned owned c in
        let c := set_state CONN_STREAMING c in
        let c := set_buffer_class CONNECTION_BUFFER_MEDIA c in
        ret (0, c)
      else
        service_free_if owned srv ;;
        ret (-1, set_state CONN_CLOSING c).

Definition connection_route_and_start (c : connection_t) : M W (Z * connection_t) :=
  r <- connection_route_resolve c ;;
  match r with
  | inl done => ret done
  | inr rs => connection_route_media c rs
  end.

(** ** Notions used by the statements *)

(** The world a computation ends in, returned or exited. *)
Definition final_world {A : Type} (o : outcome W A) : world W :=
  match o with Returned _ w => w | Exited _ w => w end.

(** [m] only appends calls, and every call it appends satisfies [P]. *)
Definition emits {A : Type} (P : call -> Prop) (m : M W A) : Prop :=
  forall w, exists l, calls (final_world (m w)) = calls w ++ l /\ Forall P l.

(** [m] never ends the process. *)
Definition no_exit {A : Type} (m : M W A) : Prop :=
  forall w, exists a w', m w = Returned a w'.

(** The bytes the output path stores in a buffer: the first [data_size]
    bytes of its payload region.  [data_offset] is not written by
    [connection_queue_output]; it stays as the pool handed it out. *)
Definition stored_bytes (b : buffer_ref_t) : list Byte.byte :=
  firstn (Z.to_nat (data_size b)) (data b).

(** Sum of the [data_size] of the queued items. *)
Definition queue_total_bytes (q : zerocopy_queue_t) : Z :=
  fold_right (fun b acc => data_size b + acc) 0 (items q).

(** A buffer whose payload fits the fixed-size payload region. *)
Definition buffer_fits (b : buffer_ref_t) : Prop := 0 <= data_size b <= BUF.

(** The queue invariant: [num_queued] counts the items and every item
    fits one pool buffer. *)
Definition zc_queue_wf (q : zerocopy_queue_t) : Prop :=
  num_queued q = Z.of_nat (List.length (items q))
  /\ Forall buffer_fits (items q).

(** The state in which [connection_queue_zerocopy] computes its limit:
    the clock has been read. *)
Definition world_after_clock (w : world W) : world W :=
  mk_world (snd (get_time_ms X (ext w))) (calls w ++ [call_get_time_ms]).

(** The limit [connection_queue_zerocopy] computes for an enqueue started
    in world [w], with the connection as the computation leaves it. *)
Definition enqueue_limit_state (c : connection_t) (w : world W) : Z * connection_t :=
  let w1 := world_after_clock w in
  calculate_queue_limit (zerocopy_state_pool X (ext w1)) (zerocopy_active_streams X (ext w1))
    c (fst (get_time_ms X (ext w))).

Definition computed_queue_limit (c : connection_t) (w : world W) : Z :=
  fst (enqueue_limit_state c w).

(** [projected_bytes] of [connection_queue_zerocopy]. *)
Definition projected_bytes (c : connection_t) (buf_ref : buffer_ref_t) : Z :=
  size_add (size_mul (num_queued (zc_queue c)) BUF) (data_size buf_ref).

(** The enqueue is rejected: -1, the queue as it was, the three counters
    stepped. *)
Definition enqueue_rejected (c : connection_t) (buf_ref : buffer_ref_t) (w : world W) : Prop :=
  exists c' w',
    connection_queue_zerocopy c buf_ref w = Returned (-1, c') w'
    /\ zc_queue c' = zc_queue c
    /\ dropped_packets c' = u64_add (dropped_packets c) 1
    /\ dropped_bytes c' = u64_add (dropped_bytes c) (data_size buf_ref)
    /\ backpressure_events c' = u64_add (backpressure_events c) 1.

(** The buffer was accepted: it passed the limit and the queue took it. *)
Definition enqueue_accepted (c : connection_t) (buf_ref : buffer_ref_t) (w : world W)
    (c' : connection_t) : Prop :=
  data_size buf_ref <> 0
  /\ exists w', connection_queue_zerocopy c buf_ref w = Returned (0, c') w'.

(** What one call of [connection_queue_zerocopy] can do. *)
Inductive enqueue_result (c : connection_t) (buf_ref : buffer_ref_t) (w : world W)
  : Z -> connection_t -> Prop :=
| enqueue_ignored :
    data_size buf_ref = 0 -> enqueue_result c buf_ref w 0 c
| enqueue_dropped c' :
    data_size buf_ref <> 0 ->
    computed_queue_limit c w < projected_bytes c buf_ref ->
    c' = connection_record_drop
           (set_queue_limit_bytes (computed_queue_limit c w) (snd (enqueue_limit_state c w)))
           (data_size buf_ref) ->
    enqueue_result c buf_ref w (-1) c'
| enqueue_refused c' :
    data_size buf_ref <> 0 ->
    projected_bytes c buf_ref <= computed_queue_limit c w ->
    zerocopy_queue_refuses X (zc_queue c) buf_ref = true ->
    c' = set_queue_limit_bytes (computed_queue_limit c w) (snd (enqueue_limit_state c w)) ->
    enqueue_result c buf_ref w (-1) c'
| enqueue_queued c' :
    data_size buf_ref <> 0 ->
    projected_bytes c buf_ref <= computed_queue_limit c w ->
    zc_queue c' = {| items := items (zc_queue c) ++ [buf_ref];
                     num_queued := size_add (num_queued (zc_queue c)) 1 |} ->
    queue_limit_bytes c' = computed_queue_limit c w ->
    buffer_class c' = buffer_class c ->
    enqueue_result c buf_ref w 0 c'.

(** The limit in the words of the spec: the product, capped by
    [max_buffers * BUFFER_SIZE - reserve] when [max_buffers > 0] and that
    cap is positive, and never below [4 * BUFFER_SIZE]. *)
Definition spec_limit_bytes (pool : buffer_pool_t) (fair_bytes : Z) (burst_factor : float) : Z :=
  let product := size_of_double (double_of_size fair_bytes * burst_factor)%float in
  let global_cap := size_mul (max_buffers pool) BUF in
  let reserve := size_mul CONN_QUEUE_MIN_BUFFERS BUF in
  let capped :=
    if (0 <? max_buffers pool) && (reserve <? global_cap)
    then Z.min product (size_sub global_cap reserve)
    else product in
  Z.max (size_mul BUF 4) capped.

(** The limit as the code caps it: small pools are capped by the whole
    pool. *)
Definition capped_limit_bytes (pool : buffer_pool_t) (fair_bytes : Z) (burst_factor : float) : Z :=
  let product := size_of_double (double_of_size fair_bytes * burst_factor)%float in
  let global_cap := size_mul (max_buffers pool) BUF in
  let reserve := size_mul CONN_QUEUE_MIN_BUFFERS BUF in
  let capped :=
    if 0 <? max_buffers pool then
      if reserve <? global_cap
      then Z.min product (size_sub global_cap reserve)
      else Z.min product global_cap
    else product in
  Z.max (size_mul BUF 4) capped.

(** The chunks [connection_queue_output] cuts [src] into: full buffers,
    then the remainder. *)
Equations? chunks_of (src : list Byte.byte) : list (list Byte.byte)
  by wf (List.length src) lt :=
chunks_of [] := [];
chunks_of (b :: rest) :=
  let src := b :: rest in
  firstn (Z.to_nat (chunk_size_of src)) src :: chunks_of (skipn (Z.to_nat (chunk_size_of src)) src).
Proof.
  pose proof K_ok as Hpos. unfold constants_ok in Hpos.
  subst src. unfold chunk_size_of.
  rewrite length_skipn. cbn [List.length].
  destruct (Z.ltb_spec (BUFFER_POOL_BUFFER_SIZE K) (Z.of_nat (S (List.length rest)))); lia.
Qed.

(** The buffer one pass of the output loop queues when [src] is left to
    queue and the pool hands out [buf_ref]: the next chunk copied to the
    start of the payload region, [data_size] set to its length. *)
Definition fill_chunk (buf_ref : buffer_ref_t) (src : list Byte.byte) : buffer_ref_t :=
  set_data_size (chunk_size_of src)
    (set_data (memcpy_into (data buf_ref) (firstn (Z.to_nat (chunk_size_of src)) src))
       buf_ref).

(** In state [x] the pools have no buffer for a connection of the class
    of [c]: the control pool and then the shared pool for a control
    connection, the shared pool for a media connection. *)
Definition pool_exhausted_for (c : connection_t) (x : W) : Prop :=
  match buffer_class c with
  | CONNECTION_BUFFER_CONTROL =>
      fst (buffer_pool_alloc_control X x) = None
      /\ fst (buffer_pool_alloc X (snd (buffer_pool_alloc_control X x))) = None
  | CONNECTION_BUFFER_MEDIA => fst (buffer_pool_alloc X x) = None
  end.

(** The pass of the output loop that starts with connection [c] in world
    [w] and [src] left to queue fails and leaves [c']: the pools are
    exhausted, or a buffer was handed out and
    [connection_queue_zerocopy] rejected it. *)
Definition output_pass_fails (c : connection_t) (src : list Byte.byte) (w : world W)
    (c' : connection_t) : Prop :=
  (pool_exhausted_for c (ext w) /\ c' = c)
  \/ (exists buf_ref w1 w2,
        connection_alloc_output_buffer c w = Returned (Some buf_ref) w1
        /\ connection_queue_zerocopy c (fill_chunk buf_ref src) w1 = Returned (-1, c') w2).

(** The event is on the FCC socket. *)
Definition is_fcc_event (c : connection_t) (sock : Z) : bool :=
  (0 <? fcc_sock (fcc (stream c))) && (sock =? fcc_sock (fcc (stream c))).

(** The event is on the multicast socket. *)
Definition is_mcast_event (c : connection_t) (sock : Z) : bool :=
  (0 <? mcast_sock (stream c)) && (sock =? mcast_sock (stream c)).

(** The tick gets as far as the FCC timeout block: there is an FCC socket
    and the multicast timeout has not ended the tick before. *)
Definition tick_reaches_fcc_block (c : connection_t) (now : Z) : Prop :=
  0 < fcc_sock (fcc (stream c)) /\ tick_mcast_timed_out c now = false.

(** The world after [fcc_session_set_state]. *)
Definition world_after_set_state (st : fcc_state_t) (reason : string) (w : world W) : world W :=
  mk_world (fcc_state_changed X st reason (ext w))
           (calls w ++ [call_fcc_session_set_state st reason]).

(** [join_mcast_group], called in world [w] for the service of [c],
    returns a socket whose registration with epoll fails. *)
Definition join_registration_fails (c : connection_t) (w : world W) : bool :=
  let r := join_mcast_group X (ctx_service (stream c)) (ext w) in
  (0 <? fst r)
  && (fst (epoll_ctl X EPOLL_CTL_ADD (epoll_fd (stream c)) (fst r) EPOLLIN (snd r)) <? 0).

(** The calls [stream_join_mcast_group] makes after [join_mcast_group]
    has returned [sock] and the registration has not failed. *)
Definition join_registration_calls (c : connection_t) (sock : Z) : list call :=
  if 0 <? sock
  then [call_epoll_ctl EPOLL_CTL_ADD (epoll_fd (stream c)) sock EPOLLIN;
        call_fdmap_set sock; call_get_time_ms]
  else [].

(** The claim on the FCC signalling timeout, for every tick: the state
    is set, the group is joined, and the tick returns 0. *)
Definition fcc_timeout_always_falls_back : Prop :=
  forall c now w,
    fcc_state (fcc (stream c)) = FCC_STATE_REQUESTED
    \/ fcc_state (fcc (stream c)) = FCC_STATE_UNICAST_PENDING ->
    tick_reaches_fcc_block c now ->
    FCC_TIMEOUT_SIGNALING_MS K <= now - last_fcc_data_time (stream c) ->
    exists c' w' reason,
      stream_tick c now w = Returned (0, c') w'
      /\ In (call_fcc_session_set_state FCC_STATE_MCAST_ACTIVE reason) (calls w')
      /\ In (call_join_mcast_group (ctx_service (stream c))) (calls w').

(** The calls that look a service up or build one. *)
Definition is_lookup_call (e : call) : Prop :=
  match e with
  | call_service_create_from_udpxy_url _
  | call_service_create_with_query_merge _ _
  | call_service_clone _ => True
  | _ => False
  end.

(** Anything but an HTTP error response. *)
Definition not_http_send (e : call) : Prop :=
  match e with call_http_send _ => False | _ => True end.

Definition not_401 (e : call) : Prop := e <> call_http_send STATUS_401.

(** The query string of the request: the text after the first '?'. *)
Definition request_query (req : http_request_t) : option string :=
  let service_path := str_from 1 (req_url req) in
  option_map (fun i => str_from (S i) service_path) (strchr service_path "?").

(** The URL-decoded value of the request's [r2h-token] parameter. *)
Definition presented_token (req : http_request_t) : option string :=
  match request_query req with
  | Some q =>
      match http_parse_query_param X q "r2h-token" 256 with
      | Some v => http_url_decode X v
      | None => None
      end
  | None => None
  end.

(** Routing answers with the error [st] and nothing else: it returns 0,
    the connection is closing, and the response is the only call made. *)
Definition answered_only_with (st : http_status_t) (c : connection_t) (w : world W) : Prop :=
  connection_route_and_start c w
  = Returned (0, set_state CONN_CLOSING (fst (http_error_response X st c (ext w))))
      (mk_world (snd (http_error_response X st c (ext w))) (calls w ++ [call_http_send st])).

(** Routing makes no call that sends a 401. *)
Definition never_sends_401 (c : connection_t) (w : world W) : Prop :=
  exists l, calls (final_world (connection_route_and_start c w)) = calls w ++ l
            /\ Forall not_401 l.

(** The claim on the auth token, for every request. *)
Definition token_gate_for_every_request : Prop :=
  forall c w tok,
    r2h_token config = Some tok -> nonempty tok = true ->
    (presented_token (http_req c) <> Some tok -> answered_only_with STATUS_401 c w)
    /\ (presented_token (http_req c) = Some tok -> never_sends_401 c w).

(** The claim on rejected enqueues, for every buffer. *)
Definition every_enqueue_over_limit_is_dropped : Prop :=
  forall c buf_ref w,
    computed_queue_limit c w < projected_bytes c buf_ref -> enqueue_rejected c buf_ref w.

(** The claim on accepted enqueues, for every connection and buffer. *)
Definition every_accepted_enqueue_is_within_limit : Prop :=
  forall c buf_ref w c',
    enqueue_accepted c buf_ref w c' ->
    queue_total_bytes (zc_queue c') <= queue_limit_bytes c'.

(** The claim on the limit, in the words of the spec. *)
Definition limit_is_spec_limit : Prop :=
  forall pool fair_bytes burst_factor,
    connection_compute_limit_bytes pool fair_bytes burst_factor
    = spec_limit_bytes pool fair_bytes burst_factor.

(** ** Notions used by the further properties *)

(** The buffers a sequence of calls hands to [buffer_ref_put], in order. *)
Definition released (l : list call) : list buffer_ref_t :=
  flat_map (fun e => match e with call_buffer_ref_put b => [b] | _ => [] end) l.

(** The services a sequence of calls hands to [service_free], in order. *)
Definition services_freed (l : list call) : list service_t :=
  flat_map (fun e => match e with call_service_free s => [s] | _ => [] end) l.

(** Anything but a queue report to the status table. *)
Definition not_queue_report (e : call) : Prop :=
  match e with
  | call_status_update_client_queue _ _ _ _ _ _ _ _ _ _ => False
  | _ => True
  end.

(** The calls [stream_context_init_for_worker] can make. *)
Definition stream_init_call (e : call) : Prop :=
  match e with
  | call_get_time_ms | call_snapshot_init | call_rtsp_parse_server_url | call_rtsp_connect
  | call_fcc_initialize_and_request | call_join_mcast_group _ | call_epoll_ctl _ _ _ _
  | call_close _ | call_fdmap_set _ | call_fcc_session_set_state _ _ => True
  | _ => False
  end.

(** Anything but response headers and the registration of a stream
    client. *)
Definition not_stream_start (e : call) : Prop :=
  match e with
  | call_send_http_headers _ _ _ | call_zerocopy_register_stream_client => False
  | _ => True
  end.

(** Anything but [service_free]. *)
Definition frees_no_service (e : call) : Prop :=
  match e with call_service_free _ => False | _ => True end.


(** ** connection.c and stream.c: life cycle and socket I/O *)

Variable Y : io_externs W.
Variable KIO : io_constants.

Definition connection_set_nonblocking (sock : Z) : IO W Z :=
  (flags <- io_extcall (call_fcntl_getfl sock) (fcntl_getfl Y sock) ;;
   if flags <? 0 then io_ret (-1)
   else io_extcall (call_fcntl_setfl sock (Z.lor flags (O_NONBLOCK KIO)))
          (fcntl_setfl Y sock (Z.lor flags (O_NONBLOCK KIO))))%io.

Definition connection_set_tcp_nodelay (sock : Z) : IO W Z :=
  io_extcall (call_setsockopt sock TCP_NODELAY 1) (setsockopt Y sock TCP_NODELAY 1).

(** The memory [calloc] hands out: every field zero. *)
Definition zero_request : http_request_t :=
  {| method := ""; req_url := ""; req_hostname := ""; req_user_agent := ""; accept := "";
     x_request_snapshot := 0 |}.

Definition zero_stream_context : stream_context_t :=
  {| ctx_service := None; epoll_fd := 0; ctx_status_index := 0;
     fcc := zero_fcc_session; rtsp := zero_rtsp_session; snapshot := zero_snapshot_context;
     mcast_sock := 0; total_bytes_sent := 0; last_bytes_sent := 0; last_status_update := 0;
     last_mcast_data_time := 0; last_fcc_data_time := 0; last_mcast_rejoin_time := 0;
     reorder_enabled := 0;
     reorder_slots := repeat None (Z.to_nat (RTP_REORDER_BUFFER_SIZE K));
     reorder_expected_seqn := 0; reorder_base_seqn := 0; reorder_first_packet := 0;
     reorder_waiting := 0; reorder_wait_start := 0; reorder_drops := 0;
     reorder_duplicates := 0; reorder_out_of_order := 0; reorder_recovered := 0 |}.

(** [connection_create]; [None] is the null pointer returned when
    [calloc] fails.  [client_addr] is [None] for a null pointer; the
    address bytes themselves are not kept in the model. *)
Definition connection_create (sock ep : Z) (client_addr : option (list Byte.byte))
    (addr_len : Z) : IO W (option (connection_t * connection_io_t)) :=
  (allocated <- io_extcall call_calloc (calloc Y) ;;
   if negb allocated then io_ret None
   else
     let c :=
       {| fd := sock; epfd := ep; state := CONN_READ_REQ_LINE; service := None;
          service_owned := 0; streaming := 0; status_index := -1;
          client_addr_len :=
            match client_addr with
            | Some _ => if 0 <? addr_len then addr_len else 0
            | None => 0
            end;
          zc_queue := zerocopy_queue_init Y {| items := []; num_queued := 0 |};
          buffer_class := CONNECTION_BUFFER_CONTROL; queue_limit_bytes := 0;
          queue_bytes_highwater := 0; queue_buffers_highwater := 0; dropped_packets := 0;
          dropped_bytes := 0; backpressure_events := 0; stream_registered := 0;
          queue_avg_bytes := 0%float; slow_active := 0; slow_candidate_since := 0;
          http_req := zero_request; stream := zero_stream_context |} in
     (* Enforce TCP user timeout; a failure is only logged *)
     io_extcall (call_setsockopt sock TCP_USER_TIMEOUT CONNECTION_TCP_USER_TIMEOUT_MS)
       (setsockopt Y sock TCP_USER_TIMEOUT CONNECTION_TCP_USER_TIMEOUT_MS) ;;
     (* Enable SO_ZEROCOPY on socket if supported *)
     features <- io_peek (zerocopy_state_features Y) ;;
     zc_enabled <-
       (if Zbool (Z.land features (ZEROCOPY_MSG_ZEROCOPY KIO)) then
          r <- io_extcall (call_setsockopt sock SO_ZEROCOPY 1) (setsockopt Y sock SO_ZEROCOPY 1) ;;
          io_ret (if r =? 0 then 1 else 0)
        else io_ret 0) ;;
     let c := set_http_req (http_request_init Y (http_req c)) c in
     io_ret (Some (c, {| inbuf := repeat Byte.x00 (Z.to_nat (INBUF_SIZE KIO)); in_len := 0;
                         sse_active := 0; zerocopy_enabled := zc_enabled;
                         write_queue_pending := 0 |})))%io.

(** The loop over [reorder_slots] in [stream_context_cleanup]: the first
    [n] slots are visited in order, a buffer found is released and its
    slot cleared. *)
Fixpoint release_reorder_slots (n : nat) (slots : list (option buffer_ref_t))
  : M W (list (option buffer_ref_t)) :=
  match n, slots with
  | S n', Some b :: rest =>
      buffer_put b ;;
      rest' <- release_reorder_slots n' rest ;;
      ret (None :: rest')
  | S n', None :: rest =>
      rest' <- release_reorder_slots n' rest ;;
      ret (None :: rest')
  | _, _ => ret slots
  end.

(** [stream_context_cleanup]; [ctx] is [&c->stream], never null here.
    The session cleanups receive pointers into the context, which points
    back at the connection, so they are given the connection. *)
Definition stream_context_cleanup (c : connection_t) : IO W (Z * connection_t) :=
  (* Clean up RTP reordering buffer *)
  (slots <- lift (release_reorder_slots (Z.to_nat (RTP_REORDER_BUFFER_SIZE K))
                    (reorder_slots (stream c))) ;;
   let c := upd_stream (set_reorder_slots slots) c in
   (* Clean up snapshot resources if in snapshot mode *)
   c <- (if Zbool (enabled (snapshot (stream c)))
         then io_extcall call_snapshot_free (snapshot_free Y c)
         else io_ret c) ;;
   (* Clean up FCC session *)
   c <- io_extcall call_fcc_session_cleanup (fcc_session_cleanup Y c) ;;
   (* Clean up RTSP session - this may initiate async TEARDOWN *)
   r <- io_extcall call_rtsp_session_cleanup (rtsp_session_cleanup Y c) ;;
   let rtsp_async := fst r in
   let c := snd r in
   (* Close multicast socket if active *)
   c <- (if Zbool (mcast_sock (stream c)) then
           io_extcall_ (call_worker_cleanup_socket_from_epoll (epoll_fd (stream c))
                          (mcast_sock (stream c)))
             (worker_cleanup_socket_from_epoll Y (epoll_fd (stream c)) (mcast_sock (stream c))) ;;
           io_ret (upd_stream (set_mcast_sock 0) c)
         else io_ret c) ;;
   if Zbool rtsp_async then io_ret (1, c)
   else io_ret (0, upd_stream (set_ctx_service None) c))%io.

(** [connection_free]; the connection is a record, so the null test has
    no counterpart, and the memory given back by [free] is the record
    that is not returned. *)
Definition connection_free (c : connection_t) : IO W unit :=
  (c <- (if Zbool (stream_registered c) then
           io_extcall_ call_zerocopy_unregister_stream_client
             (zerocopy_unregister_stream_client Y) ;;
           io_ret (set_stream_registered 0 c)
         else io_ret c) ;;
   (* Clean up stream context if still marked as streaming *)
   c <- (if Zbool (streaming c) then
           r <- stream_context_cleanup c ;;
           io_ret (snd r)
         else io_ret c) ;;
   (* Cleanup zero-copy queue - this releases all buffer references *)
   q <- io_extcall call_zerocopy_queue_cleanup (zerocopy_queue_cleanup Y (zc_queue c)) ;;
   let c := set_zc_queue q c in
   (* Try to shrink buffer pool after connection cleanup *)
   io_extcall_ call_buffer_pool_try_shrink (buffer_pool_try_shrink Y) ;;
   (* Free service if owned *)
   c <- (if Zbool (service_owned c) then
           match service c with
           | Some s =>
               lift (extcall_ (call_service_free s) (service_free X s)) ;;
               io_ret (set_service None c)
           | None => io_ret c
           end
         else io_ret c) ;;
   (* Unregister from status *)
   (if 0 <=? status_index c then
      io_extcall_ (call_status_unregister_client (status_index c))
        (status_unregister_client Y (status_index c))
    else io_ret tt) ;;
   (* Close socket *)
   if 0 <=? fd c then lift (extcall_ (call_close (fd c)) (sys_close X (fd c)))
   else io_ret tt)%io.

Definition is_closing (s : conn_state_t) : bool :=
  match s with CONN_CLOSING => true | _ => false end.

(** [connection_handle_write].  zerocopy.h is not among the sources: the
    [head] and [pending_head] pointers of the queue are read through
    [zerocopy_queue_head] and [zerocopy_queue_pending_head], [true] for
    a non-null pointer. *)
Definition connection_handle_write (c : connection_t)
  : IO W (connection_write_status_t * connection_t) :=
  (head <- io_peek (zerocopy_queue_head Y (zc_queue c)) ;;
   if negb head then
     lift (connection_report_queue c) ;;
     pending <- io_peek (zerocopy_queue_pending_head Y (zc_queue c)) ;;
     if is_closing (state c) && negb pending
     then io_ret (CONNECTION_WRITE_CLOSED, c)
     else io_ret (CONNECTION_WRITE_IDLE, c)
   else
     r <- io_extcall (call_zerocopy_send (fd c)) (zerocopy_send Y (fd c) (zc_queue c)) ;;
     let rc := fst r in
     let c := set_zc_queue (snd r) c in
     if (rc <? 0) && negb (rc =? -2) then
       let c := set_state CONN_CLOSING c in
       lift (connection_report_queue c) ;;
       io_ret (CONNECTION_WRITE_CLOSED, c)
     else if rc =? -2 then
       lift (connection_report_queue c) ;;
       io_ret (CONNECTION_WRITE_BLOCKED, c)
     else
       head <- io_peek (zerocopy_queue_head Y (zc_queue c)) ;;
       if head then
         lift (connection_report_queue c) ;;
         io_ret (CONNECTION_WRITE_PENDING, c)
       else
         lift (connection_epoll_update_events (epfd c) (fd c) EV_READ) ;;
         lift (connection_report_queue c) ;;
         pending <- io_peek (zerocopy_queue_pending_head Y (zc_queue c)) ;;
         if is_closing (state c) && negb pending
         then io_ret (CONNECTION_WRITE_CLOSED, c)
         else io_ret (CONNECTION_WRITE_IDLE, c))%io.

(** [read(c->fd, c->inbuf + c->in_len, ...)]: the bytes read overwrite
    the buffer from offset [in_len] on. *)
Definition store_at (off : Z) (bytes buf : list Byte.byte) : list Byte.byte :=
  firstn (Z.to_nat off) buf ++ bytes
  ++ skipn (Z.to_nat off + List.length bytes) buf.

(** [connection_handle_read]; the return value of
    [connection_route_and_start] is not used by the source.  Routing
    works on the fields of [connection_t]; the socket-side fields pass
    through it as the parser left them. *)
Definition connection_handle_read (c : connection_t) (io : connection_io_t)
  : IO W (connection_t * connection_io_t) :=
  (* Read into input buffer *)
  (r <- (if in_len io <? INBUF_SIZE KIO then
           rd <- io_extcall (call_read (fd c) (INBUF_SIZE KIO - in_len io))
                   (sys_read Y (fd c) (INBUF_SIZE KIO - in_len io)) ;;
           if 0 <? read_r rd then
             io_ret (inl (c, {| inbuf := store_at (in_len io) (read_bytes rd) (inbuf io);
                                in_len := in_len io + read_r rd;
                                sse_active := sse_active io;
                                zerocopy_enabled := zerocopy_enabled io;
                                write_queue_pending := write_queue_pending io |}))
           else if read_r rd =? 0 then io_ret (inr (set_state CONN_CLOSING c, io))
           else if read_errno_is_EAGAIN rd then io_ret (inr (c, io))
           else io_ret (inr (set_state CONN_CLOSING c, io))
         else io_ret (inl (c, io))) ;;
   match r with
   | inr done => io_ret done
   | inl (c, io) =>
       (* Parse HTTP request using http.c parser *)
       match state c with
       | CONN_READ_REQ_LINE | CONN_READ_HEADERS =>
           p <- io_extcall call_http_parse_request
                  (http_parse_request Y (inbuf io) (in_len io) (http_req c)) ;;
           let c := set_http_req (parse_req p) c in
           let io := {| inbuf := parse_inbuf p; in_len := parse_in_len p;
                        sse_active := sse_active io;
                        zerocopy_enabled := zerocopy_enabled io;
                        write_queue_pending := write_queue_pending io |} in
           if parse_rc p =? 1 then
             (* Request complete, route it *)
             let c := set_state CONN_ROUTE c in
             routed <- lift (connection_route_and_start c) ;;
             io_ret (snd routed, io)
           else if parse_rc p <? 0 then io_ret (set_state CONN_CLOSING c, io)
           else io_ret (c, io)
       | _ => io_ret (c, io)
       end
   end)%io.


(** The buffers held in a sequence of reorder slots, in slot order. *)
Definition held_buffers (slots : list (option buffer_ref_t)) : list buffer_ref_t :=
  flat_map (fun s => match s with Some b => [b] | None => [] end) slots.

(** The calls of a trace that were logged by the functions of the first
    part. *)
Definition base_calls (t : list event) : list call :=
  flat_map (fun e => match e with inl c => [c] | inr _ => [] end) t.

(** The status of [c] in world [x] that lets [connection_handle_write]
    report the connection closed once its queue has no head. *)
Definition closed_and_settled (c : connection_t) (x : W) : bool :=
  is_closing (state c) && negb (zerocopy_queue_pending_head Y (zc_queue c) x).

(** The calls of [connection_report_queue]: none, or the one report. *)
Definition report_only (l : list call) : Prop :=
  l = [] \/ exists e, l = [e] /\ ~ not_queue_report e.

(** What [connection_free] releases after the queue, read off the
    connection: the owned service, the status slot, the socket. *)
Definition final_releases (c : connection_t) : list event :=
  (if Zbool (service_owned c)
   then match service c with Some s => [inl (call_service_free s)] | None => [] end
   else [])
  ++ (if 0 <=? status_index c then [inr (call_status_unregister_client (status_index c))]
      else [])
  ++ (if 0 <=? fd c then [inl (call_close (fd c))] else []).

(** * Properties *)

(** ** The monad and the call log *)

Lemma bind_returned {A B : Type} (m : M W A) (k : A -> M W B) w a w' :
  m w = Returned a w' -> bind m k w = k a w'.
Proof. intros H. unfold bind. rewrite H. reflexivity. Qed.

Lemma bind_exited {A B : Type} (m : M W A) (k : A -> M W B) w code w' :
  m w = Exited code w' -> bind m k w = Exited code w'.
Proof. intros H. unfold bind. rewrite H. reflexivity. Qed.

Lemma emits_ret {A : Type} (P : call -> Prop) (a : A) : emits P (ret a).
Proof. intros w. exists []. cbn. rewrite app_nil_r. auto. Qed.

Lemma emits_exit {A : Type} (P : call -> Prop) code : emits P (@exit W A code).
Proof. intros w. exists []. cbn. rewrite app_nil_r. auto. Qed.

Lemma emits_peek {A : Type} (P : call -> Prop) (f : W -> A) : emits P (peek f).
Proof. intros w. exists []. cbn. rewrite app_nil_r. auto. Qed.

Lemma emits_extcall {A : Type} (P : call -> Prop) e (f : W -> A * W) :
  P e -> emits P (extcall e f).
Proof. intros He w. exists [e]. cbn. auto. Qed.

Lemma emits_extcall_ (P : call -> Prop) e (f : W -> W) :
  P e -> emits P (extcall_ e f).
Proof. intros He w. exists [e]. cbn. auto. Qed.

Lemma emits_bind {A B : Type} (P : call -> Prop) (m : M W A) (k : A -> M W B) :
  emits P m -> (forall a, emits P (k a)) -> emits P (bind m k).
Proof.
  intros Hm Hk w. unfold bind.
  destruct (Hm w) as [l1 [E1 F1]].
  destruct (m w) as [a w1 | code w1]; cbn in *.
  - destruct (Hk a w1) as [l2 [E2 F2]].
    exists (l1 ++ l2). rewrite E2, E1, app_assoc. split; [reflexivity|].
    apply Forall_app; auto.
  - exists l1. auto.
Qed.

Lemma emits_weaken {A : Type} (P Q : call -> Prop) (m : M W A) :
  (forall e, P e -> Q e) -> emits P m -> emits Q m.
Proof.
  intros HPQ Hm w. destruct (Hm w) as [l [E F]].
  exists l. split; [exact E|]. eapply Forall_impl; eauto.
Qed.

Lemma no_exit_ret {A : Type} (a : A) : no_exit (@ret W A a).
Proof. intros w. eexists _, _. reflexivity. Qed.

Lemma no_exit_peek {A : Type} (f : W -> A) : no_exit (peek f).
Proof. intros w. eexists _, _. reflexivity. Qed.

Lemma no_exit_extcall {A : Type} e (f : W -> A * W) : no_exit (extcall e f).
Proof. intros w. eexists _, _. reflexivity. Qed.

Lemma no_exit_extcall_ e (f : W -> W) : no_exit (extcall_ e f).
Proof. intros w. eexists _, _. reflexivity. Qed.

Lemma no_exit_bind {A B : Type} (m : M W A) (k : A -> M W B) :
  no_exit m -> (forall a, no_exit (k a)) -> no_exit (bind m k).
Proof.
  intros Hm Hk w. destruct (Hm w) as [a [w1 E]].
  rewrite (bind_returned _ _ _ _ _ E). apply Hk.
Qed.

(** ** The limit computation *)

Lemma compute_limit_floor pool fair_bytes burst_factor :
  size_mul BUF 4 <= connection_compute_limit_bytes pool fair_bytes burst_factor.
Proof.
  unfold connection_compute_limit_bytes.
  match goal with |- _ <= (if ?b <? ?f then _ else _) => destruct (Z.ltb_spec b f) end; lia.
Qed.

Lemma compute_limit_capped pool fair_bytes burst_factor :
  connection_compute_limit_bytes pool fair_bytes burst_factor
  = capped_limit_bytes pool fair_bytes burst_factor.
Proof.
  unfold connection_compute_limit_bytes, capped_limit_bytes.
  set (product := size_of_double _).
  set (global_cap := size_mul (max_buffers pool) BUF).
  set (reserve := size_mul CONN_QUEUE_MIN_BUFFERS BUF).
  set (floor := size_mul BUF 4).
  destruct (0 <? max_buffers pool).
  - destruct (reserve <? global_cap).
    + destruct (Z.ltb_spec (size_sub global_cap reserve) product);
        match goal with |- (if ?a <? ?b then _ else _) = _ => destruct (Z.ltb_spec a b) end; lia.
    + destruct (Z.ltb_spec global_cap product);
        match goal with |- (if ?a <? ?b then _ else _) = _ => destruct (Z.ltb_spec a b) end; lia.
  - match goal with |- (if ?a <? ?b then _ else _) = _ => destruct (Z.ltb_spec a b) end; lia.
Qed.

(** ** The backpressure controller *)

(** [calculate_queue_limit] only touches the slow-client fields. *)
Ltac frame_calculate :=
  unfold calculate_queue_limit; cbv zeta; cbn [snd];
  repeat match goal with
         | |- context [if ?b then ?x else _] =>
             match type of x with connection_t => destruct b end
         end;
  reflexivity.

Lemma calculate_queue_limit_queue pool active c now_ms :
  zc_queue (snd (calculate_queue_limit pool active c now_ms)) = zc_queue c.
Proof. frame_calculate. Qed.

Lemma calculate_queue_limit_counters pool active c now_ms :
  let c' := snd (calculate_queue_limit pool active c now_ms) in
  dropped_packets c' = dropped_packets c
  /\ dropped_bytes c' = dropped_bytes c
  /\ backpressure_events c' = backpressure_events c.
Proof. cbv zeta. repeat split; frame_calculate. Qed.

Lemma calculate_queue_limit_class pool active c now_ms :
  buffer_class (snd (calculate_queue_limit pool active c now_ms)) = buffer_class c.
Proof. frame_calculate. Qed.

Lemma report_queue_returns c w :
  exists w', connection_report_queue c w = Returned tt w'.
Proof.
  unfold connection_report_queue.
  destruct (status_index c <? 0); eexists; reflexivity.
Qed.

Lemma no_wrap_projected c buf_ref :
  zc_queue_wf (zc_queue c) -> (num_queued (zc_queue c) + 1) * BUF <= SIZE_MAX ->
  buffer_fits buf_ref ->
  projected_bytes c buf_ref = num_queued (zc_queue c) * BUF + data_size buf_ref.
Proof.
  intros [Hn _] Hroom [Hlo Hhi].
  pose proof K_ok as Hpos. unfold constants_ok in Hpos.
  unfold projected_bytes, size_add, size_mul, size_wrap, SIZE_MAX in *.
  assert (0 <= num_queued (zc_queue c)) by lia.
  rewrite (Z.mod_small (num_queued (zc_queue c) * BUF)) by nia.
  apply Z.mod_small. nia.
Qed.

Lemma queue_total_bound q :
  Forall buffer_fits (items q) ->
  queue_total_bytes q <= Z.of_nat (List.length (items q)) * BUF.
Proof.
  unfold queue_total_bytes. generalize (items q) as l.
  induction l as [|b l IH]; intros Hall.
  - cbn. lia.
  - inversion Hall as [|? ? [_ Hb] Hl]; subst.
    specialize (IH Hl). cbn [fold_right List.length]. lia.
Qed.

Lemma queue_total_app l b n :
  queue_total_bytes {| items := l ++ [b]; num_queued := n |}
  = queue_total_bytes {| items := l; num_queued := n |} + data_size b.
Proof.
  unfold queue_total_bytes. cbn [items].
  induction l as [|x l IH]; cbn [fold_right app]; lia.
Qed.

#[local] Opaque calculate_queue_limit.

Lemma queue_zerocopy_result c buf_ref w :
  exists rc c' w',
    connection_queue_zerocopy c buf_ref w = Returned (rc, c') w'
    /\ enqueue_result c buf_ref w rc c'.
Proof.
  unfold connection_queue_zerocopy.
  destruct (Z.eqb_spec (data_size buf_ref) 0) as [Hz|Hnz].
  - eexists _, _, _. split; [reflexivity|]. now constructor.
  - unfold bind at 1. cbn [extcall].
    unfold bind at 1. unfold connection_calculate_queue_limit at 1.
    cbn [bind peek ret].
    change (mk_world (snd (get_time_ms X (ext w))) (calls w ++ [call_get_time_ms]))
      with (world_after_clock w).
    change (calculate_queue_limit
              (zerocopy_state_pool X (ext (world_after_clock w)))
              (zerocopy_active_streams X (ext (world_after_clock w)))
              c (fst (get_time_ms X (ext w))))
      with (enqueue_limit_state c w).
    change (fst (enqueue_limit_state c w)) with (computed_queue_limit c w).
    assert (Hq : zc_queue (snd (enqueue_limit_state c w)) = zc_queue c)
      by apply calculate_queue_limit_queue.
    cbv zeta.
    replace (size_add (size_mul (num_queued (zc_queue (snd (enqueue_limit_state c w)))) BUF)
               (data_size buf_ref))
      with (projected_bytes c buf_ref)
      by (unfold projected_bytes; rewrite Hq; reflexivity).
    destruct (Z.ltb_spec (computed_queue_limit c w) (projected_bytes c buf_ref)) as [Hover|Hfit].
    + destruct (report_queue_returns
                  (connection_record_drop
                     (set_queue_limit_bytes (computed_queue_limit c w)
                        (snd (enqueue_limit_state c w))) (data_size buf_ref))
                  (world_after_clock w)) as [w' Hw'].
      erewrite bind_returned by exact Hw'.
      eexists _, _, _. split; [reflexivity|].
      eapply enqueue_dropped; eauto.
    + unfold zerocopy_queue_add. cbn [zc_queue set_queue_limit_bytes].
      rewrite Hq.
      destruct (zerocopy_queue_refuses X (zc_queue c) buf_ref) eqn:Href; cbn [fst snd].
      * eexists _, _, _. split; [reflexivity|].
        eapply enqueue_refused; eauto.
      * change (0 <? 0) with false. cbv iota.
        match goal with
        | |- context [bind (connection_report_queue ?c1)] =>
            destruct (report_queue_returns c1 (world_after_clock w)) as [w1 Hw1];
            erewrite bind_returned by exact Hw1;
            set (cfinal := c1)
        end.
        cbn [bind peek].
        assert (Hcq : zc_queue cfinal
                      = {| items := items (zc_queue c) ++ [buf_ref];
                           num_queued := size_add (num_queued (zc_queue c)) 1 |}).
        { subst cfinal.
          repeat match goal with
                 | |- context [if ?b then _ else _] => destruct b
                 end; reflexivity. }
        assert (Hcl : queue_limit_bytes cfinal = computed_queue_limit c w).
        { subst cfinal.
          repeat match goal with
                 | |- context [if ?b then _ else _] => destruct b
                 end; reflexivity. }
        assert (Hcb : buffer_class cfinal = buffer_class c).
        { subst cfinal.
          repeat match goal with
                 | |- context [if ?b then _ else _] => destruct b
                 end; cbn [buffer_class set_queue_buffers_highwater set_queue_bytes_highwater
                           set_zc_queue set_queue_limit_bytes];
            unfold enqueue_limit_state; apply calculate_queue_limit_class. }
        destruct (zerocopy_should_flush X (zc_queue cfinal) (ext w1));
          eexists _, _, _; (split; [reflexivity|]);
          eapply enqueue_queued; eauto.
Qed.

#[local] Transparent calculate_queue_limit.

Lemma enqueue_failed_keeps_queue c buf_ref w c' :
  enqueue_result c buf_ref w (-1) c' -> zc_queue c' = zc_queue c.
Proof.
  intros Hres.
  inversion Hres as [ | c1 _ _ Hc1 | c1 _ _ _ Hc1 | ]; subst c'.
  - unfold connection_record_drop.
    cbn [zc_queue set_dropped_packets set_dropped_bytes set_backpressure_events
         set_queue_limit_bytes].
    apply calculate_queue_limit_queue.
  - cbn [zc_queue set_queue_limit_bytes]. apply calculate_queue_limit_queue.
Qed.

(** Appending a buffer that fits keeps the queue well formed. *)
Lemma appended_queue_wf q buf_ref :
  zc_queue_wf q ->
  (num_queued q + 1) * BUF <= SIZE_MAX ->
  buffer_fits buf_ref ->
  zc_queue_wf {| items := items q ++ [buf_ref]; num_queued := size_add (num_queued q) 1 |}.
Proof.
  intros [Hn Hall] Hroom Hfit.
  pose proof K_ok as Hpos. unfold constants_ok in Hpos.
  split; cbn [items num_queued].
  - rewrite length_app. cbn [List.length].
    unfold size_add, size_wrap, SIZE_MAX in *.
    rewrite Z.mod_small by nia. lia.
  - apply Forall_app. split; [exact Hall | constructor; [exact Hfit | constructor]].
Qed.

(** C3, amended.  For every pool, fair share and burst factor the limit
    is the product [fair_bytes * burst_factor] (computed in double and
    truncated), capped by [max_buffers * BUFFER_SIZE - reserve] when
    [max_buffers > 0] and the pool is larger than the reserve, capped by
    [max_buffers * BUFFER_SIZE] itself when [max_buffers > 0] and the
    pool is not larger than the reserve, and then raised to
    [4 * BUFFER_SIZE] when below it; it is never below
    [4 * BUFFER_SIZE]. *)
Theorem compute_limit_bytes_capped_and_floored pool fair_bytes burst_factor :
  connection_compute_limit_bytes pool fair_bytes burst_factor
  = capped_limit_bytes pool fair_bytes burst_factor
  /\ size_mul BUF 4 <= connection_compute_limit_bytes pool fair_bytes burst_factor.
Proof.
  split.
  - apply compute_limit_capped.
  - apply compute_limit_floor.
Qed.

(** On pools larger than the reserve, and on uncapped pools, the code and
    the spec's wording agree. *)
Lemma compute_limit_matches_spec_on_large_pools pool fair_bytes burst_factor :
  max_buffers pool <= 0
  \/ size_mul CONN_QUEUE_MIN_BUFFERS BUF < size_mul (max_buffers pool) BUF ->
  connection_compute_limit_bytes pool fair_bytes burst_factor
  = spec_limit_bytes pool fair_bytes burst_factor.
Proof.
  intros H. rewrite compute_limit_capped.
  unfold capped_limit_bytes, spec_limit_bytes. cbv zeta.
  destruct (Z.ltb_spec 0 (max_buffers pool)); cbn [andb]; [|reflexivity].
  destruct (Z.ltb_spec (size_mul CONN_QUEUE_MIN_BUFFERS BUF) (size_mul (max_buffers pool) BUF));
    [reflexivity | lia].
Qed.

(** C1, amended.  For every connection and every buffer with a non-zero
    [data_size], if the projected queued bytes exceed the limit computed
    for this enqueue, [connection_queue_zerocopy] returns -1, leaves the
    queue as it was, and steps [dropped_packets] by 1, [dropped_bytes] by
    the buffer's [data_size] and [backpressure_events] by 1. *)
Theorem nonempty_enqueue_over_limit_is_dropped c buf_ref w :
  data_size buf_ref <> 0 ->
  computed_queue_limit c w < projected_bytes c buf_ref ->
  enqueue_rejected c buf_ref w.
Proof.
  intros Hnz Hover.
  destruct (queue_zerocopy_result c buf_ref w) as (rc & c' & w' & Hrun & Hres).
  inversion Hres as [Hz | c1 _ _ Hc1 | c1 _ Hle _ _ | c1 _ Hle _ _ _]; subst rc;
    try contradiction; try lia.
  exists c', w'. split; [exact Hrun|].
  rewrite Hc1. unfold connection_record_drop.
  cbn [zc_queue dropped_packets dropped_bytes backpressure_events set_dropped_packets
       set_dropped_bytes set_backpressure_events set_queue_limit_bytes].
  pose proof (calculate_queue_limit_counters
                (zerocopy_state_pool X (ext (world_after_clock w)))
                (zerocopy_active_streams X (ext (world_after_clock w)))
                c (fst (get_time_ms X (ext w)))) as (Hp & Hb & He).
  fold (enqueue_limit_state c w) in Hp, Hb, He.
  rewrite Hp, Hb, He.
  repeat split; try reflexivity.
  apply calculate_queue_limit_queue.
Qed.

(** The empty queue satisfies the queue invariant, and an accepted
    enqueue of a buffer that fits keeps it. *)
Lemma zc_queue_wf_empty : zc_queue_wf {| items := []; num_queued := 0 |}.
Proof. split; [reflexivity | constructor]. Qed.

(** C2, amended.  Let the queue be well formed ([num_queued] counts the
    items, every item holds at most [BUFFER_POOL_BUFFER_SIZE] bytes, the
    queue's buffer memory with one more buffer fits [size_t]) and let
    the buffer hold between 1 and [BUFFER_POOL_BUFFER_SIZE] bytes.
    Immediately after an accepted enqueue (return value 0) the buffer is
    the last item of the queue, the sum of the [data_size] of the queued
    items is at most the connection's [queue_limit_bytes], which is the
    limit computed for that enqueue, and the queue is well formed
    again. *)
Theorem accepted_enqueue_within_limit c buf_ref w c' :
  zc_queue_wf (zc_queue c) ->
  (num_queued (zc_queue c) + 1) * BUF <= SIZE_MAX ->
  buffer_fits buf_ref ->
  enqueue_accepted c buf_ref w c' ->
  items (zc_queue c') = items (zc_queue c) ++ [buf_ref]
  /\ queue_total_bytes (zc_queue c') <= queue_limit_bytes c'
  /\ queue_limit_bytes c' = computed_queue_limit c w
  /\ zc_queue_wf (zc_queue c').
Proof.
  intros Hwf Hroom Hfit [Hnz [w' Hrun]].
  destruct (queue_zerocopy_result c buf_ref w) as (rc & c1 & w1 & Hrun1 & Hres).
  rewrite Hrun in Hrun1. injection Hrun1 as <- <- <-.
  inversion Hres as [Hz | | | c2 _ Hle Hq Hl _]; subst; try contradiction.
  rewrite (no_wrap_projected c buf_ref Hwf Hroom Hfit) in Hle.
  destruct Hwf as [Hn Hall].
  pose proof (queue_total_bound (zc_queue c) Hall) as Hsum.
  rewrite Hq, Hl. split; [reflexivity|]. split; [|split; [reflexivity|]].
  - rewrite queue_total_app.
    change (queue_total_bytes {| items := items (zc_queue c);
                                 num_queued := size_add (num_queued (zc_queue c)) 1 |})
      with (queue_total_bytes (zc_queue c)).
    lia.
  - apply appended_queue_wf; [split; assumption | exact Hroom | exact Hfit].
Qed.

(** Every call of [connection_queue_zerocopy], accepted or not, keeps the
    queue well formed. *)
Lemma queue_zerocopy_keeps_wf c buf_ref w rc c' w' :
  zc_queue_wf (zc_queue c) ->
  (num_queued (zc_queue c) + 1) * BUF <= SIZE_MAX ->
  buffer_fits buf_ref ->
  connection_queue_zerocopy c buf_ref w = Returned (rc, c') w' ->
  zc_queue_wf (zc_queue c').
Proof.
  intros Hwf Hroom Hfit Hrun.
  destruct (queue_zerocopy_result c buf_ref w) as (rc1 & c1 & w1 & Hrun1 & Hres).
  rewrite Hrun in Hrun1. injection Hrun1 as <- <- <-.
  destruct (Z.eq_dec rc (-1)) as [->|Hrc].
  - rewrite (enqueue_failed_keeps_queue _ _ _ _ Hres). exact Hwf.
  - inversion Hres as [Hz | | | c2 Hnz Hle Hq Hl Hb]; subst; try congruence.
    rewrite Hq. apply appended_queue_wf; assumption.
Qed.

(** ** The chunking output path *)

Lemma chunk_size_bounds src :
  src <> [] ->
  0 < chunk_size_of src <= BUF /\ chunk_size_of src <= Z.of_nat (List.length src).
Proof.
  intros Hne. pose proof K_ok as Hpos. unfold constants_ok in Hpos.
  unfold chunk_size_of.
  assert (0 < Z.of_nat (List.length src)) by (destruct src; [contradiction | cbn [List.length]; lia]).
  destruct (Z.ltb_spec BUF (Z.of_nat (List.length src))); lia.
Qed.

Lemma chunks_of_concat : forall n src, (List.length src <= n)%nat -> List.concat (chunks_of src) = src.
Proof.
  induction n as [|n IH]; intros src Hlen.
  - destruct src; [reflexivity | cbn in Hlen; lia].
  - destruct src as [|b rest]; [reflexivity|].
    rewrite chunks_of_equation_2. cbv zeta. cbn [List.concat].
    rewrite IH.
    + apply firstn_skipn.
    + pose proof (chunk_size_bounds (b :: rest) ltac:(discriminate)) as [[Hlo _] _].
      rewrite length_skipn. cbn [List.length] in *. lia.
Qed.

Lemma chunks_of_sizes : forall n src, (List.length src <= n)%nat ->
  Forall (fun ch => 0 < Z.of_nat (List.length ch) <= BUF) (chunks_of src).
Proof.
  induction n as [|n IH]; intros src Hlen.
  - destruct src; [constructor | cbn in Hlen; lia].
  - destruct src as [|b rest]; [constructor|].
    rewrite chunks_of_equation_2. cbv zeta.
    pose proof (chunk_size_bounds (b :: rest) ltac:(discriminate)) as [[Hlo Hhi] Hle].
    constructor.
    + rewrite length_firstn. lia.
    + apply IH. rewrite length_skipn. cbn [List.length] in *. lia.
Qed.

Lemma alloc_output_buffer_returns c w :
  exists r w', connection_alloc_output_buffer c w = Returned r w'.
Proof.
  unfold connection_alloc_output_buffer.
  destruct (buffer_class c).
  - unfold bind, extcall. cbn.
    destruct (fst (buffer_pool_alloc_control X (ext w))); eexists _, _; reflexivity.
  - eexists _, _; reflexivity.
Qed.

Lemma payload_of_filled buf_ref src :
  src <> [] ->
  let chunk := firstn (Z.to_nat (chunk_size_of src)) src in
  stored_bytes
    (set_data_size (chunk_size_of src) (set_data (memcpy_into (data buf_ref) chunk) buf_ref))
  = chunk.
Proof.
  intros Hne chunk.
  pose proof (chunk_size_bounds src Hne) as [[Hlo Hhi] Hle].
  unfold stored_bytes, memcpy_into. cbn [data data_size set_data set_data_size].
  assert (Hlen : List.length chunk = Z.to_nat (chunk_size_of src)).
  { subst chunk. rewrite length_firstn. lia. }
  rewrite <- Hlen at 1.
  rewrite firstn_app, Nat.sub_diag, firstn_all. cbn [firstn]. apply app_nil_r.
Qed.

(** A failed allocation means the pools had no buffer. *)
Lemma alloc_output_buffer_none c w w1 :
  connection_alloc_output_buffer c w = Returned None w1 -> pool_exhausted_for c (ext w).
Proof.
  unfold connection_alloc_output_buffer, pool_exhausted_for.
  destruct (buffer_class c).
  - unfold bind, extcall. cbn [fst snd ext calls].
    destruct (fst (buffer_pool_alloc_control X (ext w))) eqn:Hctl.
    + unfold ret. discriminate.
    + intros H. injection H as H _. split; [reflexivity | exact H].
  - unfold extcall. intros H. injection H as H _. exact H.
Qed.

(** One pass of the loop, for any non-empty rest of the input. *)
Lemma queue_output_loop_pass src c w :
  src <> [] ->
  queue_output_loop src c w
  = (buf_ref <- connection_alloc_output_buffer c ;;
     match buf_ref with
     | None => ret (-1, c)
     | Some buf_ref =>
         rc <- connection_queue_zerocopy c (fill_chunk buf_ref src) ;;
         if fst rc <? 0 then
           extcall_ (call_buffer_ref_put (fill_chunk buf_ref src))
             (buffer_ref_put X (fill_chunk buf_ref src)) ;;
           ret (-1, snd rc)
         else
           extcall_ (call_buffer_ref_put (fill_chunk buf_ref src))
             (buffer_ref_put X (fill_chunk buf_ref src)) ;;
           queue_output_loop (skipn (Z.to_nat (chunk_size_of src)) src) (snd rc)
     end) w.
Proof.
  intros Hne. destruct src as [|b rest]; [contradiction|].
  rewrite queue_output_loop_equation_2. reflexivity.
Qed.

(** A full first chunk followed by other bytes is cut the same way. *)
Lemma full_chunk_prefix src tail :
  skipn (Z.to_nat (chunk_size_of src)) src <> [] ->
  let chunk := firstn (Z.to_nat (chunk_size_of src)) src in
  chunk_size_of (chunk ++ tail) = chunk_size_of src
  /\ firstn (Z.to_nat (chunk_size_of src)) (chunk ++ tail) = chunk
  /\ skipn (Z.to_nat (chunk_size_of src)) (chunk ++ tail) = tail
  /\ chunk <> [].
Proof.
  intros Hmore chunk.
  pose proof K_ok as Hpos. unfold constants_ok in Hpos.
  assert (Hne : src <> []) by (intros ->; apply Hmore; now rewrite skipn_nil).
  pose proof (chunk_size_bounds src Hne) as [[Hlo Hhi] Hle].
  assert (Hlong : (Z.to_nat (chunk_size_of src) < List.length src)%nat).
  { destruct (Nat.lt_ge_cases (Z.to_nat (chunk_size_of src)) (List.length src)) as [H|H];
      [exact H|].
    exfalso. apply Hmore. apply skipn_all2. exact H. }
  assert (Hfull : chunk_size_of src = BUF).
  { unfold chunk_size_of in *.
    destruct (Z.ltb_spec BUF (Z.of_nat (List.length src))); lia. }
  assert (Hlen : List.length chunk = Z.to_nat (chunk_size_of src)).
  { subst chunk. rewrite length_firstn. lia. }
  split.
  { unfold chunk_size_of at 1. rewrite length_app, Hlen.
    destruct (Z.ltb_spec BUF (Z.of_nat (Z.to_nat (chunk_size_of src) + List.length tail)));
      lia. }
  split.
  { rewrite <- Hlen. rewrite firstn_app, Nat.sub_diag, firstn_all. cbn [firstn].
    apply app_nil_r. }
  split.
  { rewrite <- Hlen. rewrite skipn_app, Nat.sub_diag, skipn_all. reflexivity. }
  intros Hnil. rewrite Hnil in Hlen. cbn in Hlen. lia.
Qed.

(** What the loop queues: the first chunks of [src], one buffer each,
    all of them on success.  On failure fewer are queued: the loop run
    on the queued bytes alone succeeds, and the pass after it fails and
    leaves the queue as that run left it. *)
Lemma queue_output_loop_spec : forall n src c w,
  (List.length src <= n)%nat ->
  exists rc c' w' l,
    queue_output_loop src c w = Returned (rc, c') w'
    /\ items (zc_queue c') = items (zc_queue c) ++ l
    /\ map stored_bytes l = firstn (List.length l) (chunks_of src)
    /\ Forall (fun b => data_size b = Z.of_nat (List.length (stored_bytes b))) l
    /\ ((rc = 0 /\ List.length l = List.length (chunks_of src))
        \/ (rc = -1 /\ (List.length l < List.length (chunks_of src))%nat
            /\ exists c_n w_n,
                 queue_output_loop (List.concat (map stored_bytes l)) c w
                 = Returned (0, c_n) w_n
                 /\ zc_queue c' = zc_queue c_n
                 /\ output_pass_fails c_n
                      (skipn (List.length (List.concat (map stored_bytes l))) src) w_n c')).
Proof.
  induction n as [|n IH]; intros src c w Hlen.
  - destruct src; [|cbn in Hlen; lia].
    rewrite queue_output_loop_equation_1.
    exists 0, c, w, []. rewrite app_nil_r. cbn.
    repeat split; auto.
  - destruct src as [|b rest].
    { rewrite queue_output_loop_equation_1.
      exists 0, c, w, []. rewrite app_nil_r. cbn. repeat split; auto. }
    set (src := b :: rest) in *.
    assert (Hne : src <> []) by discriminate.
    rewrite (queue_output_loop_pass src c w Hne).
    replace (chunks_of src)
      with (firstn (Z.to_nat (chunk_size_of src)) src
            :: chunks_of (skipn (Z.to_nat (chunk_size_of src)) src))
      by (subst src; rewrite chunks_of_equation_2; reflexivity).
    pose proof (chunk_size_bounds src Hne) as [[Hlo Hhi] Hle].
    destruct (alloc_output_buffer_returns c w) as (r & w1 & Halloc).
    rewrite (bind_returned _ _ _ _ _ Halloc).
    destruct r as [buf_ref|].
    2:{ exists (-1), c, w1, []. rewrite app_nil_r. cbn [map List.concat List.length skipn].
        split; [reflexivity|]. split; [reflexivity|]. split; [reflexivity|].
        split; [constructor|]. right. split; [reflexivity|]. split; [cbn; lia|].
        exists c, w. split; [rewrite queue_output_loop_equation_1; reflexivity|].
        split; [reflexivity|]. left. split; [|reflexivity].
        eapply alloc_output_buffer_none; exact Halloc. }
    set (filled := fill_chunk buf_ref src).
    assert (Hds : data_size filled = chunk_size_of src) by reflexivity.
    assert (Hpf : stored_bytes filled = firstn (Z.to_nat (chunk_size_of src)) src)
      by (apply payload_of_filled; exact Hne).
    destruct (queue_zerocopy_result c filled w1) as (rc & c1 & w2 & Hrun & Hres).
    rewrite (bind_returned _ _ _ _ _ Hrun). cbn [fst snd].
    destruct (Z.eq_dec rc (-1)) as [->|Hrc1].
    { pose proof (enqueue_failed_keeps_queue _ _ _ _ Hres) as Hkept.
      change (-1 <? 0) with true. cbv iota.
      unfold bind, extcall_, ret.
      eexists (-1), _, _, []. split; [reflexivity|].
      rewrite app_nil_r. split; [now rewrite Hkept|].
      cbn [List.length map firstn List.concat skipn].
      split; [reflexivity|]. split; [constructor|].
      right. split; [reflexivity|]. split; [lia|].
      exists c, w. split; [rewrite queue_output_loop_equation_1; reflexivity|].
      split; [exact Hkept|]. right. exists buf_ref, w1, w2. split; [exact Halloc | exact Hrun]. }
    inversion Hres as [Hz | c2 Hnz _ _ | c2 Hnz _ _ Hc2 | c2 Hnz _ Hq _ _]; subst;
      try (exfalso; apply Hrc1; reflexivity).
    + rewrite Hds in Hz. lia.
    + change (0 <? 0) with false. cbv iota.
      unfold bind at 1. cbn [extcall_].
      match goal with
      | |- context [queue_output_loop ?s ?cc ?ww] =>
          destruct (IH s cc ww) as (rc' & c' & w' & l & Hloop & Hitems & Hpay & Hsz & Hrc)
      end.
      { rewrite length_skipn. cbn [List.length] in *. lia. }
      rewrite Hloop.
      exists rc', c', w', (filled :: l).
      split; [reflexivity|].
      split.
      { rewrite Hitems, Hq. cbn [items]. rewrite <- app_assoc. reflexivity. }
      split.
      { cbn [map List.length firstn]. rewrite Hpay.
        rewrite Hpf. reflexivity. }
      split.
      { constructor; [|exact Hsz].
        rewrite Hpf, Hds, length_firstn. lia. }
      cbn [List.length].
      destruct Hrc as [[-> Hl] | (-> & Hl & c_n & w_n & Hpre & Hkept & Hfail)];
        [left; split; auto; lia | right].
      split; [reflexivity|]. split; [lia|].
      exists c_n, w_n.
      assert (Hmore : skipn (Z.to_nat (chunk_size_of src)) src <> []).
      { intros Hnil. rewrite Hnil, chunks_of_equation_1 in Hl. cbn in Hl. lia. }
      cbn [map List.concat]. rewrite Hpf.
      set (tail := List.concat (map stored_bytes l)) in *.
      destruct (full_chunk_prefix src tail Hmore) as (Hcs & Hfirst & Hskip & Hchunk).
      split; [|split; [exact Hkept|]].
      * rewrite queue_output_loop_pass
          by (intros Happ; apply app_eq_nil in Happ; apply Hchunk, Happ).
        rewrite (bind_returned _ _ _ _ _ Halloc).
        assert (Hsame : fill_chunk buf_ref (firstn (Z.to_nat (chunk_size_of src)) src ++ tail)
                        = filled).
        { unfold filled, fill_chunk. rewrite Hcs, Hfirst. reflexivity. }
        rewrite Hsame, (bind_returned _ _ _ _ _ Hrun). cbn [fst snd].
        change (0 <? 0) with false. cbv iota.
        unfold bind at 1. cbn [extcall_].
        rewrite Hcs, Hskip. exact Hpre.
      * rewrite length_app, Nat.add_comm, <- skipn_skipn.
        assert (Hclen : List.length (firstn (Z.to_nat (chunk_size_of src)) src)
                        = Z.to_nat (chunk_size_of src))
          by (rewrite length_firstn; lia).
        rewrite Hclen. exact Hfail.
Qed.

Lemma queue_total_items_app l1 l2 n1 n2 n3 :
  queue_total_bytes {| items := l1 ++ l2; num_queued := n1 |}
  = queue_total_bytes {| items := l1; num_queued := n2 |}
    + queue_total_bytes {| items := l2; num_queued := n3 |}.
Proof.
  unfold queue_total_bytes. cbn [items].
  induction l1 as [|x l1 IH]; cbn [fold_right app]; lia.
Qed.

Lemma payload_sizes_sum l n :
  Forall (fun b => data_size b = Z.of_nat (List.length (stored_bytes b))) l ->
  queue_total_bytes {| items := l; num_queued := n |}
  = Z.of_nat (List.length (List.concat (map stored_bytes l))).
Proof.
  unfold queue_total_bytes. cbn [items].
  induction 1 as [|b l Hb _ IH]; [reflexivity|].
  cbn [fold_right map List.concat]. rewrite length_app, IH, Hb. lia.
Qed.

Lemma firstn_Forall {A : Type} (P : A -> Prop) (l : list A) n :
  Forall P l -> Forall P (firstn n l).
Proof.
  intros H. revert n. induction H as [|x l Hx _ IH]; intros [|n]; cbn; constructor; auto.
Qed.

Lemma queue_output_is_loop c data : connection_queue_output c data = queue_output_loop data c.
Proof.
  unfold connection_queue_output. destruct data; [|reflexivity].
  rewrite queue_output_loop_equation_1. reflexivity.
Qed.

(** C10.  For every connection and every non-empty input,
    [connection_queue_output] returns 0 or -1 and has appended to the
    send queue one buffer for each of the first chunks of the input, in
    input order, each chunk at most [BUFFER_POOL_BUFFER_SIZE] bytes
    long.  On 0 all chunks are queued: the bytes stored in the
    appended buffers concatenate to the input and the queue grew by
    exactly [len] bytes.  On -1 strictly fewer chunks are queued, and
    they stay queued: queueing the bytes of these chunks alone succeeds
    and reaches a connection with the same queue, from which the pass
    for the next chunk fails, by exhausted pools or by a rejected
    enqueue. *)
Theorem queue_output_appends_chunks_in_order c input w :
  input <> [] ->
  exists rc c' w' l,
    connection_queue_output c input w = Returned (rc, c') w'
    /\ items (zc_queue c') = items (zc_queue c) ++ l
    /\ map stored_bytes l = firstn (List.length l) (chunks_of input)
    /\ Forall (fun b => 0 < data_size b <= BUF) l
    /\ ((rc = 0
         /\ List.concat (map stored_bytes l) = input
         /\ queue_total_bytes (zc_queue c')
            = queue_total_bytes (zc_queue c) + Z.of_nat (List.length input))
        \/ (rc = -1
            /\ (List.length l < List.length (chunks_of input))%nat
            /\ exists c_n w_n,
                 connection_queue_output c (List.concat (map stored_bytes l)) w
                 = Returned (0, c_n) w_n
                 /\ zc_queue c' = zc_queue c_n
                 /\ output_pass_fails c_n
                      (skipn (List.length (List.concat (map stored_bytes l))) input)
                      w_n c')).
Proof.
  intros Hne.
  destruct (queue_output_loop_spec (List.length input) input c w (le_n _))
    as (rc & c' & w' & l & Hrun & Hitems & Hpay & Hsz & Hrc).
  exists rc, c', w', l.
  split; [rewrite queue_output_is_loop; exact Hrun|].
  split; [exact Hitems|]. split; [exact Hpay|].
  split.
  { pose proof (chunks_of_sizes _ input (le_n _)) as Hch.
    apply (firstn_Forall _ _ (List.length l)) in Hch. rewrite <- Hpay in Hch.
    clear - Hch Hsz. induction l as [|b l IH]; [constructor|].
    inversion Hch; inversion Hsz; subst. constructor; [lia | auto]. }
  destruct Hrc as [[-> Hl] | (-> & Hl & c_n & w_n & Hpre & Hkept & Hfail)]; [left | right].
  - split; [reflexivity|].
    assert (Hcat : List.concat (map stored_bytes l) = input).
    { rewrite Hpay, Hl, firstn_all. apply (chunks_of_concat _ input (le_n _)). }
    split; [exact Hcat|].
    destruct (zc_queue c') as [it' n'] eqn:Eq'. destruct (zc_queue c) as [it n0] eqn:Eq.
    cbn [items] in Hitems. subst it'.
    rewrite (queue_total_items_app it l n' n0 0), (payload_sizes_sum l 0 Hsz), Hcat.
    reflexivity.
  - split; [reflexivity|]. split; [exact Hl|].
    exists c_n, w_n. rewrite queue_output_is_loop. auto.
Qed.

(** The buffers [connection_queue_output] queues fit one pool buffer, so
    it keeps a well-formed queue well formed, whether it returns 0 or
    -1, as long as the queue's buffer memory fits [size_t]. *)
Lemma queue_output_loop_keeps_wf : forall n src c w rc c' w',
  (List.length src <= n)%nat ->
  zc_queue_wf (zc_queue c) ->
  (num_queued (zc_queue c) + Z.of_nat (List.length (chunks_of src))) * BUF <= SIZE_MAX ->
  queue_output_loop src c w = Returned (rc, c') w' ->
  zc_queue_wf (zc_queue c').
Proof.
  pose proof K_ok as Hpos. unfold constants_ok in Hpos.
  induction n as [|n IH]; intros src c w rc c' w' Hlen Hwf Hroom Hrun.
  - destruct src; [|cbn in Hlen; lia].
    rewrite queue_output_loop_equation_1 in Hrun. injection Hrun as _ <- _. exact Hwf.
  - destruct src as [|b rest].
    { rewrite queue_output_loop_equation_1 in Hrun. injection Hrun as _ <- _. exact Hwf. }
    set (src := b :: rest) in *.
    assert (Hne : src <> []) by discriminate.
    rewrite (queue_output_loop_pass src c w Hne) in Hrun.
    replace (chunks_of src)
      with (firstn (Z.to_nat (chunk_size_of src)) src
            :: chunks_of (skipn (Z.to_nat (chunk_size_of src)) src)) in Hroom
      by (subst src; rewrite chunks_of_equation_2; reflexivity).
    cbn [List.length] in Hroom.
    pose proof (chunk_size_bounds src Hne) as [[Hlo Hhi] Hle].
    destruct (alloc_output_buffer_returns c w) as (r & w1 & Halloc).
    rewrite (bind_returned _ _ _ _ _ Halloc) in Hrun.
    destruct r as [buf_ref|]; [|injection Hrun as _ <- _; exact Hwf].
    set (filled := fill_chunk buf_ref src) in *.
    assert (Hfit : buffer_fits filled)
      by (unfold buffer_fits; change (data_size filled) with (chunk_size_of src); lia).
    assert (Hroom1 : (num_queued (zc_queue c) + 1) * BUF <= SIZE_MAX) by nia.
    destruct (queue_zerocopy_result c filled w1) as (rc1 & c1 & w2 & Hq & Hres).
    rewrite (bind_returned _ _ _ _ _ Hq) in Hrun. cbn [fst snd] in Hrun.
    pose proof (queue_zerocopy_keeps_wf c filled w1 rc1 c1 w2 Hwf Hroom1 Hfit Hq) as Hwf1.
    destruct (rc1 <? 0) eqn:Hneg.
    + unfold bind, extcall_, ret in Hrun. injection Hrun as _ <- _. exact Hwf1.
    + unfold bind at 1 in Hrun. cbn [extcall_] in Hrun.
      apply IH in Hrun; [exact Hrun | | exact Hwf1 |].
      * rewrite length_skipn. cbn [List.length] in *. lia.
      * assert (Hn1 : num_queued (zc_queue c1) = num_queued (zc_queue c) + 1).
        { inversion Hres as [Hz | c2 _ _ _ | c2 _ _ _ _ | c2 _ _ Hq2 _ _]; subst.
          - change (data_size filled) with (chunk_size_of src) in Hz. lia.
          - discriminate Hneg.
          - discriminate Hneg.
          - destruct Hwf1 as [Hc1 _]. destruct Hwf as [Hc _].
            rewrite Hc1, Hq2, Hc. cbn [items]. rewrite length_app. cbn [List.length]. lia. }
        rewrite Hn1. lia.
Qed.

Lemma queue_output_keeps_queue_wf c data w rc c' w' :
  zc_queue_wf (zc_queue c) ->
  (num_queued (zc_queue c) + Z.of_nat (List.length (chunks_of data))) * BUF <= SIZE_MAX ->
  connection_queue_output c data w = Returned (rc, c') w' ->
  zc_queue_wf (zc_queue c').
Proof.
  intros Hwf Hroom Hrun. rewrite queue_output_is_loop in Hrun.
  exact (queue_output_loop_keeps_wf _ data c w rc c' w' (le_n _) Hwf Hroom Hrun).
Qed.

(** ** The stream context *)


Lemma tick_mcast_rejoin_frame c now w :
  exists c1 w1,
    tick_mcast_rejoin c now w = Returned c1 w1
    /\ (c1 = c \/ c1 = upd_stream (set_last_mcast_rejoin_time now) c).
Proof.
  unfold tick_mcast_rejoin. cbv zeta.
  destruct ((0 <? mcast_rejoin_interval config) && (0 <? mcast_sock (stream c)));
    [|eexists _, _; split; [reflexivity | auto]].
  destruct (mcast_rejoin_interval config * 1000 <=? now - last_mcast_rejoin_time (stream c));
    [|eexists _, _; split; [reflexivity | auto]].
  unfold bind, extcall. cbn [fst snd].
  destruct (fst (rejoin_mcast_group X _ _ _) =? 0);
    eexists _, _; (split; [reflexivity | auto]).
Qed.

Ltac no_exit_tac :=
  repeat first
    [ apply no_exit_ret | apply no_exit_peek | apply no_exit_extcall | apply no_exit_extcall_
    | apply no_exit_bind; [|intro]
    | match goal with
      | |- no_exit (if ?b then _ else _) => destruct b
      | |- no_exit (match ?x with _ => _ end) => destruct x
      end ].

Lemma stream_tick_rest_returns_0 c now w :
  exists c' w', stream_tick_rest c now w = Returned (0, c') w'.
Proof.
  assert (H1 : forall c, no_exit (tick_rtsp_keepalive c now))
    by (intros c0; unfold tick_rtsp_keepalive; cbv zeta; no_exit_tac).
  assert (H2 : forall c, no_exit (tick_reorder_timeout c now))
    by (intros c0; unfold tick_reorder_timeout; cbv zeta; no_exit_tac).
  assert (H3 : forall c, no_exit (tick_snapshot_timeout c now))
    by (intros c0; unfold tick_snapshot_timeout; cbv zeta; no_exit_tac).
  assert (H4 : forall c, no_exit (tick_bandwidth c now))
    by (intros c0; unfold tick_bandwidth; cbv zeta; no_exit_tac).
  unfold stream_tick_rest.
  destruct (H1 c w) as (c1 & w1 & E1). rewrite (bind_returned _ _ _ _ _ E1).
  destruct (H2 c1 w1) as (c2 & w2 & E2). rewrite (bind_returned _ _ _ _ _ E2).
  destruct (H3 c2 w2) as (c3 & w3 & E3). rewrite (bind_returned _ _ _ _ _ E3).
  destruct (H4 c3 w3) as (c4 & w4 & E4). rewrite (bind_returned _ _ _ _ _ E4).
  eexists _, _. reflexivity.
Qed.

(** What [stream_join_mcast_group] does, by the answer of
    [join_mcast_group] and of the registration. *)
Lemma stream_join_mcast_group_cases c w :
  let sock := fst (join_mcast_group X (ctx_service (stream c)) (ext w)) in
  if join_registration_fails c w
  then exists w',
         stream_join_mcast_group c w = Exited (RETVAL_SOCK_READ_FAILED K) w'
         /\ calls w' = calls w ++ [call_join_mcast_group (ctx_service (stream c));
                                   call_epoll_ctl EPOLL_CTL_ADD (epoll_fd (stream c)) sock
                                     EPOLLIN;
                                   call_close sock]
  else exists c' w',
         stream_join_mcast_group c w = Returned (sock, c') w'
         /\ fcc (stream c') = fcc (stream c)
         /\ (sock <= 0 -> c' = c)
         /\ calls w' = calls w ++ call_join_mcast_group (ctx_service (stream c))
                                  :: join_registration_calls c sock.
Proof.
  cbv zeta. unfold join_registration_fails, join_registration_calls. cbv zeta.
  remember (stream_join_mcast_group c w) as run eqn:Hrun.
  unfold stream_join_mcast_group in Hrun. cbv zeta in Hrun.
  unfold bind at 1 in Hrun. cbn [extcall fst snd] in Hrun.
  destruct (Z.ltb_spec 0 (fst (join_mcast_group X (ctx_service (stream c)) (ext w))))
    as [Hpos|Hnon]; cbn [andb].
  - unfold bind at 1 in Hrun. cbn [extcall fst snd ext calls] in Hrun.
    destruct (fst (epoll_ctl X EPOLL_CTL_ADD (epoll_fd (stream c))
                     (fst (join_mcast_group X (ctx_service (stream c)) (ext w))) EPOLLIN
                     (snd (join_mcast_group X (ctx_service (stream c)) (ext w)))) <? 0).
    + unfold bind, extcall_, exit in Hrun. cbn [ext calls] in Hrun. subst run.
      eexists. split; [reflexivity|]. cbn [calls]. rewrite <- !app_assoc. reflexivity.
    + unfold bind, extcall_, extcall, ret in Hrun. cbn [ext calls fst snd] in Hrun.
      subst run.
      eexists _, _. split; [reflexivity|]. split; [reflexivity|]. split; [lia|].
      cbn [calls]. rewrite <- !app_assoc. reflexivity.
  - cbn [ret] in Hrun. subst run. eexists _, _. split; [reflexivity|].
    split; [reflexivity|]. split; [reflexivity|]. reflexivity.
Qed.

(** C8, amended.  Let the FCC session be in [REQUESTED] or
    [UNICAST_PENDING] and let the tick reach the FCC timeout block with
    the time since the last FCC data at or past the signalling timeout.
    Then, after the periodic rejoin block, the tick sets the FCC state
    to [MCAST_ACTIVE] and calls [stream_join_mcast_group].  If
    [join_mcast_group] returns a socket and registering it with epoll
    fails, the socket is closed and the process ends with
    [RETVAL_SOCK_READ_FAILED].  In every other case the value
    [join_mcast_group] returned, a socket or not, is stored unchecked as
    [mcast_sock]; a socket has then been registered and entered in the
    descriptor map; the FCC state is [MCAST_ACTIVE]; and the tick goes
    on and returns 0: the connection is not closed. *)
Theorem fcc_signalling_timeout_falls_back_to_multicast c now w :
  fcc_state (fcc (stream c)) = FCC_STATE_REQUESTED
  \/ fcc_state (fcc (stream c)) = FCC_STATE_UNICAST_PENDING ->
  tick_reaches_fcc_block c now ->
  FCC_TIMEOUT_SIGNALING_MS K <= now - last_fcc_data_time (stream c) ->
  exists reason c1 w1,
    tick_mcast_rejoin c now w = Returned c1 w1
    /\ let c2 := upd_fcc (set_fcc_state FCC_STATE_MCAST_ACTIVE) c1 in
       let w2 := world_after_set_state FCC_STATE_MCAST_ACTIVE reason w1 in
       let sock := fst (join_mcast_group X (ctx_service (stream c)) (ext w2)) in
       if join_registration_fails c2 w2
       then exists w3,
              stream_tick c now w = Exited (RETVAL_SOCK_READ_FAILED K) w3
              /\ calls w3
                 = calls w1
                   ++ [call_fcc_session_set_state FCC_STATE_MCAST_ACTIVE reason;
                       call_join_mcast_group (ctx_service (stream c));
                       call_epoll_ctl EPOLL_CTL_ADD (epoll_fd (stream c)) sock EPOLLIN;
                       call_close sock]
       else exists c3 w3,
              stream_join_mcast_group c2 w2 = Returned (sock, c3) w3
              /\ calls w3
                 = calls w1
                   ++ [call_fcc_session_set_state FCC_STATE_MCAST_ACTIVE reason;
                       call_join_mcast_group (ctx_service (stream c))]
                   ++ join_registration_calls c sock
              /\ let c4 := upd_stream (set_mcast_sock sock) c3 in
                 fcc_state (fcc (stream c4)) = FCC_STATE_MCAST_ACTIVE
                 /\ mcast_sock (stream c4) = sock
                 /\ exists c' w',
                      stream_tick c now w = Returned (0, c') w'
                      /\ stream_tick_rest c4 now w3 = Returned (0, c') w'.
Proof.
  intros Hstate [Hsock Halive] Htimeout.
  destruct (tick_mcast_rejoin_frame c now w) as (c1 & w1 & Hrejoin & Hc1).
  assert (Hfcc : fcc (stream c1) = fcc (stream c)) by (destruct Hc1; subst; reflexivity).
  assert (Hsrv : ctx_service (stream c1) = ctx_service (stream c))
    by (destruct Hc1; subst; reflexivity).
  assert (Hep : epoll_fd (stream c1) = epoll_fd (stream c))
    by (destruct Hc1; subst; reflexivity).
  assert (Hlast : last_fcc_data_time (stream c1) = last_fcc_data_time (stream c))
    by (destruct Hc1; subst; reflexivity).
  assert (Halive1 : tick_mcast_timed_out c1 now = false)
    by (destruct Hc1; subst; exact Halive).
  exists (match fcc_state (fcc (stream c)) with
          | FCC_STATE_REQUESTED => "Signaling timeout"
          | _ => "First unicast packet timeout"
          end)%string, c1, w1.
  split; [exact Hrejoin|]. cbv zeta.
  unfold stream_tick. rewrite (bind_returned _ _ _ _ _ Hrejoin), Halive1.
  unfold tick_fcc_timeouts. cbv zeta. rewrite Hfcc, Hlast.
  apply Z.ltb_lt in Hsock. rewrite Hsock.
  apply Z.leb_le in Htimeout.
  set (c2 := upd_fcc (set_fcc_state FCC_STATE_MCAST_ACTIVE) c1).
  assert (Hsrv2 : ctx_service (stream c2) = ctx_service (stream c)) by exact Hsrv.
  assert (Hep2 : epoll_fd (stream c2) = epoll_fd (stream c)) by exact Hep.
  assert (Hjoin := fun reason =>
            stream_join_mcast_group_cases c2
              (world_after_set_state FCC_STATE_MCAST_ACTIVE reason w1)).
  assert (Hstep : forall reason,
            fcc_session_set_state c1 FCC_STATE_MCAST_ACTIVE reason w1
            = Returned c2 (world_after_set_state FCC_STATE_MCAST_ACTIVE reason w1))
    by reflexivity.
  cbv zeta in Hjoin. unfold join_registration_calls in *.
  rewrite Hsrv2, Hep2 in Hjoin.
  destruct Hstate as [Hst | Hst]; rewrite Hst, Htimeout;
    match goal with
    | |- context [world_after_set_state _ ?r _] => specialize (Hjoin r); specialize (Hstep r)
    end;
    destruct (join_registration_fails c2 _).
  all: try (destruct Hjoin as (w3 & Ej & Hcalls); exists w3;
            split; [unfold bind; rewrite Hstep, Ej; reflexivity|];
            rewrite Hcalls; unfold world_after_set_state; cbn [calls];
            rewrite <- !app_assoc; reflexivity).
  all: destruct Hjoin as (c3 & w3 & Ej & Hf & _ & Hcalls);
    match type of Ej with
    | _ = Returned (?s, _) _ =>
        destruct (stream_tick_rest_returns_0 (upd_stream (set_mcast_sock s) c3) now w3)
          as (c' & w' & Hrest)
    end.
  all: exists c3, w3; split; [exact Ej|].
  all: split; [rewrite Hcalls; unfold world_after_set_state; cbn [calls];
               rewrite <- !app_assoc; reflexivity|].
  all: split; [cbn; rewrite Hf; reflexivity|].
  all: split; [reflexivity|].
  all: exists c', w'; split; [|exact Hrest].
  all: unfold bind; rewrite Hstep, Ej; cbn [ret fst snd]; exact Hrest.
Qed.

(** ** Routing *)

Lemma bind_ret_inl_not_inr {A B C : Type} (m : M W A) (f : A -> B) w (r : C) w1 :
  bind m (fun x => ret (inl (f x))) w = Returned (inr r) w1 -> False.
Proof. unfold bind, ret. destruct (m w); discriminate. Qed.

Ltac early_return H :=
  exfalso;
  first [ exact (bind_ret_inl_not_inr _ _ _ _ _ H)
        | exact (bind_ret_inl_not_inr _ (fun x => x) _ _ _ H) ].

(** A request gets to the media branch only through the service lookup,
    after the Host check and the token gate let it pass. *)
Lemma route_resolve_inr c w rs w1 :
  connection_route_resolve c w = Returned (inr rs) w1 ->
  hostname_rejected (http_req c) = false
  /\ r2h_token_rejected (request_query (http_req c)) = false
  /\ exists decoded_path query_start,
       lookup_service c decoded_path query_start w = Returned (inr rs) w1.
Proof.
  unfold connection_route_resolve, request_query. cbv zeta. intros H.
  repeat match type of H with
         | bind _ _ _ = Returned (inr _) _ => early_return H
         | (if ?b then _ else _) _ = _ => destruct b eqn:?
         | (match ?x with _ => _ end) _ = _ => destruct x eqn:?
         end.
  all: split; [reflexivity|]; split; [reflexivity|]; eexists _, _; exact H.
Qed.

Lemma lookup_service_inr c decoded_path query_start w rs w1 :
  lookup_service c decoded_path query_start w = Returned (inr rs) w1 ->
  rs_owned rs = 1
  /\ exists l, calls w1 = calls w ++ l /\ Forall is_lookup_call l.
Proof.
  unfold lookup_service. intros H.
  destruct (find _ services) as [s|].
  - unfold bind at 1 in H. cbn [extcall] in H.
    destruct (fst (service_create_with_query_merge X s _ _ _)) as [m|].
    + injection H as <- <-. split; [reflexivity|].
      eexists [_]. cbn [calls]. split; [reflexivity|]. repeat constructor.
    + unfold bind at 1 in H. cbn [extcall ext calls] in H.
      destruct (fst (service_clone X s _)) as [s'|].
      * injection H as <- <-. split; [reflexivity|].
        eexists [_; _]. cbn [calls]. rewrite <- app_assoc. split; [reflexivity|].
        repeat constructor.
      * early_return H.
  - destruct (Zbool (udpxy config)).
    + unfold bind at 1 in H. cbn [extcall] in H.
      destruct (fst (service_create_from_udpxy_url X _ _)) as [s|].
      * injection H as <- <-. split; [reflexivity|].
        eexists [_]. cbn [calls]. split; [reflexivity|]. repeat constructor.
      * early_return H.
    + early_return H.
Qed.

(** The media branch on a HEAD request. *)
Lemma route_media_head c rs w1 :
  strcasecmp_eq (method (http_req c)) "HEAD" = true ->
  rs_owned rs = 1 ->
  let c1 := fst (send_http_headers X STATUS_200 CONTENT_MP2T None c (ext w1)) in
  exists w',
    connection_route_media c rs w1 = Returned (0, set_state CONN_CLOSING c1) w'
    /\ calls w' = calls w1 ++ [call_send_http_headers STATUS_200 CONTENT_MP2T None;
                               call_epoll_ctl EPOLL_CTL_MOD (epfd c1) (fd c1) EV_READ_WRITE;
                               call_service_free (rs_service rs)].
Proof.
  intros Hhead Howned c1.
  unfold connection_route_media. cbv zeta. rewrite Hhead.
  unfold service_free_if, connection_epoll_update_events. rewrite Howned.
  change (Zbool 1) with true. cbv iota.
  unfold bind, extcall, extcall_, ret. cbn [fst snd ext calls].
  eexists. split; [reflexivity|].
  cbn [calls]. rewrite <- !app_assoc. reflexivity.
Qed.


(** C9.  On a HEAD request that resolves to a media service the
    capacity check is not run: whatever the number of active clients,
    also at or above [maxclients], routing returns 0 with the connection
    closing, the 200 headers are among the calls it made and no 503
    response is. *)
Theorem head_request_skips_capacity_check c w rs w1 n :
  connection_route_resolve c w = Returned (inr rs) w1 ->
  strcasecmp_eq (method (http_req c)) "HEAD" = true ->
  status_shared_total_clients X (ext w1) = Some n ->
  maxclients config <= n ->
  exists c' w' l,
    connection_route_and_start c w = Returned (0, c') w'
    /\ state c' = CONN_CLOSING
    /\ calls w' = calls w ++ l
    /\ In (call_send_http_headers STATUS_200 CONTENT_MP2T None) l
    /\ ~ In (call_http_send STATUS_503) l.
Proof.
  intros Hres Hhead _ _.
  destruct (route_resolve_inr _ _ _ _ Hres) as (_ & _ & d & q & Hlook).
  destruct (lookup_service_inr _ _ _ _ _ _ Hlook) as (Howned & l & Hcalls & Hl).
  destruct (route_media_head c rs w1 Hhead Howned) as (w' & Hrun & Hw').
  eexists _, w', _.
  split.
  { unfold connection_route_and_start. rewrite (bind_returned _ _ _ _ _ Hres). exact Hrun. }
  split; [reflexivity|].
  split; [rewrite Hw', Hcalls, <- app_assoc; reflexivity|].
  split.
  - rewrite in_app_iff. right. cbn [In]. auto.
  - rewrite in_app_iff. intros [Hin | Hin].
    + rewrite Forall_forall in Hl. apply Hl in Hin. exact Hin.
    + cbn [In] in Hin. destruct Hin as [H | [H | [H | []]]]; discriminate.
Qed.

(** The capacity check answers 503 as soon as the number of active
    clients reaches [maxclients]. *)
Lemma route_media_at_capacity c rs w1 n :
  method (http_req c) = "GET"%string ->
  rs_owned rs = 1 ->
  status_shared_total_clients X (ext w1) = Some n ->
  maxclients config <= n ->
  let srv :=
    if nonempty (req_user_agent (http_req c))
    then set_user_agent (Some (req_user_agent (http_req c))) (rs_service rs)
    else rs_service rs in
  let c1 := fst (http_error_response X STATUS_503 c (ext w1)) in
  exists w',
    connection_route_media c rs w1 = Returned (0, set_state CONN_CLOSING c1) w'
    /\ calls w' = calls w1 ++ [call_http_send STATUS_503; call_service_free srv].
Proof.
  intros Hget Howned Htotal Hcap srv c1.
  unfold connection_route_media. cbv zeta. rewrite Hget.
  change (strcasecmp_eq "GET" "HEAD") with false. cbv iota.
  rewrite Howned. change (Zbool 1) with true. cbn [andb].
  fold srv.
  unfold bind at 1. cbn [peek]. rewrite Htotal.
  apply Z.leb_le in Hcap. rewrite Hcap.
  unfold http_send_503, http_send, service_free_if. change (Zbool 1) with true. cbv iota.
  unfold bind, extcall, extcall_, ret. cbn [fst snd ext calls].
  eexists. split; [reflexivity|].
  rewrite <- !app_assoc. reflexivity.
Qed.

(** C6.  On a GET request that resolves to a media service, when the
    number of active clients exceeds [maxclients], routing answers 503,
    frees the service it owns and returns 0: besides the calls that
    looked the service up, the 503 response and the release of the
    service are the only calls, so no streaming is initialised. *)
Theorem get_over_capacity_answers_503 c w rs w1 n :
  connection_route_resolve c w = Returned (inr rs) w1 ->
  method (http_req c) = "GET"%string ->
  status_shared_total_clients X (ext w1) = Some n ->
  maxclients config < n ->
  let srv :=
    if nonempty (req_user_agent (http_req c))
    then set_user_agent (Some (req_user_agent (http_req c))) (rs_service rs)
    else rs_service rs in
  let c1 := fst (http_error_response X STATUS_503 c (ext w1)) in
  exists w' l,
    connection_route_and_start c w = Returned (0, set_state CONN_CLOSING c1) w'
    /\ Forall is_lookup_call l
    /\ calls w' = calls w ++ l ++ [call_http_send STATUS_503; call_service_free srv].
Proof.
  intros Hres Hget Htotal Hover srv c1.
  destruct (route_resolve_inr _ _ _ _ Hres) as (_ & _ & d & q & Hlook).
  destruct (lookup_service_inr _ _ _ _ _ _ Hlook) as (Howned & l & Hcalls & Hl).
  destruct (route_media_at_capacity c rs w1 n Hget Howned Htotal ltac:(lia))
    as (w' & Hrun & Hw').
  exists w', l.
  split.
  { unfold connection_route_and_start. rewrite (bind_returned _ _ _ _ _ Hres). exact Hrun. }
  split; [exact Hl|].
  rewrite Hw', Hcalls, <- app_assoc. reflexivity.
Qed.

(** *** Which calls routing can make *)

Create HintDb emits discriminated.

Ltac emits_tac :=
  repeat first
    [ apply emits_ret | apply emits_exit | apply emits_peek
    | apply emits_extcall; [first [exact I | discriminate]]
    | apply emits_extcall_; [first [exact I | discriminate]]
    | solve [auto with emits]
    | apply emits_bind; [|intro]
    | match goal with
      | |- emits _ (if ?b then _ else _) => destruct b
      | |- emits _ (match ?x with _ => _ end) => destruct x
      end ].

Lemma emits_alloc c : emits not_http_send (connection_alloc_output_buffer c).
Proof. unfold connection_alloc_output_buffer. emits_tac. Qed.

Lemma emits_report c : emits not_http_send (connection_report_queue c).
Proof. unfold connection_report_queue. cbv zeta. emits_tac. Qed.

Lemma emits_epoll_update ep sock events :
  emits not_http_send (connection_epoll_update_events ep sock events).
Proof. unfold connection_epoll_update_events. emits_tac. Qed.

#[local] Hint Resolve emits_alloc emits_report emits_epoll_update : emits.

Lemma emits_queue_zerocopy c buf_ref :
  emits not_http_send (connection_queue_zerocopy c buf_ref).
Proof.
  unfold connection_queue_zerocopy, connection_calculate_queue_limit. cbv zeta.
  destruct (data_size buf_ref =? 0); [apply emits_ret|].
  apply emits_bind; [apply emits_extcall; exact I | intro now_ms].
  apply emits_bind; [emits_tac | intro lc].
  destruct (fst lc <? _); [emits_tac|].
  destruct (fst (zerocopy_queue_add _ _) <? 0); emits_tac.
Qed.

#[local] Hint Resolve emits_queue_zerocopy : emits.

Lemma emits_queue_output_loop : forall n src c,
  (List.length src <= n)%nat -> emits not_http_send (queue_output_loop src c).
Proof.
  induction n as [|n IH]; intros src c Hlen.
  - destruct src; [|cbn in Hlen; lia].
    rewrite queue_output_loop_equation_1. apply emits_ret.
  - destruct src as [|b rest]; [rewrite queue_output_loop_equation_1; apply emits_ret|].
    rewrite queue_output_loop_equation_2. cbv zeta.
    pose proof (chunk_size_bounds (b :: rest) ltac:(discriminate)) as [[Hlo _] _].
    apply emits_bind; [apply emits_alloc | intros [buf_ref|]]; [|apply emits_ret].
    apply emits_bind; [apply emits_queue_zerocopy | intros rc].
    destruct (fst rc <? 0); [emits_tac|].
    apply emits_bind; [apply emits_extcall_; exact I | intros _].
    apply (IH (skipn (Z.to_nat (chunk_size_of (b :: rest))) (b :: rest)) (snd rc)).
    rewrite length_skipn. cbn [List.length] in *. lia.
Qed.

Lemma emits_queue_output_and_flush c bytes :
  emits not_http_send (connection_queue_output_and_flush c bytes).
Proof.
  unfold connection_queue_output_and_flush, connection_queue_output.
  apply emits_bind.
  - destruct bytes; [apply emits_ret | apply (emits_queue_output_loop _ _ _ (le_n _))].
  - intro rc. emits_tac.
Qed.

Lemma emits_service_free_if owned s : emits not_http_send (service_free_if owned s).
Proof. unfold service_free_if. emits_tac. Qed.

Lemma emits_fcc_session_set_state c st reason :
  emits not_http_send (fcc_session_set_state c st reason).
Proof. unfold fcc_session_set_state. emits_tac. Qed.

Lemma emits_stream_join_mcast_group c : emits not_http_send (stream_join_mcast_group c).
Proof. unfold stream_join_mcast_group. cbv zeta. emits_tac. Qed.

#[local] Hint Resolve emits_queue_output_and_flush emits_service_free_if
  emits_fcc_session_set_state emits_stream_join_mcast_group : emits.

Lemma emits_stream_context_init c srv epoll status_idx is_snapshot :
  emits not_http_send (stream_context_init_for_worker c srv epoll status_idx is_snapshot).
Proof. unfold stream_context_init_for_worker. cbv zeta. emits_tac. Qed.

Lemma not_http_send_not_401 e : not_http_send e -> not_401 e.
Proof. unfold not_401. destruct e; cbn; intros H; try discriminate; contradiction. Qed.

Lemma emits_quiet {A : Type} (m : M W A) : emits not_http_send m -> emits not_401 m.
Proof. apply emits_weaken, not_http_send_not_401. Qed.

Lemma emits_http_send st c : st <> STATUS_401 -> emits not_401 (http_send st c).
Proof.
  intros Hst. unfold http_send.
  apply emits_bind; [|intro; apply emits_ret].
  apply emits_extcall. intros H. injection H as H. contradiction.
Qed.

Lemma emits_handle_playlist_request c : emits not_401 (handle_playlist_request c).
Proof.
  unfold handle_playlist_request.
  apply emits_bind; [apply emits_extcall; discriminate | intros [p|]].
  - cbv zeta. apply emits_bind; [apply emits_extcall; discriminate | intro c1].
    apply emits_bind; [apply emits_quiet, emits_queue_output_and_flush | intro].
    apply emits_ret.
  - apply emits_http_send. discriminate.
Qed.

Lemma emits_lookup_service c decoded_path query_start :
  emits not_401 (lookup_service c decoded_path query_start).
Proof.
  unfold lookup_service, http_send_404, http_send_500.
  repeat first
    [ apply emits_ret
    | apply emits_http_send; discriminate
    | apply emits_extcall; discriminate
    | apply emits_bind; [|intro]
    | match goal with
      | |- emits _ (if ?b then _ else _) => destruct b
      | |- emits _ (match ?x with _ => _ end) => destruct x
      end ].
Qed.

Lemma emits_route_media c rs : emits not_401 (connection_route_media c rs).
Proof.
  unfold connection_route_media, http_send_503. cbv zeta.
  repeat first
    [ apply emits_ret | apply emits_peek
    | apply emits_http_send; discriminate
    | apply emits_extcall; discriminate
    | apply emits_extcall_; discriminate
    | apply emits_quiet; first [ apply emits_stream_context_init | solve [auto with emits] ]
    | apply emits_bind; [|intro]
    | match goal with
      | |- emits _ (if ?b then _ else _) => destruct b
      | |- emits _ (match ?x with _ => _ end) => destruct x
      end ].
Qed.

Lemma emits_route_resolve_past_gate c :
  r2h_token_rejected (request_query (http_req c)) = false ->
  emits not_401 (connection_route_resolve c).
Proof.
  intros Hgate. unfold request_query in Hgate. cbv zeta in Hgate.
  unfold connection_route_resolve, http_send_400, http_send_404. cbv zeta.
  rewrite Hgate.
  repeat first
    [ apply emits_ret
    | apply emits_http_send; discriminate
    | apply emits_handle_playlist_request
    | apply emits_lookup_service
    | apply emits_extcall; discriminate
    | apply emits_bind; [|intro]
    | match goal with
      | |- emits _ (if ?b then _ else _) => destruct b
      | |- emits _ (match ?x with _ => _ end) => destruct x
      end ].
Qed.

Lemma token_gate_passes_iff req tok :
  r2h_token config = Some tok -> nonempty tok = true ->
  (r2h_token_rejected (request_query req) = false <-> presented_token req = Some tok).
Proof.
  intros Htok Hne. unfold r2h_token_rejected, presented_token.
  rewrite Htok, Hne.
  destruct (request_query req) as [q|]; [|split; discriminate].
  destruct (http_parse_query_param X q "r2h-token" 256) as [v|]; [|split; discriminate].
  destruct (http_url_decode X v) as [d|]; [|split; discriminate].
  destruct (String.eqb_spec d tok) as [->|Hneq]; cbn [negb]; split; intros H;
    try reflexivity; try discriminate.
  injection H as H. contradiction.
Qed.

(** C5, amended.  For every request whose URL begins with '/' and that
    passes the Host check: when an auth token is configured and
    non-empty, routing answers 401 and closes the connection unless the
    URL has a query string, [http_parse_query_param] delivers the value
    of its [r2h-token] parameter into the 256-byte buffer,
    [http_url_decode] decodes that value, and the decoded value equals
    the configured token exactly; in that case no 401 is sent.  A value
    the parser does not deliver counts as a missing token. *)
Theorem token_gate_after_url_and_host_checks c w tok :
  String.prefix "/" (req_url (http_req c)) = true ->
  hostname_rejected (http_req c) = false ->
  r2h_token config = Some tok -> nonempty tok = true ->
  (presented_token (http_req c) <> Some tok -> answered_only_with STATUS_401 c w)
  /\ (presented_token (http_req c) = Some tok -> never_sends_401 c w).
Proof.
  intros Hurl Hhost Htok Hne.
  pose proof (token_gate_passes_iff (http_req c) tok Htok Hne) as Hgate.
  split; intros Hpres.
  - assert (Hrej : r2h_token_rejected (request_query (http_req c)) = true).
    { destruct (r2h_token_rejected (request_query (http_req c))); [reflexivity|].
      exfalso. apply Hpres, Hgate. reflexivity. }
    unfold request_query in Hrej. cbv zeta in Hrej.
    unfold answered_only_with, connection_route_and_start, connection_route_resolve.
    cbv zeta. rewrite Hurl, Hhost. cbn [negb]. rewrite Hrej.
    reflexivity.
  - apply Hgate in Hpres.
    unfold never_sends_401, connection_route_and_start.
    apply emits_bind.
    + apply emits_route_resolve_past_gate, Hpres.
    + intros [done | rs]; [apply emits_ret | apply emits_route_media].
Qed.

(** * Further properties of connection.c *)

(** ** Enqueueing, case by case *)

(** [calculate_queue_limit] leaves the marks and the identity of the
    connection alone. *)
Lemma calculate_queue_limit_marks pool active c now_ms :
  let c' := snd (calculate_queue_limit pool active c now_ms) in
  queue_bytes_highwater c' = queue_bytes_highwater c
  /\ queue_buffers_highwater c' = queue_buffers_highwater c
  /\ status_index c' = status_index c
  /\ fd c' = fd c
  /\ epfd c' = epfd c.
Proof. cbv zeta. repeat split; frame_calculate. Qed.

Lemma calculate_queue_limit_floor pool active c now_ms :
  size_mul BUF 4 <= fst (calculate_queue_limit pool active c now_ms).
Proof. unfold calculate_queue_limit. cbv zeta. cbn [fst]. apply compute_limit_floor. Qed.

#[local] Opaque calculate_queue_limit.

(** The three ways a non-empty buffer goes through
    [connection_queue_zerocopy]: dropped by the limit, refused by the
    queue, or queued. *)
Lemma queue_zerocopy_outcome c buf_ref w :
  data_size buf_ref <> 0 ->
  let lim := computed_queue_limit c w in
  let c0 := snd (enqueue_limit_state c w) in
  let c1 := set_queue_limit_bytes lim c0 in
  let w1 := world_after_clock w in
  (lim < projected_bytes c buf_ref
   /\ exists w',
        connection_report_queue (connection_record_drop c1 (data_size buf_ref)) w1
        = Returned tt w'
        /\ connection_queue_zerocopy c buf_ref w
           = Returned (-1, connection_record_drop c1 (data_size buf_ref)) w')
  \/ (projected_bytes c buf_ref <= lim
      /\ zerocopy_queue_refuses X (zc_queue c) buf_ref = true
      /\ connection_queue_zerocopy c buf_ref w = Returned (-1, c1) w1)
  \/ (projected_bytes c buf_ref <= lim
      /\ zerocopy_queue_refuses X (zc_queue c) buf_ref = false
      /\ exists c' w2 w',
           connection_queue_zerocopy c buf_ref w = Returned (0, c') w'
           /\ connection_report_queue c' w1 = Returned tt w2
           /\ (w' = w2
               \/ connection_epoll_update_events (epfd c') (fd c') EV_READ_WRITE w2
                  = Returned tt w')
           /\ zc_queue c' = {| items := items (zc_queue c) ++ [buf_ref];
                               num_queued := size_add (num_queued (zc_queue c)) 1 |}
           /\ queue_limit_bytes c' = lim
           /\ queue_bytes_highwater c'
              = Z.max (queue_bytes_highwater c0) (size_mul (num_queued (zc_queue c)) BUF)
           /\ queue_buffers_highwater c'
              = Z.max (queue_buffers_highwater c0) (size_add (num_queued (zc_queue c)) 1)
           /\ dropped_packets c' = dropped_packets c0
           /\ dropped_bytes c' = dropped_bytes c0
           /\ backpressure_events c' = backpressure_events c0
           /\ status_index c' = status_index c0).
Proof.
  intros Hnz. cbv zeta.
  remember (connection_queue_zerocopy c buf_ref w) as run eqn:Hrun.
  unfold connection_queue_zerocopy in Hrun.
  destruct (Z.eqb_spec (data_size buf_ref) 0) as [Hz|_]; [contradiction|].
  unfold bind at 1 in Hrun. cbn [extcall] in Hrun.
  unfold bind at 1 in Hrun. unfold connection_calculate_queue_limit at 1 in Hrun.
  cbn [bind peek ret] in Hrun.
  change (mk_world (snd (get_time_ms X (ext w))) (calls w ++ [call_get_time_ms]))
    with (world_after_clock w) in Hrun.
  change (calculate_queue_limit
            (zerocopy_state_pool X (ext (world_after_clock w)))
            (zerocopy_active_streams X (ext (world_after_clock w)))
            c (fst (get_time_ms X (ext w))))
    with (enqueue_limit_state c w) in Hrun.
  change (fst (enqueue_limit_state c w)) with (computed_queue_limit c w) in Hrun.
  assert (Hq : zc_queue (snd (enqueue_limit_state c w)) = zc_queue c)
    by apply calculate_queue_limit_queue.
  cbv zeta in Hrun.
  replace (size_add (size_mul (num_queued (zc_queue (snd (enqueue_limit_state c w)))) BUF)
             (data_size buf_ref))
    with (projected_bytes c buf_ref) in Hrun
    by (unfold projected_bytes; rewrite Hq; reflexivity).
  destruct (Z.ltb_spec (computed_queue_limit c w) (projected_bytes c buf_ref)) as [Hover|Hfit].
  - left. split; [exact Hover|].
    destruct (report_queue_returns
                (connection_record_drop
                   (set_queue_limit_bytes (computed_queue_limit c w)
                      (snd (enqueue_limit_state c w))) (data_size buf_ref))
                (world_after_clock w)) as [w' Hw'].
    exists w'. split; [exact Hw'|].
    erewrite bind_returned in Hrun by exact Hw'. exact Hrun.
  - right. unfold zerocopy_queue_add in Hrun. cbn [zc_queue set_queue_limit_bytes] in Hrun.
    rewrite Hq in Hrun.
    destruct (zerocopy_queue_refuses X (zc_queue c) buf_ref) eqn:Href; cbn [fst snd] in Hrun.
    + left. repeat split; auto.
    + right. split; [exact Hfit|]. split; [reflexivity|].
      change (0 <? 0) with false in Hrun. cbv iota in Hrun.
      match type of Hrun with
      | context [bind (connection_report_queue ?c1)] =>
          destruct (report_queue_returns c1 (world_after_clock w)) as [w2 Hw2];
          set (cfinal := c1) in *
      end.
      exists cfinal, w2.
      erewrite bind_returned in Hrun by exact Hw2.
      cbn [bind peek] in Hrun.
      assert (Hfields :
                zc_queue cfinal = {| items := items (zc_queue c) ++ [buf_ref];
                                     num_queued := size_add (num_queued (zc_queue c)) 1 |}
                /\ queue_limit_bytes cfinal = computed_queue_limit c w
                /\ queue_bytes_highwater cfinal
                   = Z.max (queue_bytes_highwater (snd (enqueue_limit_state c w)))
                       (size_mul (num_queued (zc_queue c)) BUF)
                /\ queue_buffers_highwater cfinal
                   = Z.max (queue_buffers_highwater (snd (enqueue_limit_state c w)))
                       (size_add (num_queued (zc_queue c)) 1)
                /\ dropped_packets cfinal = dropped_packets (snd (enqueue_limit_state c w))
                /\ dropped_bytes cfinal = dropped_bytes (snd (enqueue_limit_state c w))
                /\ backpressure_events cfinal
                   = backpressure_events (snd (enqueue_limit_state c w))
                /\ status_index cfinal = status_index (snd (enqueue_limit_state c w))).
      { subst cfinal. clear Hrun Hw2.
        repeat match goal with
               | |- context [if ?a <? ?b then _ else _] => destruct (Z.ltb_spec a b)
               end;
          cbn [zc_queue queue_limit_bytes queue_bytes_highwater queue_buffers_highwater
               dropped_packets dropped_bytes backpressure_events status_index
               set_queue_buffers_highwater set_queue_bytes_highwater set_zc_queue
               set_queue_limit_bytes num_queued items] in *;
          repeat split; try reflexivity; lia. }
      destruct (zerocopy_should_flush X (zc_queue cfinal) (ext w2)).
      * unfold connection_epoll_update_events at 1 in Hrun.
        unfold bind, extcall, ret in Hrun. cbn [fst snd ext calls] in Hrun.
        eexists. split; [exact Hrun|]. split; [exact Hw2|].
        split; [right; reflexivity | exact Hfields].
      * exists w2. split; [exact Hrun|]. split; [exact Hw2|].
        split; [left; reflexivity | exact Hfields].
Qed.

(** X1.  A non-empty buffer whose projected queue size stays within four
    pool buffers is never dropped by the backpressure limit, whatever the
    pool, the number of streams and the slow-client state: the three drop
    counters keep their values, and unless the queue itself refuses the
    buffer it is appended and 0 is returned. *)
Theorem enqueue_within_floor_is_never_dropped c buf_ref w :
  data_size buf_ref <> 0 ->
  projected_bytes c buf_ref <= size_mul BUF 4 ->
  exists rc c' w',
    connection_queue_zerocopy c buf_ref w = Returned (rc, c') w'
    /\ dropped_packets c' = dropped_packets c
    /\ dropped_bytes c' = dropped_bytes c
    /\ backpressure_events c' = backpressure_events c
    /\ (zerocopy_queue_refuses X (zc_queue c) buf_ref = false ->
        rc = 0 /\ items (zc_queue c') = items (zc_queue c) ++ [buf_ref]).
Proof.
  intros Hnz Hfloor.
  assert (Hlim : size_mul BUF 4 <= computed_queue_limit c w)
    by apply calculate_queue_limit_floor.
  destruct (calculate_queue_limit_counters
              (zerocopy_state_pool X (ext (world_after_clock w)))
              (zerocopy_active_streams X (ext (world_after_clock w)))
              c (fst (get_time_ms X (ext w)))) as (Hp & Hb & He).
  fold (enqueue_limit_state c w) in Hp, Hb, He.
  destruct (queue_zerocopy_outcome c buf_ref w Hnz)
    as [[Hover _] | [(_ & Href & Hrun) | (_ & Href & c' & w2 & w' & Hrun & _ & _ & Hq & _ & _ & _
                                            & Hdp & Hdb & Hbe & _)]].
  - lia.
  - eexists _, _, _. split; [exact Hrun|].
    cbn [dropped_packets dropped_bytes backpressure_events set_queue_limit_bytes].
    repeat split; auto; congruence.
  - exists 0, c', w'. split; [exact Hrun|].
    rewrite Hdp, Hdb, Hbe. repeat split; auto. rewrite Hq. reflexivity.
Qed.

(** X2.  The high-water marks never decrease across
    [connection_queue_zerocopy].  After an accepted enqueue the buffer
    mark is at least the queue length, while the byte mark is raised to
    the queued bytes counted before the new buffer was added. *)
Theorem enqueue_raises_highwater_marks c buf_ref w rc c' w' :
  connection_queue_zerocopy c buf_ref w = Returned (rc, c') w' ->
  queue_bytes_highwater c <= queue_bytes_highwater c'
  /\ queue_buffers_highwater c <= queue_buffers_highwater c'
  /\ (rc = 0 -> data_size buf_ref <> 0 ->
      num_queued (zc_queue c') <= queue_buffers_highwater c'
      /\ queue_bytes_highwater c'
         = Z.max (queue_bytes_highwater c) (size_mul (num_queued (zc_queue c)) BUF)).
Proof.
  intros Hrun.
  destruct (Z.eq_dec (data_size buf_ref) 0) as [Hz|Hnz].
  - unfold connection_queue_zerocopy in Hrun.
    rewrite Hz in Hrun. cbn in Hrun. injection Hrun as <- <- <-.
    split; [lia|]. split; [lia|]. intros _ H. contradiction.
  - destruct (calculate_queue_limit_marks
                (zerocopy_state_pool X (ext (world_after_clock w)))
                (zerocopy_active_streams X (ext (world_after_clock w)))
                c (fst (get_time_ms X (ext w)))) as (Hby & Hbu & _).
    fold (enqueue_limit_state c w) in Hby, Hbu.
    destruct (queue_zerocopy_outcome c buf_ref w Hnz)
      as [(_ & w1 & _ & Hrun1)
         | [(_ & _ & Hrun1)
           | (_ & _ & c1 & w2 & w1 & Hrun1 & _ & _ & Hq & _ & Hhb & Hhn & _)]];
      rewrite Hrun1 in Hrun; injection Hrun as <- <- <-.
    + unfold connection_record_drop.
      cbn [queue_bytes_highwater queue_buffers_highwater
           set_backpressure_events set_dropped_bytes set_dropped_packets
           set_queue_limit_bytes].
      rewrite Hby, Hbu. split; [lia|]. split; [lia|]. intros H; discriminate H.
    + cbn [queue_bytes_highwater queue_buffers_highwater set_queue_limit_bytes].
      rewrite Hby, Hbu. split; [lia|]. split; [lia|]. intros H; discriminate H.
    + rewrite Hhb, Hhn, Hby, Hbu, Hq. cbn [num_queued].
      repeat split; try lia.
Qed.

(** X3.  When the buffer passes the limit but the queue itself refuses
    it, [connection_queue_zerocopy] returns -1 without counting a drop:
    the queue and the three drop counters are unchanged, the computed
    limit is stored, and after reading the clock no collaborator is
    called (no status report, no epoll change). *)
Theorem queue_refusal_is_not_counted_as_drop c buf_ref w :
  data_size buf_ref <> 0 ->
  projected_bytes c buf_ref <= computed_queue_limit c w ->
  zerocopy_queue_refuses X (zc_queue c) buf_ref = true ->
  exists c',
    connection_queue_zerocopy c buf_ref w = Returned (-1, c') (world_after_clock w)
    /\ zc_queue c' = zc_queue c
    /\ queue_limit_bytes c' = computed_queue_limit c w
    /\ dropped_packets c' = dropped_packets c
    /\ dropped_bytes c' = dropped_bytes c
    /\ backpressure_events c' = backpressure_events c.
Proof.
  intros Hnz Hfit Href.
  destruct (calculate_queue_limit_counters
              (zerocopy_state_pool X (ext (world_after_clock w)))
              (zerocopy_active_streams X (ext (world_after_clock w)))
              c (fst (get_time_ms X (ext w)))) as (Hp & Hb & He).
  fold (enqueue_limit_state c w) in Hp, Hb, He.
  destruct (queue_zerocopy_outcome c buf_ref w Hnz)
    as [[Hover _] | [(_ & _ & Hrun) | (_ & Hno & _)]].
  - lia.
  - eexists. split; [exact Hrun|].
    cbn [zc_queue queue_limit_bytes dropped_packets dropped_bytes backpressure_events
         set_queue_limit_bytes].
    repeat split; auto.
    unfold enqueue_limit_state. apply calculate_queue_limit_queue.
  - congruence.
Qed.

#[local] Transparent calculate_queue_limit.

(** ** What the output path reports and releases *)

Lemma released_app l1 l2 : released (l1 ++ l2) = released l1 ++ released l2.
Proof. unfold released. apply flat_map_app. Qed.

Lemma report_queue_trace c w w' :
  connection_report_queue c w = Returned tt w' ->
  exists l, calls w' = calls w ++ l
            /\ released l = []
            /\ (status_index c < 0 -> l = []).
Proof.
  unfold connection_report_queue.
  destruct (Z.ltb_spec (status_index c) 0) as [Hneg|Hreg]; intros H.
  - injection H as <-. exists []. rewrite app_nil_r. auto.
  - cbv zeta in H. unfold extcall_ in H. injection H as <-.
    eexists [_]. cbn [calls]. split; [reflexivity|]. split; [reflexivity|]. lia.
Qed.

Lemma alloc_output_buffer_trace c w :
  exists r w' l,
    connection_alloc_output_buffer c w = Returned r w'
    /\ calls w' = calls w ++ l
    /\ released l = []
    /\ Forall not_queue_report l.
Proof.
  unfold connection_alloc_output_buffer.
  destruct (buffer_class c).
  - unfold bind, extcall. cbn [fst snd ext calls].
    destruct (fst (buffer_pool_alloc_control X (ext w))).
    + eexists _, _, [_]. cbn [ret calls]. repeat split; repeat constructor.
    + eexists _, _, [_; _]. cbn [calls]. rewrite <- app_assoc.
      repeat split; repeat constructor.
  - eexists _, _, [_]. unfold extcall. cbn [calls]. repeat split; repeat constructor.
Qed.

(** One enqueue of a non-empty buffer: what it logs and what it does to
    the queue. *)
Lemma queue_zerocopy_trace c buf_ref w :
  data_size buf_ref <> 0 ->
  exists rc c' w' l,
    connection_queue_zerocopy c buf_ref w = Returned (rc, c') w'
    /\ calls w' = calls w ++ l
    /\ released l = []
    /\ status_index c' = status_index c
    /\ (status_index c < 0 -> Forall not_queue_report l)
    /\ ((rc = 0 /\ items (zc_queue c') = items (zc_queue c) ++ [buf_ref])
        \/ (rc = -1 /\ zc_queue c' = zc_queue c)).
Proof.
  intros Hnz.
  destruct (calculate_queue_limit_marks
              (zerocopy_state_pool X (ext (world_after_clock w)))
              (zerocopy_active_streams X (ext (world_after_clock w)))
              c (fst (get_time_ms X (ext w)))) as (_ & _ & Hsi & _).
  fold (enqueue_limit_state c w) in Hsi.
  assert (Hq0 : zc_queue (snd (enqueue_limit_state c w)) = zc_queue c)
    by apply calculate_queue_limit_queue.
  destruct (queue_zerocopy_outcome c buf_ref w Hnz)
    as [(_ & w' & Hrep & Hrun)
       | [(_ & _ & Hrun)
         | (_ & _ & c' & w2 & w' & Hrun & Hrep & Hflush & Hq & _ & _ & _ & _ & _ & _ & Hsi')]].
  - destruct (report_queue_trace _ _ _ Hrep) as (l & Hl & Hrel & Hquiet).
    eexists _, _, _, (call_get_time_ms :: l). split; [exact Hrun|].
    split; [rewrite Hl; unfold world_after_clock; cbn [calls];
            rewrite <- app_assoc; reflexivity|].
    split; [cbn [released flat_map app]; exact Hrel|].
    split; [exact Hsi|].
    split.
    + intros Hneg. rewrite Hquiet by (rewrite <- Hsi in Hneg; exact Hneg).
      repeat constructor.
    + right. split; [reflexivity | exact Hq0].
  - eexists _, _, _, [call_get_time_ms]. split; [exact Hrun|].
    split; [reflexivity|]. split; [reflexivity|]. split; [exact Hsi|].
    split; [intros _; repeat constructor|].
    right. split; [reflexivity | exact Hq0].
  - destruct (report_queue_trace _ _ _ Hrep) as (l & Hl & Hrel & Hquiet).
    assert (Hw' : exists l2, calls w' = calls w2 ++ l2 /\ released l2 = []
                             /\ Forall not_queue_report l2).
    { destruct Hflush as [-> | Hep].
      - exists []. rewrite app_nil_r. repeat split; constructor.
      - unfold connection_epoll_update_events, bind, extcall, ret in Hep.
        injection Hep as <-. eexists [_]. cbn [calls].
        repeat split; repeat constructor. }
    destruct Hw' as (l2 & Hl2 & Hrel2 & Hq2).
    exists 0, c', w', (call_get_time_ms :: l ++ l2). split; [exact Hrun|].
    split; [rewrite Hl2, Hl; unfold world_after_clock; cbn [calls];
            rewrite <- !app_assoc; reflexivity|].
    split; [change (call_get_time_ms :: l ++ l2) with ([call_get_time_ms] ++ l ++ l2);
            rewrite !released_app, Hrel, Hrel2; reflexivity|].
    split; [rewrite Hsi'; exact Hsi|].
    split.
    + intros Hneg. rewrite Hquiet by (rewrite Hsi', Hsi; exact Hneg).
      constructor; [exact I | exact Hq2].
    + left. split; [reflexivity | rewrite Hq; reflexivity].
Qed.

Lemma queue_output_loop_trace : forall n src c w,
  (List.length src <= n)%nat ->
  exists rc c' w' l bufs extra,
    queue_output_loop src c w = Returned (rc, c') w'
    /\ calls w' = calls w ++ l
    /\ items (zc_queue c') = items (zc_queue c) ++ bufs
    /\ released l = bufs ++ extra
    /\ (rc = 0 -> extra = [])
    /\ (List.length extra <= 1)%nat
    /\ status_index c' = status_index c
    /\ (status_index c < 0 -> Forall not_queue_report l).
Proof.
  induction n as [|n IH]; intros src c w Hlen.
  - destruct src; [|cbn in Hlen; lia].
    rewrite queue_output_loop_equation_1.
    exists 0, c, w, [], [], []. cbn [ret List.length]. rewrite !app_nil_r.
    repeat split; auto.
  - destruct src as [|b rest].
    { rewrite queue_output_loop_equation_1.
      exists 0, c, w, [], [], []. cbn [ret List.length]. rewrite !app_nil_r.
      repeat split; auto. }
    rewrite queue_output_loop_equation_2. cbv zeta.
    pose proof (chunk_size_bounds (b :: rest) ltac:(discriminate)) as [[Hlo _] _].
    destruct (alloc_output_buffer_trace c w) as (r & w1 & la & Ha & Hla & Hra & Hqa).
    rewrite (bind_returned _ _ _ _ _ Ha).
    destruct r as [buf_ref|].
    2:{ exists (-1), c, w1, la, [], []. cbn [ret List.length]. rewrite app_nil_r.
        repeat split; auto. }
    set (filled := set_data_size _ _).
    assert (Hnz : data_size filled <> 0) by (subst filled; cbn [data_size set_data_size]; lia).
    destruct (queue_zerocopy_trace c filled w1 Hnz)
      as (rc1 & c1 & w2 & l1 & Hrun & Hl1 & Hr1 & Hsi1 & Hq1 & Hcase).
    rewrite (bind_returned _ _ _ _ _ Hrun). cbn [fst snd].
    destruct Hcase as [[-> Hitems] | [-> Hsame]].
    + change (0 <? 0) with false. cbv iota.
      unfold bind at 1, extcall_ at 1.
      match goal with
      | |- context [queue_output_loop ?s ?cc ?ww] =>
          destruct (IH s cc ww) as (rc & c' & w' & l2 & bufs & extra & Hloop & Hl2 & Hit & Hr2
                                    & Hex & Hlen2 & Hsi2 & Hq2)
      end.
      { rewrite length_skipn. cbn [List.length] in *. lia. }
      exists rc, c', w', (la ++ l1 ++ [call_buffer_ref_put filled] ++ l2), (filled :: bufs), extra.
      split; [exact Hloop|].
      split; [rewrite Hl2; cbn [calls]; rewrite Hl1, Hla, <- !app_assoc; reflexivity|].
      split; [rewrite Hit, Hitems, <- app_assoc; reflexivity|].
      split; [rewrite !released_app, Hra, Hr1, Hr2; reflexivity|].
      split; [exact Hex|]. split; [exact Hlen2|].
      split; [rewrite Hsi2; exact Hsi1|].
      intros Hneg.
      apply Forall_app. split; [exact Hqa|].
      apply Forall_app. split; [apply Hq1, Hneg|].
      apply Forall_app. split; [repeat constructor|].
      apply Hq2. rewrite Hsi1. exact Hneg.
    + change (-1 <? 0) with true. cbv iota.
      unfold bind, extcall_, ret.
      eexists (-1), c1, _, (la ++ l1 ++ [call_buffer_ref_put filled]), [], [filled].
      split; [reflexivity|].
      split; [cbn [calls]; rewrite Hl1, Hla, <- !app_assoc; reflexivity|].
      split; [rewrite Hsame, app_nil_r; reflexivity|].
      split; [rewrite !released_app, Hra, Hr1; reflexivity|].
      split; [intros H; discriminate H|]. split; [cbn; lia|].
      split; [exact Hsi1|].
      intros Hneg.
      apply Forall_app. split; [exact Hqa|].
      apply Forall_app. split; [apply Hq1, Hneg | repeat constructor].
Qed.

(** X4.  A connection that is not registered in the status table
    ([status_index] negative, as for control responses) never reports its
    queue while output is queued: neither [connection_queue_zerocopy] nor
    [connection_queue_output_and_flush] calls
    [status_update_client_queue]. *)
Theorem unregistered_connection_never_reports_its_queue c :
  status_index c < 0 ->
  (forall buf_ref, emits not_queue_report (connection_queue_zerocopy c buf_ref))
  /\ (forall data, emits not_queue_report (connection_queue_output_and_flush c data)).
Proof.
  intros Hneg. split.
  - intros buf_ref w.
    destruct (Z.eq_dec (data_size buf_ref) 0) as [Hz|Hnz].
    + unfold connection_queue_zerocopy. rewrite Hz. cbn.
      exists []. rewrite app_nil_r. auto.
    + destruct (queue_zerocopy_trace c buf_ref w Hnz)
        as (rc & c' & w' & l & Hrun & Hl & _ & _ & Hq & _).
      rewrite Hrun. exists l. auto.
  - intros data w.
    unfold connection_queue_output_and_flush, connection_queue_output.
    destruct data as [|b rest].
    + cbn. eexists [_]. split; [reflexivity|]. repeat constructor.
    + destruct (queue_output_loop_trace _ (b :: rest) c w (le_n _))
        as (rc & c' & w' & l & _ & _ & Hloop & Hl & _ & _ & _ & _ & _ & Hq).
      rewrite (bind_returned _ _ _ _ _ Hloop). cbn [fst snd].
      destruct (rc <? 0).
      * exists l. cbn. auto.
      * unfold connection_epoll_update_events, bind, extcall, ret. cbn [final_world calls].
        eexists (l ++ [_]). rewrite Hl, <- app_assoc. split; [reflexivity|].
        apply Forall_app. split; [auto | repeat constructor].
Qed.

(** X5.  The slow-client flag is debounced: a connection that is not
    marked slow stays unmarked by [connection_calculate_queue_limit]
    unless a candidate time is set and at least
    [CONN_QUEUE_SLOW_DEBOUNCE_MS] (3000 ms) have passed since it,
    however large the queue average is. *)
Theorem slow_flag_is_debounced c now_ms w :
  slow_active c = 0 ->
  slow_candidate_since c = 0
  \/ now_ms < slow_candidate_since c
  \/ now_ms - slow_candidate_since c < CONN_QUEUE_SLOW_DEBOUNCE_MS ->
  exists lim c',
    connection_calculate_queue_limit c now_ms w = Returned (lim, c') w
    /\ slow_active c' = 0.
Proof.
  intros Hslow Hearly.
  unfold connection_calculate_queue_limit, bind, peek, ret.
  eexists _, _. split; [apply f_equal2; [apply surjective_pairing | reflexivity]|].
  unfold calculate_queue_limit. cbv zeta. cbn [snd].
  set (ca := if fle (queue_avg_bytes c) 0 then _ else _).
  assert (Hsa : slow_active ca = 0) by (subst ca; destruct (fle _ _); exact Hslow).
  assert (Hcs : slow_candidate_since ca = slow_candidate_since c)
    by (subst ca; destruct (fle _ _); reflexivity).
  clearbody ca. rewrite <- Hcs in Hearly. clear Hcs.
  repeat match goal with
         | |- context [if ?b then ?x else _] =>
             match type of x with connection_t => destruct b eqn:? end
         end;
    cbn [slow_active set_slow_active set_slow_candidate_since]; try reflexivity;
    try exact Hsa.
  exfalso.
  repeat match goal with
         | H : _ && _ = true |- _ => apply andb_true_iff in H; destruct H
         end.
  rewrite Z.eqb_neq in *. rewrite Z.leb_le in *. lia.
Qed.

(** X6.  Whatever the connection, the pool and the number of streams,
    the limit [connection_calculate_queue_limit] returns is at least four
    pool buffers; for a bounded pool ([max_buffers > 0]) it is at most
    the larger of that floor and the pool capacity, and when the pool
    holds more than [CONN_QUEUE_MIN_BUFFERS] (64) buffers, at most the
    larger of the floor and the capacity less those 64 buffers.  The
    world is not changed. *)
Theorem queue_limit_stays_within_pool c now_ms w :
  let pool := zerocopy_state_pool X (ext w) in
  let global_cap := size_mul (max_buffers pool) BUF in
  let reserve := size_mul CONN_QUEUE_MIN_BUFFERS BUF in
  exists lim c',
    connection_calculate_queue_limit c now_ms w = Returned (lim, c') w
    /\ size_mul BUF 4 <= lim
    /\ (0 < max_buffers pool -> lim <= Z.max (size_mul BUF 4) global_cap)
    /\ (0 < max_buffers pool -> reserve < global_cap ->
        lim <= Z.max (size_mul BUF 4) (global_cap - reserve)).
Proof.
  cbv zeta.
  unfold connection_calculate_queue_limit, bind, peek, ret.
  eexists _, _. split; [apply f_equal2; [apply surjective_pairing | reflexivity]|].
  unfold calculate_queue_limit. cbv zeta. cbn [fst].
  rewrite compute_limit_capped. unfold capped_limit_bytes. cbv zeta.
  set (pool := zerocopy_state_pool X (ext w)).
  set (product := size_of_double _).
  assert (Hres : 0 <= size_mul CONN_QUEUE_MIN_BUFFERS BUF)
    by (unfold size_mul, size_wrap; apply Z.mod_pos_bound; lia).
  assert (Hcap : 0 <= size_mul (max_buffers pool) BUF < 2 ^ 64)
    by (unfold size_mul, size_wrap; apply Z.mod_pos_bound; lia).
  split; [lia|]. split.
  - intros Hmax. apply Z.ltb_lt in Hmax. rewrite Hmax.
    destruct (Z.ltb_spec (size_mul CONN_QUEUE_MIN_BUFFERS BUF) (size_mul (max_buffers pool) BUF)).
    + unfold size_sub, size_wrap. rewrite Z.mod_small by lia. lia.
    + lia.
  - intros Hmax Hlt. apply Z.ltb_lt in Hmax. rewrite Hmax.
    apply Z.ltb_lt in Hlt. rewrite Hlt. apply Z.ltb_lt in Hlt.
    unfold size_sub, size_wrap. rewrite Z.mod_small by lia. lia.
Qed.

(** X7.  [connection_queue_output] always returns, and the buffers it
    hands to [buffer_ref_put] are the buffers it appended to the queue,
    each once and in queue order, followed by at most one more: the
    buffer an enqueue did not take.  When it returns 0 there is no such
    extra buffer. *)
Theorem queue_output_releases_the_buffers_it_filled c data w :
  exists rc c' w' l bufs extra,
    connection_queue_output c data w = Returned (rc, c') w'
    /\ calls w' = calls w ++ l
    /\ items (zc_queue c') = items (zc_queue c) ++ bufs
    /\ released l = bufs ++ extra
    /\ (rc = 0 -> extra = [])
    /\ (List.length extra <= 1)%nat.
Proof.
  unfold connection_queue_output.
  destruct data as [|b rest].
  - exists 0, c, w, [], [], []. cbn [ret List.length]. rewrite !app_nil_r.
    repeat split; auto.
  - destruct (queue_output_loop_trace _ (b :: rest) c w (le_n _))
      as (rc & c' & w' & l & bufs & extra & Hloop & Hl & Hit & Hrel & Hex & Hlen & _).
    exists rc, c', w', l, bufs, extra. repeat split; auto.
Qed.

(** ** Routing *)

(** X8.  A request whose URL does not begin with '/', or that fails the
    Host-header check, is answered with a 400 and nothing else: routing
    returns 0 with the connection closing, and the error response is the
    only call made (no token check, no service lookup). *)
Theorem malformed_request_answers_400_only c w :
  String.prefix "/" (req_url (http_req c)) = false \/ hostname_rejected (http_req c) = true ->
  answered_only_with STATUS_400 c w.
Proof.
  intros H.
  unfold answered_only_with, connection_route_and_start, connection_route_resolve.
  cbv zeta.
  destruct (String.prefix "/" (req_url (http_req c))) eqn:Hp; cbn [negb].
  - destruct H as [H|H]; [discriminate|]. rewrite H. reflexivity.
  - reflexivity.
Qed.

Lemma strchr_app_first s1 s2 ch :
  strchr s1 ch = None -> strchr (s1 ++ String ch s2) ch = Some (String.length s1).
Proof.
  induction s1 as [|a s1 IH]; cbn [strchr String.append String.length]; intros H.
  - rewrite Ascii.eqb_refl. reflexivity.
  - destruct (Ascii.eqb a ch); [discriminate|].
    destruct (strchr s1 ch); [discriminate|].
    rewrite (IH eq_refl). reflexivity.
Qed.

Lemma substring_prefix_app s1 s2 :
  String.substring 0 (String.length s1) (s1 ++ s2) = s1.
Proof.
  induction s1 as [|a s1 IH]; cbn [String.append String.length String.substring].
  - destruct s2; reflexivity.
  - rewrite IH. reflexivity.
Qed.

Lemma substring_whole s n :
  (String.length s <= n)%nat -> String.substring 0 n s = s.
Proof.
  revert n. induction s as [|a s IH]; intros n Hn.
  - destruct n; reflexivity.
  - destruct n as [|n]; [cbn in Hn; lia|].
    cbn [String.substring]. rewrite IH by (cbn in Hn; lia). reflexivity.
Qed.

(** X9.  The Host check compares the header up to its first colon with
    the configured hostname, ignoring letter case: a Host header that is
    the configured name in any case, alone or followed by [:port],
    passes. *)
Theorem host_check_ignores_port_and_case req h host port :
  hostname config = Some h ->
  strcasecmp_eq host h = true ->
  strchr host ":" = None ->
  (String.length host <= 255)%nat ->
  req_hostname req = host \/ req_hostname req = (host ++ ":" ++ port)%string ->
  hostname_rejected req = false.
Proof.
  intros Hcfg Hsame Hcolon Hlen Hreq.
  unfold hostname_rejected. rewrite Hcfg.
  destruct (nonempty h) eqn:Hh; [|reflexivity].
  assert (Hhost : nonempty host = true).
  { destruct host; [|reflexivity]. destruct h; [discriminate Hh | discriminate Hsame]. }
  assert (Hstrip : host_without_port (req_hostname req) = host).
  { unfold host_without_port. destruct Hreq as [-> | ->].
    - rewrite Hcolon. apply substring_whole, Hlen.
    - change (host ++ ":" ++ port)%string with (host ++ String ":" port)%string.
      rewrite (strchr_app_first host port ":" Hcolon).
      rewrite Nat.min_l by exact Hlen. apply substring_prefix_app. }
  rewrite Hstrip, Hsame.
  destruct Hreq as [-> | ->].
  - rewrite Hhost. reflexivity.
  - destruct host; reflexivity.
Qed.

(** *** Where routing leaves the connection *)

Lemma http_send_closes st c w c' w' :
  http_send st c w = Returned c' w' ->
  state c' = CONN_CLOSING /\ calls w' = calls w ++ [call_http_send st].
Proof.
  unfold http_send, bind, extcall, ret. intros H. injection H as <- <-.
  split; reflexivity.
Qed.

Lemma lookup_service_inl c decoded_path query_start w rc c' w' :
  lookup_service c decoded_path query_start w = Returned (inl (rc, c')) w' ->
  rc = 0 /\ state c' = CONN_CLOSING.
Proof.
  unfold lookup_service, http_send_404, http_send_500. intros H.
  repeat match type of H with
         | (match ?x with _ => _ end) _ = _ => destruct x eqn:?
         | (if ?b then _ else _) _ = _ => destruct b eqn:?
         | bind (extcall _ _) _ _ = _ => unfold bind at 1 in H; cbn [extcall] in H
         | bind (http_send ?st ?c0) _ ?w0 = _ =>
             unfold bind at 1 in H;
             destruct (http_send st c0 w0) as [a w1|code w1] eqn:Hsend;
             [apply http_send_closes in Hsend | discriminate H]
         | ret _ _ = _ => unfold ret in H; try discriminate H
         end.
  all: injection H as <- <- <-; split; [reflexivity | tauto].
Qed.

Lemma route_resolve_inl c w rc c' w' :
  connection_route_resolve c w = Returned (inl (rc, c')) w' ->
  (rc = 0 /\ state c' = CONN_CLOSING)
  \/ exists l, calls w' = calls w ++ l /\ In call_status_handle_sse_init l.
Proof.
  unfold connection_route_resolve. cbv zeta. intros H.
  repeat match type of H with
         | (if ?b then _ else _) _ = _ => destruct b eqn:?
         | (match ?x with _ => _ end) _ = _ => destruct x eqn:?
         end.
  all: try (left; eapply lookup_service_inl; exact H).
  all: try match type of H with
           | bind (handle_playlist_request ?c0) _ ?w0 = _ =>
               unfold bind at 1 in H;
               destruct (handle_playlist_request c0 w0) as [a w1|code w1];
               [unfold ret in H; injection H as <- <- <-; left; split; reflexivity
               | discriminate H]
           end.
  all: try match type of H with
           | bind (extcall call_status_handle_sse_init _) _ _ = _ =>
               unfold bind, extcall, ret in H; injection H as _ <-;
               right; eexists [_]; cbn [calls]; split; [reflexivity | left; reflexivity]
           end.
  all: unfold http_send_400, http_send_401, http_send_404, http_send, bind, extcall, ret in H;
    injection H as <- <- <-; left; split; reflexivity.
Qed.

Lemma emits_stream_init_calls c srv epoll status_idx is_snapshot :
  emits stream_init_call (stream_context_init_for_worker c srv epoll status_idx is_snapshot).
Proof.
  unfold stream_context_init_for_worker, stream_join_mcast_group, fcc_session_set_state.
  cbv zeta. emits_tac.
Qed.

Lemma stream_init_calls_are_quiet l :
  Forall stream_init_call l -> services_freed l = [] /\ Forall not_stream_start l.
Proof.
  induction 1 as [|e l He _ [IH1 IH2]]; [split; constructor|].
  destruct e; try contradiction; cbn [services_freed flat_map app]; split; auto;
    constructor; auto; exact I.
Qed.

Lemma services_freed_app l1 l2 :
  services_freed (l1 ++ l2) = services_freed l1 ++ services_freed l2.
Proof. unfold services_freed. apply flat_map_app. Qed.

Lemma frees_no_service_none l : Forall frees_no_service l -> services_freed l = [].
Proof.
  induction 1 as [|e l He _ IH]; [reflexivity|].
  destruct e; try contradiction; exact IH.
Qed.

Lemma stream_init_call_frees_nothing e : stream_init_call e -> frees_no_service e.
Proof. destruct e; cbn; auto. Qed.

(** A returning [bind] ran its first part to the end. *)
Lemma bind_emits_inv {A B : Type} (P : call -> Prop) (m : M W A) (k : A -> M W B) w b w' :
  emits P m ->
  bind m k w = Returned b w' ->
  exists a w1 l,
    m w = Returned a w1 /\ calls w1 = calls w ++ l /\ Forall P l /\ k a w1 = Returned b w'.
Proof.
  intros Hm H. unfold bind in H.
  destruct (Hm w) as (l & Hl & HP).
  destruct (m w) as [a w1|code w1]; [|discriminate H].
  exists a, w1, l. auto.
Qed.

(** The media branch, outcome by outcome. *)
Lemma route_media_outcome c rs w rc c' w' :
  connection_route_media c rs w = Returned (rc, c') w' ->
  exists l srv,
    calls w' = calls w ++ l
    /\ (srv = rs_service rs
        \/ srv = set_user_agent (Some (req_user_agent (http_req c))) (rs_service rs))
    /\ ((rc = 0 /\ state c' = CONN_STREAMING /\ streaming c' = 1
         /\ buffer_class c' = CONNECTION_BUFFER_MEDIA
         /\ service c' = Some srv /\ service_owned c' = rs_owned rs
         /\ services_freed l = [])
        \/ ((rc = 0 \/ rc = -1) /\ state c' = CONN_CLOSING
            /\ services_freed l = if Zbool (rs_owned rs) then [srv] else [])).
Proof.
  unfold connection_route_media. cbv zeta. intros H.
  destruct (strcasecmp_eq (method (http_req c)) "HEAD").
  - exists (skipn (List.length (calls w)) (calls w')), (rs_service rs).
    unfold bind, extcall, connection_epoll_update_events, service_free_if, extcall_, ret in H.
    destruct (Zbool (rs_owned rs)); injection H as <- <- <-; cbn [calls ext fst snd];
      rewrite <- !app_assoc, skipn_app, skipn_all, Nat.sub_diag; cbn [skipn app];
      (split; [reflexivity|]); (split; [left; reflexivity|]);
      right; (split; [left; reflexivity|]); split; reflexivity.
  - set (srv := if Zbool (rs_owned rs) && nonempty (req_user_agent (http_req c))
                then _ else _) in H.
    assert (Hsrv : srv = rs_service rs
                   \/ srv = set_user_agent (Some (req_user_agent (http_req c))) (rs_service rs))
      by (subst srv; destruct (_ && _); auto).
    clearbody srv.
    unfold bind at 1 in H. cbn [peek] in H.
    match type of H with (if ?b then _ else _) _ = _ => destruct b end.
    + exists (skipn (List.length (calls w)) (calls w')), srv.
      unfold http_send_503, http_send, bind, extcall, service_free_if, extcall_, ret in H.
      destruct (Zbool (rs_owned rs)); injection H as <- <- <-; cbn [calls ext fst snd];
        rewrite <- ?app_assoc, skipn_app, skipn_all, Nat.sub_diag; cbn [skipn app];
        (split; [reflexivity|]); (split; [exact Hsrv|]);
        right; (split; [left; reflexivity|]); split; reflexivity.
    + apply (bind_emits_inv frees_no_service) in H; [|emits_tac].
      destruct H as (c0 & w1 & l1 & _ & Hl1 & Hq1 & H). cbv beta in H.
      apply (bind_emits_inv frees_no_service) in H; [|emits_tac].
      destruct H as (c1 & w2 & l2 & _ & Hl2 & Hq2 & H). cbv beta in H.
      apply (bind_emits_inv frees_no_service) in H;
        [|eapply emits_weaken; [apply stream_init_call_frees_nothing
                               | apply emits_stream_init_calls]].
      destruct H as (r & w3 & l3 & _ & Hl3 & Hq3 & H). cbv beta zeta in H.
      apply frees_no_service_none in Hq1, Hq2, Hq3.
      destruct (fst r =? 0).
      * apply (bind_emits_inv frees_no_service) in H; [|emits_tac].
        destruct H as (c2 & w4 & l4 & Hc2 & Hl4 & Hq4 & H).
        apply frees_no_service_none in Hq4.
        unfold ret in H. injection H as <- <- <-.
        exists (l1 ++ l2 ++ l3 ++ l4), srv.
        split; [rewrite Hl4, Hl3, Hl2, Hl1, <- !app_assoc; reflexivity|].
        split; [exact Hsrv|]. left.
        rewrite !services_freed_app, Hq1, Hq2, Hq3, Hq4.
        repeat split; reflexivity.
      * unfold service_free_if, bind, extcall_, ret in H.
        exists (skipn (List.length (calls w)) (calls w')), srv.
        destruct (Zbool (rs_owned rs)); injection H as <- <- <-; cbn [calls];
          rewrite Hl3, Hl2, Hl1, <- !app_assoc, skipn_app, skipn_all, Nat.sub_diag;
          cbn [skipn app];
          (split; [reflexivity|]); (split; [exact Hsrv|]); right;
          rewrite !services_freed_app, Hq1, Hq2, Hq3; cbn [app];
          repeat split; auto; rewrite ?app_nil_r; auto.
Qed.

(** Where [connection_route_and_start] leaves the connection. *)
Lemma route_and_start_outcome c w rc c' w' :
  connection_route_and_start c w = Returned (rc, c') w' ->
  (rc = 0 /\ state c' = CONN_STREAMING /\ streaming c' = 1
   /\ buffer_class c' = CONNECTION_BUFFER_MEDIA /\ service c' <> None)
  \/ ((rc = 0 \/ rc = -1) /\ state c' = CONN_CLOSING)
  \/ (exists l, calls w' = calls w ++ l /\ In call_status_handle_sse_init l).
Proof.
  unfold connection_route_and_start. intros H. unfold bind in H.
  destruct (connection_route_resolve c w) as [[[rc0 c0] | rs] w1 | code w1] eqn:Hres;
    [| |discriminate H].
  - unfold ret in H. injection H as <- <- <-.
    apply route_resolve_inl in Hres.
    destruct Hres as [[-> Hst] | Hsse]; [right; left; auto | right; right; exact Hsse].
  - apply route_media_outcome in H.
    destruct H as (l & srv & _ & _ & [(-> & Hst & Hstr & Hbc & Hsv & _) | (Hrc & Hst & _)]).
    + left. repeat split; auto. rewrite Hsv. discriminate.
    + right. left. auto.
Qed.

(** X10.  Whenever [connection_route_and_start] returns, the connection
    is either streaming (return value 0, [CONN_STREAMING], [streaming]
    set, media buffer class, a service attached) or closing (return
    value 0 or -1, [CONN_CLOSING]), unless the request was handed to
    [status_handle_sse_init].  No request leaves the connection in a
    reading or routing state. *)
Theorem routing_ends_streaming_or_closing c w rc c' w' :
  connection_route_and_start c w = Returned (rc, c') w' ->
  (rc = 0 /\ state c' = CONN_STREAMING /\ streaming c' = 1
   /\ buffer_class c' = CONNECTION_BUFFER_MEDIA /\ service c' <> None)
  \/ ((rc = 0 \/ rc = -1) /\ state c' = CONN_CLOSING)
  \/ (exists l, calls w' = calls w ++ l /\ In call_status_handle_sse_init l).
Proof. exact (route_and_start_outcome c w rc c' w'). Qed.

(** X11.  The service object that routing resolved for a request is
    owned by exactly one party afterwards.  If the connection ends up
    streaming, the service (with the request's User-Agent copied in when
    there is one) is attached to it with [service_owned = 1] and
    [service_free] is not called; on every other return (HEAD, 503,
    failed stream start) [service_free] is called exactly once, on that
    service, and the connection is closing. *)
Theorem resolved_service_is_kept_or_freed_once c w rs w1 rc c' w' :
  connection_route_resolve c w = Returned (inr rs) w1 ->
  connection_route_and_start c w = Returned (rc, c') w' ->
  exists l srv,
    calls w' = calls w1 ++ l
    /\ (srv = rs_service rs
        \/ srv = set_user_agent (Some (req_user_agent (http_req c))) (rs_service rs))
    /\ ((state c' = CONN_STREAMING /\ service c' = Some srv /\ service_owned c' = 1
         /\ services_freed l = [])
        \/ (state c' = CONN_CLOSING /\ services_freed l = [srv])).
Proof.
  intros Hres H.
  unfold connection_route_and_start in H. rewrite (bind_returned _ _ _ _ _ Hres) in H.
  destruct (route_resolve_inr _ _ _ _ Hres) as (_ & _ & dp & qs & Hlook).
  destruct (lookup_service_inr _ _ _ _ _ _ Hlook) as [Hown _].
  apply route_media_outcome in H.
  destruct H as (l & srv & Hl & Hsrv & Hcase).
  exists l, srv. split; [exact Hl|]. split; [exact Hsrv|].
  rewrite Hown in Hcase. change (Zbool 1) with true in Hcase.
  destruct Hcase as [(_ & Hst & _ & _ & Hsv & Ho & Hfree) | (_ & Hst & Hfree)]; auto.
Qed.

(** X12.  For a request that resolves to a service, is not a HEAD
    request and is detected as a snapshot request, routing from the
    service lookup on sends no response headers and does not register a
    stream client, on every path. *)
Theorem snapshot_request_is_started_without_headers c w rs w1 :
  connection_route_resolve c w = Returned (inr rs) w1 ->
  strcasecmp_eq (method (http_req c)) "HEAD" = false ->
  detect_snapshot_request (http_req c) (rs_query_start rs) <> 0 ->
  exists l,
    calls (final_world (connection_route_and_start c w)) = calls w1 ++ l
    /\ Forall not_stream_start l.
Proof.
  intros Hres Hhead Hsnap.
  unfold connection_route_and_start. rewrite (bind_returned _ _ _ _ _ Hres).
  assert (Hz : negb (Zbool (detect_snapshot_request (http_req c) (rs_query_start rs)))
               = false).
  { unfold Zbool. apply Z.eqb_neq in Hsnap. rewrite Hsnap. reflexivity. }
  assert (Hem : emits not_stream_start (connection_route_media c rs)).
  { unfold connection_route_media. cbv zeta. rewrite Hhead, Hz. cbn [andb].
    apply emits_bind; [apply emits_peek | intros total].
    match goal with |- emits _ (if ?b then _ else _) => destruct b end.
    - unfold http_send_503, http_send, service_free_if. emits_tac.
    - apply emits_bind; [emits_tac | intros c0].
      apply emits_bind; [apply emits_ret | intros c1].
      apply emits_bind.
      + eapply emits_weaken; [|apply emits_stream_init_calls].
        intros e He. destruct e; try contradiction; exact I.
      + intros r. destruct (fst r =? 0); unfold service_free_if; emits_tac. }
  apply Hem.
Qed.

(** * Further properties of stream.c *)

(** ** Socket events *)

(** X13.  On the FCC socket, a receive that fails (other than with
    [EAGAIN]) and a datagram whose source address is not the FCC
    server's are both dropped: the buffer is released, no FCC handler is
    called, the connection is unchanged (the FCC data timer is not
    refreshed) and 0 is returned. *)
Theorem fcc_datagram_from_other_source_is_dropped c sock events now w b x1 :
  is_fcc_event c sock = true ->
  buffer_pool_alloc X (ext w) = (Some b, x1) ->
  let rx := fst (sys_recvfrom X (fcc_sock (fcc (stream c))) BUF x1) in
  let x2 := snd (sys_recvfrom X (fcc_sock (fcc (stream c))) BUF x1) in
  (actualr rx < 0 /\ errno_is_EAGAIN rx = false)
  \/ sin_addr (peer_addr rx) <> sin_addr (fcc_server (fcc (stream c))) ->
  let recv_buf := set_data (memcpy_into (data b) (rx_bytes rx)) b in
  stream_handle_fd_event c sock events now w
  = Returned (0, c)
      (mk_world (buffer_ref_put X recv_buf x2)
         (calls w ++ [call_buffer_pool_alloc;
                      call_recvfrom (fcc_sock (fcc (stream c))) BUF;
                      call_buffer_ref_put recv_buf])).
Proof.
  intros Hev Halloc rx x2 Hbad recv_buf.
  unfold stream_handle_fd_event. cbv zeta.
  fold (is_fcc_event c sock). rewrite Hev.
  unfold bind at 1. cbn [extcall fst snd ext calls]. rewrite Halloc. cbn [fst snd].
  unfold bind at 1. cbn [extcall fst snd ext calls].
  fold rx. fold x2. fold recv_buf.
  destruct Hbad as [[Hneg Herr] | Haddr].
  - apply Z.ltb_lt in Hneg. rewrite Hneg, Herr. cbn [negb andb].
    unfold buffer_put, bind, extcall_, ret. cbn [ext calls].
    rewrite <- !app_assoc. reflexivity.
  - apply Z.eqb_neq in Haddr. rewrite Haddr. cbn [negb].
    destruct ((actualr rx <? 0) && negb (errno_is_EAGAIN rx));
      unfold buffer_put, bind, extcall_, ret; cbn [ext calls];
      rewrite <- !app_assoc; reflexivity.
Qed.

(** X14.  Once [stream_handle_fd_event] has obtained a buffer for an
    event on the FCC or the multicast socket, it always returns, and
    among the calls it makes exactly one is [buffer_ref_put], on that
    buffer (with the received bytes and size stored in it); it is the
    last call, after any handler has run. *)
Theorem receive_buffer_is_released_exactly_once c sock events now w b x1 :
  is_fcc_event c sock = true \/ is_mcast_event c sock = true ->
  buffer_pool_alloc X (ext w) = (Some b, x1) ->
  exists rc c' w' l d n,
    let recv_buf := {| data := d; data_offset := data_offset b; data_size := n |} in
    stream_handle_fd_event c sock events now w = Returned (rc, c') w'
    /\ calls w' = calls w ++ l
    /\ released l = [recv_buf]
    /\ last l call_get_time_ms = call_buffer_ref_put recv_buf.
Proof.
  intros Hev Halloc. cbv zeta.
  unfold stream_handle_fd_event. cbv zeta.
  fold (is_fcc_event c sock). fold (is_mcast_event c sock).
  destruct (is_fcc_event c sock).
  - unfold bind, extcall, buffer_put, extcall_, ret. cbn [fst snd ext calls].
    rewrite Halloc. cbn [fst snd].
    repeat match goal with
           | |- context [if ?b then _ else _] => destruct b
           end;
      eexists _, _, _, _, _, _;
      (split; [first [reflexivity
                     | apply f_equal2; [apply surjective_pairing | reflexivity]]|]);
      cbn [calls]; rewrite <- !app_assoc;
      (split; [reflexivity|]); split; reflexivity.
  - destruct Hev as [Hev|Hev]; [discriminate|]. rewrite Hev.
    unfold bind, extcall, buffer_put, extcall_, ret. cbn [fst snd ext calls].
    rewrite Halloc. cbn [fst snd].
    repeat match goal with
           | |- context [if ?b then _ else _] => destruct b
           end;
      try destruct (fcc_state (fcc (stream c)));
      eexists _, _, _, _, _, _;
      (split; [first [reflexivity
                     | apply f_equal2; [apply surjective_pairing | reflexivity]]|]);
      cbn [calls]; rewrite <- !app_assoc;
      (split; [reflexivity|]); split; reflexivity.
Qed.


(** X16.  An event for a descriptor that is none of the stream's open
    sockets (a socket counts as open when its descriptor is positive) is
    ignored: no call is made, nothing changes, 0 is returned. *)
Theorem event_on_foreign_descriptor_is_ignored c sock events now w :
  (forall s,
      In s [fcc_sock (fcc (stream c)); mcast_sock (stream c); rtsp_socket (rtsp (stream c));
            rtp_socket (rtsp (stream c)); rtcp_socket (rtsp (stream c))] ->
      s <= 0 \/ sock <> s) ->
  stream_handle_fd_event c sock events now w = Returned (0, c) w.
Proof.
  intros Hall.
  assert (Hno : forall s,
             In s [fcc_sock (fcc (stream c)); mcast_sock (stream c);
                   rtsp_socket (rtsp (stream c)); rtp_socket (rtsp (stream c));
                   rtcp_socket (rtsp (stream c))] ->
             (0 <? s) && (sock =? s) = false).
  { intros s Hs. destruct (Hall s Hs) as [Hle | Hne].
    - apply Z.ltb_ge in Hle. rewrite Hle. reflexivity.
    - apply Z.eqb_neq in Hne. rewrite Hne. apply andb_false_r. }
  unfold stream_handle_fd_event. cbv zeta.
  rewrite !Hno by (cbn [In]; auto 10). reflexivity.
Qed.

(** ** Ticks and stream start *)

(** X17.  When a multicast socket is open and no multicast data has
    arrived for [MCAST_TIMEOUT_SEC] seconds, [stream_tick] returns -1.
    Before that it may rejoin the group, which only moves
    [last_mcast_rejoin_time]; the FCC, RTSP, reorder, snapshot and
    bandwidth steps of the tick are not run. *)
Theorem multicast_timeout_ends_tick c now w :
  0 < mcast_sock (stream c) ->
  MCAST_TIMEOUT_SEC K * 1000 <= now - last_mcast_data_time (stream c) ->
  exists c' w' l,
    stream_tick c now w = Returned (-1, c') w'
    /\ (c' = c \/ c' = upd_stream (set_last_mcast_rejoin_time now) c)
    /\ calls w' = calls w ++ l
    /\ (l = [] \/ l = [call_rejoin_mcast_group (mcast_sock (stream c))]).
Proof.
  intros Hsock Hold.
  assert (Hto : forall c1, c1 = c \/ c1 = upd_stream (set_last_mcast_rejoin_time now) c ->
                           tick_mcast_timed_out c1 now = true).
  { intros c1 [-> | ->]; unfold tick_mcast_timed_out; cbv zeta;
      cbn [stream upd_stream set_stream mcast_sock last_mcast_data_time
           set_last_mcast_rejoin_time];
      apply andb_true_iff; (split; [apply Z.ltb_lt | apply Z.leb_le]); assumption. }
  unfold stream_tick, tick_mcast_rejoin. cbv zeta.
  destruct ((0 <? mcast_rejoin_interval config) && (0 <? mcast_sock (stream c))).
  - destruct (mcast_rejoin_interval config * 1000 <=? now - last_mcast_rejoin_time (stream c)).
    + unfold bind at 1. unfold bind at 1. cbn [extcall fst snd].
      destruct (fst (rejoin_mcast_group X _ _ _) =? 0); cbn [ret].
      * rewrite Hto by auto. eexists _, _, [_]. cbn [ret calls]. repeat split; auto.
      * rewrite Hto by auto. eexists _, _, [_]. cbn [ret calls]. repeat split; auto.
    + unfold bind at 1. cbn [ret]. rewrite Hto by auto.
      eexists _, _, []. cbn [ret]. rewrite app_nil_r. repeat split; auto.
  - unfold bind at 1. cbn [ret]. rewrite Hto by auto.
    eexists _, _, []. cbn [ret]. rewrite app_nil_r. repeat split; auto.
Qed.

(** X18.  Let the FCC session be in [UNICAST_ACTIVE] or
    [MCAST_REQUESTED], with a multicast socket already open, and let the
    tick reach the FCC timeout block with the time since the last FCC
    data at or past the unicast timeout.  Then the tick sets the FCC
    state to [MCAST_ACTIVE] and goes on with the rest of its steps from
    there: the multicast group is not joined a second time, the
    sync-notification timeout is not evaluated in this tick, and the tick
    returns 0. *)
Theorem fcc_unicast_stall_falls_back_without_rejoining c now w :
  fcc_state (fcc (stream c)) = FCC_STATE_UNICAST_ACTIVE
  \/ fcc_state (fcc (stream c)) = FCC_STATE_MCAST_REQUESTED ->
  tick_reaches_fcc_block c now ->
  int_of_double (FCC_TIMEOUT_UNICAST_SEC K * 1000)%float <= now - last_fcc_data_time (stream c) ->
  mcast_sock (stream c) <> 0 ->
  exists c1 w1,
    tick_mcast_rejoin c now w = Returned c1 w1
    /\ let c2 := upd_fcc (set_fcc_state FCC_STATE_MCAST_ACTIVE) c1 in
       let w2 := world_after_set_state FCC_STATE_MCAST_ACTIVE "Unicast interrupted" w1 in
       mcast_sock (stream c2) = mcast_sock (stream c)
       /\ exists c' w',
            stream_tick c now w = Returned (0, c') w'
            /\ stream_tick_rest c2 now w2 = Returned (0, c') w'.
Proof.
  intros Hstate [Hsock Halive] Htimeout Hmc.
  destruct (tick_mcast_rejoin_frame c now w) as (c1 & w1 & Hrejoin & Hc1).
  assert (Hfcc : fcc (stream c1) = fcc (stream c)) by (destruct Hc1; subst; reflexivity).
  assert (Hms : mcast_sock (stream c1) = mcast_sock (stream c))
    by (destruct Hc1; subst; reflexivity).
  assert (Hlast : last_fcc_data_time (stream c1) = last_fcc_data_time (stream c))
    by (destruct Hc1; subst; reflexivity).
  assert (Halive1 : tick_mcast_timed_out c1 now = false)
    by (destruct Hc1; subst; exact Halive).
  exists c1, w1. split; [exact Hrejoin|]. cbv zeta.
  split; [exact Hms|].
  destruct (stream_tick_rest_returns_0
              (upd_fcc (set_fcc_state FCC_STATE_MCAST_ACTIVE) c1) now
              (world_after_set_state FCC_STATE_MCAST_ACTIVE "Unicast interrupted" w1))
    as (c' & w' & Hrest).
  exists c', w'. split; [|exact Hrest].
  unfold stream_tick. rewrite (bind_returned _ _ _ _ _ Hrejoin), Halive1.
  assert (Hfccstep :
            tick_fcc_timeouts c1 now w1
            = Returned (upd_fcc (set_fcc_state FCC_STATE_MCAST_ACTIVE) c1)
                (world_after_set_state FCC_STATE_MCAST_ACTIVE "Unicast interrupted" w1)).
  { unfold tick_fcc_timeouts. cbv zeta. rewrite Hfcc, Hlast.
    apply Z.ltb_lt in Hsock. rewrite Hsock.
    apply Z.leb_le in Htimeout.
    assert (Hnz : negb (Zbool (mcast_sock
                                 (stream (upd_fcc (set_fcc_state FCC_STATE_MCAST_ACTIVE) c1))))
                  = false).
    { cbn [upd_fcc upd_stream stream set_stream mcast_sock set_fcc].
      rewrite Hms. unfold Zbool. apply Z.eqb_neq in Hmc. rewrite Hmc. reflexivity. }
    destruct Hstate as [Hst | Hst]; rewrite Hst, Htimeout;
      unfold fcc_session_set_state, bind, extcall_, ret; cbn [ext calls];
      rewrite Hnz; reflexivity. }
  rewrite (bind_returned _ _ _ _ _ Hfccstep). exact Hrest.
Qed.



(** * Life cycle and socket I/O *)

Lemma io_bind_returned {A B : Type} (m : IO W A) (k : A -> IO W B) w a w' :
  m w = io_Returned a w' -> io_bind m k w = k a w'.
Proof. intros H. unfold io_bind. rewrite H. reflexivity. Qed.

Lemma lift_returned {A : Type} (m : M W A) w a w1 :
  m (mk_world (io_ext w) []) = Returned a w1 ->
  lift m w = io_Returned a (mk_io_world (ext w1) (trace w ++ map inl (calls w1))).
Proof. intros H. unfold lift. rewrite H. reflexivity. Qed.

Lemma base_calls_app t1 t2 : base_calls (t1 ++ t2) = base_calls t1 ++ base_calls t2.
Proof. unfold base_calls. apply flat_map_app. Qed.

Lemma base_calls_inl l : base_calls (map inl l) = l.
Proof. induction l as [|e l IH]; [reflexivity|]. cbn. f_equal. exact IH. Qed.

Lemma base_calls_inr l : base_calls (map inr l) = [].
Proof. induction l as [|e l IH]; [reflexivity|]. exact IH. Qed.

(** [connection_report_queue] seen from the trace: nothing, or the one
    report. *)
Lemma lift_report_queue c w :
  exists x l,
    lift (connection_report_queue c) w = io_Returned tt (mk_io_world x (trace w ++ map inl l))
    /\ (l = [] \/ exists e, l = [e] /\ ~ not_queue_report e).
Proof.
  unfold lift, connection_report_queue.
  destruct (status_index c <? 0).
  - eexists _, []. cbn. split; [reflexivity | left; reflexivity].
  - cbv zeta. eexists _, [_]. cbn. split; [reflexivity|].
    right. eexists. split; [reflexivity|]. intros H. exact H.
Qed.

(** ** File descriptors *)

(** X21.  [connection_set_nonblocking] reads the descriptor's flags and
    writes them back with [O_NONBLOCK] added: every flag that was set
    stays set, and so are the bits of [O_NONBLOCK].  When reading the
    flags fails it returns -1 without writing any. *)
Theorem set_nonblocking_keeps_the_other_flags sock w :
  let flags := fst (fcntl_getfl Y sock (io_ext w)) in
  let x1 := snd (fcntl_getfl Y sock (io_ext w)) in
  if flags <? 0 then
    connection_set_nonblocking sock w
    = io_Returned (-1) (mk_io_world x1 (trace w ++ [inr (call_fcntl_getfl sock)]))
  else
    exists newflags,
      connection_set_nonblocking sock w
      = io_Returned (fst (fcntl_setfl Y sock newflags x1))
          (mk_io_world (snd (fcntl_setfl Y sock newflags x1))
             (trace w ++ [inr (call_fcntl_getfl sock); inr (call_fcntl_setfl sock newflags)]))
      /\ (forall i, Z.testbit flags i = true -> Z.testbit newflags i = true)
      /\ (forall i, Z.testbit (O_NONBLOCK KIO) i = true -> Z.testbit newflags i = true).
Proof.
  cbv zeta. unfold connection_set_nonblocking, io_bind, io_extcall, io_ret.
  cbn [fst snd io_ext trace].
  destruct (fst (fcntl_getfl Y sock (io_ext w)) <? 0).
  - reflexivity.
  - eexists. cbn [fst snd io_ext trace]. split; [rewrite <- app_assoc; reflexivity|].
    split; intros i Hi; rewrite Z.lor_spec, Hi; [reflexivity | apply orb_true_r].
Qed.

(** ** Cleanup *)

Lemma release_reorder_slots_trace : forall n slots w,
  exists x,
    release_reorder_slots n slots w
    = Returned (repeat None (Nat.min n (List.length slots)) ++ skipn n slots)
        (mk_world x (calls w ++ map call_buffer_ref_put (held_buffers (firstn n slots)))).
Proof.
  induction n as [|n IH]; intros slots w.
  - exists (ext w). cbn. rewrite app_nil_r. destruct w; reflexivity.
  - destruct slots as [|[b|] rest].
    + exists (ext w). cbn. rewrite app_nil_r. destruct w; reflexivity.
    + cbn [release_reorder_slots]. unfold bind at 1, buffer_put, extcall_.
      destruct (IH rest (mk_world (buffer_ref_put X b (ext w))
                           (calls w ++ [call_buffer_ref_put b]))) as [x Hx].
      rewrite (bind_returned _ _ _ _ _ Hx). exists x. cbn [ret calls].
      cbn [List.length Nat.min repeat skipn firstn held_buffers flat_map app map].
      rewrite <- app_assoc. reflexivity.
    + cbn [release_reorder_slots].
      destruct (IH rest w) as [x Hx].
      rewrite (bind_returned _ _ _ _ _ Hx). exists x. reflexivity.
Qed.

Lemma stream_context_cleanup_trace c w :
  let held :=
    held_buffers (firstn (Z.to_nat (RTP_REORDER_BUFFER_SIZE K)) (reorder_slots (stream c))) in
  exists rc c' w' l,
    stream_context_cleanup c w = io_Returned (rc, c') w'
    /\ trace w' = trace w ++ map (fun b => inl (call_buffer_ref_put b)) held ++ map inr l
    /\ mcast_sock (stream c') = 0
    /\ ((rc = 0 /\ ctx_service (stream c') = None) \/ rc = 1).
Proof.
  cbv zeta. unfold stream_context_cleanup. cbv zeta.
  destruct (release_reorder_slots_trace (Z.to_nat (RTP_REORDER_BUFFER_SIZE K))
              (reorder_slots (stream c)) (mk_world (io_ext w) [])) as [x Hx].
  rewrite (io_bind_returned _ _ _ _ _ (lift_returned _ _ _ _ Hx)).
  cbn [ext calls app]. rewrite map_map.
  set (held := held_buffers _).
  set (c1 := upd_stream _ c).
  unfold io_bind, io_extcall, io_extcall_, io_ret. cbn [fst snd io_ext trace].
  destruct (Zbool (enabled (snapshot (stream c1)))); cbn [fst snd io_ext trace];
    match goal with
    | |- context [if Zbool (mcast_sock (stream ?cc)) then _ else _] =>
        destruct (Zbool (mcast_sock (stream cc))) eqn:Hms
    end; cbn [fst snd io_ext trace];
    match goal with
    | |- context [if Zbool ?r then _ else _] => destruct (Zbool r)
    end;
    first [ eexists _, _, _, [_; _; _; _]; split; [reflexivity|];
            split; [cbn [trace map]; rewrite <- !app_assoc; reflexivity|]
          | eexists _, _, _, [_; _; _]; split; [reflexivity|];
            split; [cbn [trace map]; rewrite <- !app_assoc; reflexivity|]
          | eexists _, _, _, [_; _]; split; [reflexivity|];
            split; [cbn [trace map]; rewrite <- !app_assoc; reflexivity|] ];
    cbn [mcast_sock ctx_service stream upd_stream set_stream set_ctx_service set_mcast_sock];
    (split;
     [first [reflexivity
            | unfold Zbool in Hms; apply negb_false_iff, Z.eqb_eq in Hms; exact Hms]|]);
    first [right; reflexivity | left; split; reflexivity].
Qed.



Lemma connection_free_trace c w :
  exists c2 t x',
    connection_free c w
    = io_Returned tt
        (mk_io_world x'
           (trace w
            ++ (if Zbool (stream_registered c)
                then [inr call_zerocopy_unregister_stream_client] else [])
            ++ t
            ++ [inr call_zerocopy_queue_cleanup; inr call_buffer_pool_try_shrink]
            ++ final_releases c2))
    /\ (streaming c = 0 ->
        t = [] /\ service c2 = service c /\ service_owned c2 = service_owned c
        /\ status_index c2 = status_index c /\ fd c2 = fd c).
Proof.
  unfold connection_free.
  assert (Hstage1 :
            exists c1 x1,
              (if Zbool (stream_registered c)
               then io_bind (io_extcall_ call_zerocopy_unregister_stream_client
                               (zerocopy_unregister_stream_client Y))
                      (fun _ => io_ret (set_stream_registered 0 c))
               else io_ret c) w
              = io_Returned c1
                  (mk_io_world x1
                     (trace w ++ (if Zbool (stream_registered c)
                                  then [inr call_zerocopy_unregister_stream_client]
                                  else [])))
              /\ streaming c1 = streaming c /\ service c1 = service c
              /\ service_owned c1 = service_owned c /\ status_index c1 = status_index c
              /\ fd c1 = fd c).
  { destruct (Zbool (stream_registered c)).
    - eexists _, _. split; [reflexivity|]. repeat split.
    - exists c, (io_ext w). rewrite app_nil_r. destruct w. repeat split. }
  destruct Hstage1 as (c1 & x1 & H1 & Hs1 & Hsv1 & Hso1 & Hsi1 & Hfd1).
  rewrite (io_bind_returned _ _ _ _ _ H1).
  set (w1 := mk_io_world x1 _).
  assert (Hstage2 :
            exists c2 w2 t,
              (if Zbool (streaming c1)
               then io_bind (stream_context_cleanup c1) (fun r => io_ret (snd r))
               else io_ret c1) w1 = io_Returned c2 w2
              /\ trace w2 = trace w1 ++ t
              /\ (streaming c = 0 -> t = [] /\ c2 = c1)).
  { rewrite Hs1. destruct (Z.eq_dec (streaming c) 0) as [Hz|Hnz].
    - rewrite Hz. change (Zbool 0) with false. cbv iota.
      exists c1, w1, []. rewrite app_nil_r. repeat split.
    - destruct (Zbool (streaming c)).
      + destruct (stream_context_cleanup_trace c1 w1) as (rc & c2 & w2 & l & Hrun & Htr & _).
        rewrite (io_bind_returned _ _ _ _ _ Hrun). cbn [io_ret snd].
        eexists _, _, _. split; [reflexivity|]. split; [exact Htr|].
        intros Hz. contradiction.
      + exists c1, w1, []. rewrite app_nil_r. split; [reflexivity|]. split; [reflexivity|].
        intros Hz. contradiction. }
  destruct Hstage2 as (c2 & w2 & t & H2 & Ht & Hidle).
  rewrite (io_bind_returned _ _ _ _ _ H2).
  exists c2, t.
  unfold io_bind, io_extcall, io_extcall_, io_ret, lift, extcall_, final_releases.
  cbn [fst snd io_ext trace ext calls service_owned service status_index fd
       set_zc_queue set_service map app].
  destruct (Zbool (service_owned c2)); [destruct (service c2) eqn:Hsvc|];
    cbn [fst snd io_ext trace ext calls service_owned service status_index fd
         set_zc_queue set_service map app];
    destruct (0 <=? status_index c2);
    cbn [fst snd io_ext trace ext calls service_owned service status_index fd
         set_zc_queue set_service map app];
    destruct (0 <=? fd c2);
    cbn [fst snd io_ext trace ext calls service_owned service status_index fd
         set_zc_queue set_service map app];
    eexists; (split;
              [rewrite Ht; subst w1; cbn [trace]; rewrite <- ?app_assoc; cbn [app];
               rewrite ?app_nil_r; reflexivity|]);
    intros Hz; destruct (Hidle Hz) as [-> ->]; repeat split; congruence.
Qed.

(** X23.  Freeing a connection that is not streaming makes these calls
    and no others, in this order: [zerocopy_unregister_stream_client]
    if the connection was registered as a stream client, then
    [zerocopy_queue_cleanup] and [buffer_pool_try_shrink], then
    [service_free] if the connection owns a service, then
    [status_unregister_client] if it has a status slot
    ([status_index >= 0]), and last [close] if its descriptor is not
    negative. *)
Theorem connection_free_releases_in_order c w :
  streaming c = 0 ->
  exists x',
    connection_free c w
    = io_Returned tt
        (mk_io_world x'
           (trace w
            ++ (if Zbool (stream_registered c)
                then [inr call_zerocopy_unregister_stream_client] else [])
            ++ [inr call_zerocopy_queue_cleanup; inr call_buffer_pool_try_shrink]
            ++ (if Zbool (service_owned c)
                then match service c with
                     | Some s => [inl (call_service_free s)]
                     | None => []
                     end
                else [])
            ++ (if 0 <=? status_index c
                then [inr (call_status_unregister_client (status_index c))] else [])
            ++ (if 0 <=? fd c then [inl (call_close (fd c))] else []))).
Proof.
  intros Hidle.
  destruct (connection_free_trace c w) as (c2 & t & x' & Hrun & Hframe).
  destruct (Hframe Hidle) as (-> & Hsv & Hso & Hsi & Hfd).
  exists x'. rewrite Hrun. unfold final_releases. rewrite Hsv, Hso, Hsi, Hfd. reflexivity.
Qed.

(** What [connection_create] hands out. *)
Lemma connection_create_fields sock ep client_addr addr_len w c io w1 :
  connection_create sock ep client_addr addr_len w = io_Returned (Some (c, io)) w1 ->
  fd c = sock /\ epfd c = ep /\ state c = CONN_READ_REQ_LINE /\ status_index c = -1
  /\ buffer_class c = CONNECTION_BUFFER_CONTROL /\ streaming c = 0
  /\ stream_registered c = 0 /\ service c = None /\ service_owned c = 0
  /\ in_len io = 0.
Proof.
  unfold connection_create, io_bind, io_extcall, io_peek, io_ret. cbv zeta.
  cbn [fst snd io_ext trace].
  destruct (fst (calloc Y (io_ext w))); cbn [negb]; [|discriminate].
  destruct (Zbool _); [destruct (_ =? 0)|];
    intros H; injection H as <- <- _; repeat split.
Qed.

(** X24.  A connection that [connection_create] has just returned has
    the given descriptor, is in [CONN_READ_REQ_LINE], has no status slot
    ([status_index = -1]), the control buffer class and an empty input
    buffer; freeing it at once cleans its queue, tries to shrink the
    pool and closes the descriptor (when it is not negative), and
    neither unregisters a stream client or a status slot nor frees a
    service. *)
Theorem fresh_connection_is_freed_without_unregistering
    sock ep client_addr addr_len w c io w1 :
  connection_create sock ep client_addr addr_len w = io_Returned (Some (c, io)) w1 ->
  fd c = sock /\ state c = CONN_READ_REQ_LINE /\ status_index c = -1
  /\ buffer_class c = CONNECTION_BUFFER_CONTROL /\ in_len io = 0
  /\ exists x2,
       connection_free c w1
       = io_Returned tt
           (mk_io_world x2
              (trace w1
               ++ [inr call_zerocopy_queue_cleanup; inr call_buffer_pool_try_shrink]
               ++ (if 0 <=? sock then [inl (call_close sock)] else []))).
Proof.
  intros Hnew.
  destruct (connection_create_fields _ _ _ _ _ _ _ _ Hnew)
    as (Hfd & _ & Hst & Hsi & Hbc & Hstr & Hreg & Hsv & Hso & Hin).
  repeat (split; [assumption|]).
  destruct (connection_free_trace c w1) as (c2 & t & x' & Hrun & Hframe).
  destruct (Hframe Hstr) as (-> & Hsv2 & Hso2 & Hsi2 & Hfd2).
  exists x'. rewrite Hrun. unfold final_releases.
  rewrite Hsv2, Hso2, Hsi2, Hfd2, Hreg, Hso, Hsi, Hfd. reflexivity.
Qed.

(** X25.  [connection_create] returns the null pointer exactly when
    [calloc] fails, and then makes no other call.  Otherwise it always
    sets [TCP_USER_TIMEOUT] to 10000 ms and goes on whatever the result;
    it asks for [SO_ZEROCOPY] only when the [ZEROCOPY_MSG_ZEROCOPY]
    feature bit is set, and [zerocopy_enabled] is 1 exactly when that
    request was made and returned 0. *)
Theorem connection_create_enables_zerocopy_only_when_supported
    sock ep client_addr addr_len w :
  let x1 := snd (calloc Y (io_ext w)) in
  let x2 := snd (setsockopt Y sock TCP_USER_TIMEOUT CONNECTION_TCP_USER_TIMEOUT_MS x1) in
  let supported := Zbool (Z.land (zerocopy_state_features Y x2) (ZEROCOPY_MSG_ZEROCOPY KIO)) in
  let granted := fst (setsockopt Y sock SO_ZEROCOPY 1 x2) =? 0 in
  if fst (calloc Y (io_ext w)) then
    exists c io w',
      connection_create sock ep client_addr addr_len w = io_Returned (Some (c, io)) w'
      /\ trace w'
         = trace w
           ++ [inr call_calloc;
               inr (call_setsockopt sock TCP_USER_TIMEOUT CONNECTION_TCP_USER_TIMEOUT_MS)]
           ++ (if supported then [inr (call_setsockopt sock SO_ZEROCOPY 1)] else [])
      /\ zerocopy_enabled io = (if supported && granted then 1 else 0)
  else
    connection_create sock ep client_addr addr_len w
    = io_Returned None (mk_io_world x1 (trace w ++ [inr call_calloc])).
Proof.
  cbv zeta.
  unfold connection_create, io_bind, io_extcall, io_peek, io_ret. cbv zeta.
  cbn [fst snd io_ext trace].
  destruct (fst (calloc Y (io_ext w))); cbn [negb]; [|reflexivity].
  destruct (Zbool _); [destruct (_ =? 0)|];
    eexists _, _, _; (split; [reflexivity|]); cbn [trace zerocopy_enabled andb];
    rewrite <- ?app_assoc, ?app_nil_r; split; reflexivity.
Qed.

(** ** Writing *)

(** [connection_handle_write], path by path. *)
Lemma handle_write_cases c w :
  exists st c' w' t,
    connection_handle_write c w = io_Returned (st, c') w'
    /\ trace w' = trace w ++ t
    /\ ((zerocopy_queue_head Y (zc_queue c) (io_ext w) = false
         /\ c' = c
         /\ st = (if closed_and_settled c (io_ext w')
                  then CONNECTION_WRITE_CLOSED else CONNECTION_WRITE_IDLE)
         /\ exists l, t = map inl l /\ report_only l)
        \/ (zerocopy_queue_head Y (zc_queue c) (io_ext w) = true
            /\ let rc := fst (fst (zerocopy_send Y (fd c) (zc_queue c) (io_ext w))) in
               let q := snd (fst (zerocopy_send Y (fd c) (zc_queue c) (io_ext w))) in
               let x1 := snd (zerocopy_send Y (fd c) (zc_queue c) (io_ext w)) in
               exists l,
                 report_only l
                 /\ ((rc < 0 /\ rc <> -2
                      /\ c' = set_state CONN_CLOSING (set_zc_queue q c)
                      /\ st = CONNECTION_WRITE_CLOSED
                      /\ t = inr (call_zerocopy_send (fd c)) :: map inl l)
                     \/ (rc = -2
                         /\ c' = set_zc_queue q c
                         /\ st = CONNECTION_WRITE_BLOCKED
                         /\ t = inr (call_zerocopy_send (fd c)) :: map inl l)
                     \/ (0 <= rc /\ zerocopy_queue_head Y q x1 = true
                         /\ c' = set_zc_queue q c
                         /\ st = CONNECTION_WRITE_PENDING
                         /\ t = inr (call_zerocopy_send (fd c)) :: map inl l)
                     \/ (0 <= rc /\ zerocopy_queue_head Y q x1 = false
                         /\ c' = set_zc_queue q c
                         /\ st = (if closed_and_settled c' (io_ext w')
                                  then CONNECTION_WRITE_CLOSED else CONNECTION_WRITE_IDLE)
                         /\ t = inr (call_zerocopy_send (fd c))
                                :: inl (call_epoll_ctl EPOLL_CTL_MOD (epfd c) (fd c) EV_READ)
                                :: map inl l)))).
Proof.
  unfold connection_handle_write.
  unfold io_bind at 1, io_peek at 1.
  destruct (zerocopy_queue_head Y (zc_queue c) (io_ext w)) eqn:Hhead; cbn [negb].
  - (* something to send *)
    unfold io_bind at 1, io_extcall at 1. cbv zeta.
    set (rc := fst (fst (zerocopy_send Y (fd c) (zc_queue c) (io_ext w)))).
    set (q := snd (fst (zerocopy_send Y (fd c) (zc_queue c) (io_ext w)))).
    set (x1 := snd (zerocopy_send Y (fd c) (zc_queue c) (io_ext w))).
    set (w1 := mk_io_world x1 _).
    destruct (Z.ltb_spec rc 0) as [Hneg|Hpos]; cbn [andb].
    + destruct (Z.eqb_spec rc (-2)) as [Hblk|Herr]; cbn [negb].
      * destruct (lift_report_queue (set_zc_queue q c) w1) as (x & l & Hl & Hrep).
        rewrite (io_bind_returned _ _ _ _ _ Hl).
        eexists _, _, _, _. split; [reflexivity|]. cbn [trace io_ret].
        split; [subst w1; cbn [trace]; rewrite <- app_assoc; reflexivity|].
        right. split; [reflexivity|]. exists l. split; [exact Hrep|].
        right. left. repeat split; auto.
      * destruct (lift_report_queue (set_state CONN_CLOSING (set_zc_queue q c)) w1)
          as (x & l & Hl & Hrep).
        rewrite (io_bind_returned _ _ _ _ _ Hl).
        eexists _, _, _, _. split; [reflexivity|]. cbn [trace io_ret].
        split; [subst w1; cbn [trace]; rewrite <- app_assoc; reflexivity|].
        right. split; [reflexivity|]. exists l. split; [exact Hrep|].
        left. repeat split; auto.
    + assert (Hnb : (rc =? -2) = false) by (apply Z.eqb_neq; lia). rewrite Hnb.
      unfold io_bind at 1, io_peek at 1. cbn [io_ext zc_queue set_zc_queue].
      subst w1. cbn [io_ext].
      destruct (zerocopy_queue_head Y q x1) eqn:Hhead2.
      * match goal with
        | |- context [lift (connection_report_queue ?cc)] =>
            match goal with
            | |- context [io_bind _ _ ?ww] =>
                destruct (lift_report_queue cc ww) as (x & l & Hl & Hrep)
            end
        end.
        rewrite (io_bind_returned _ _ _ _ _ Hl).
        eexists _, _, _, _. split; [reflexivity|]. cbn [trace io_ret].
        split; [rewrite <- app_assoc; reflexivity|].
        right. split; [reflexivity|]. exists l. split; [exact Hrep|].
        right. right. left. repeat split; auto.
      * unfold io_bind at 1, lift at 1, connection_epoll_update_events, bind, extcall, ret.
        cbn [fst snd ext calls io_ext trace map app].
        match goal with
        | |- context [io_bind (lift (connection_report_queue ?cc)) _ ?ww] =>
            destruct (lift_report_queue cc ww) as (x & l & Hl & Hrep)
        end.
        rewrite (io_bind_returned _ _ _ _ _ Hl).
        unfold io_bind, io_peek, io_ret. cbn [io_ext zc_queue set_zc_queue state].
        destruct (is_closing (state c) && negb (zerocopy_queue_pending_head Y q x))
          eqn:Hcs;
          (eexists _, _, _, _; split; [reflexivity|];
           split; [cbn [trace]; rewrite <- !app_assoc; reflexivity|];
           right; split; [reflexivity|]; exists l; split; [exact Hrep|];
           right; right; right; unfold closed_and_settled;
           cbn [io_ext zc_queue set_zc_queue state]; rewrite Hcs;
           repeat split; auto).
  - (* nothing queued *)
    destruct (lift_report_queue c w) as (x & l & Hl & Hrep).
    rewrite (io_bind_returned _ _ _ _ _ Hl).
    unfold io_bind, io_peek, io_ret. cbn [io_ext].
    destruct (is_closing (state c) && negb (zerocopy_queue_pending_head Y (zc_queue c) x))
      eqn:Hcs;
      (eexists _, _, _, _; split; [reflexivity|];
       split; [cbn [trace]; reflexivity|];
       left; split; [reflexivity|]; unfold closed_and_settled;
       cbn [io_ext]; rewrite Hcs; repeat split; eauto).
Qed.

Lemma is_closing_true s : is_closing s = true -> s = CONN_CLOSING.
Proof. destruct s; cbn; congruence. Qed.

Lemma closed_and_settled_closing c x :
  closed_and_settled c x = true -> state c = CONN_CLOSING.
Proof.
  unfold closed_and_settled. intros H.
  apply andb_true_iff in H. apply is_closing_true, H.
Qed.

Lemma report_only_no_epoll l op ep sock ev :
  report_only l -> ~ In (call_epoll_ctl op ep sock ev) l.
Proof.
  intros [->|(e & -> & He)] Hin; cbn in Hin; [exact Hin|].
  destruct Hin as [->|[]]. apply He. exact I.
Qed.

Lemma In_map_inl_inr (l : list call) (e : io_call) :
  ~ In (inr e : event) (map inl l).
Proof.
  intros H. apply in_map_iff in H. destruct H as (x & Hx & _). discriminate.
Qed.

Lemma In_map_inl (l : list call) (e : call) :
  In (inl e : event) (map inl l) -> In e l.
Proof.
  intros H. apply in_map_iff in H. destruct H as (x & Hx & Hin).
  injection Hx as ->. exact Hin.
Qed.

(** X26.  The status [connection_handle_write] returns agrees with the
    connection it leaves: CLOSED only for a connection in CONN_CLOSING,
    IDLE never for a closing connection whose completions are all in,
    and the state is changed only by a send error other than -2, which
    is reported as CLOSED.  The descriptors and the status slot are
    kept. *)
Theorem write_status_agrees_with_connection_state (c : connection_t) (w : io_world W) :
  exists st c' w',
    connection_handle_write c w = io_Returned (st, c') w'
    /\ (st = CONNECTION_WRITE_CLOSED -> state c' = CONN_CLOSING)
    /\ (st = CONNECTION_WRITE_IDLE -> closed_and_settled c' (io_ext w') = false)
    /\ (state c' <> state c ->
        st = CONNECTION_WRITE_CLOSED
        /\ zerocopy_queue_head Y (zc_queue c) (io_ext w) = true
        /\ fst (fst (zerocopy_send Y (fd c) (zc_queue c) (io_ext w))) < 0
        /\ fst (fst (zerocopy_send Y (fd c) (zc_queue c) (io_ext w))) <> -2)
    /\ fd c' = fd c /\ epfd c' = epfd c /\ status_index c' = status_index c.
Proof.
  destruct (handle_write_cases c w) as (st & c' & w' & t & Hrun & Ht & Hcases).
  exists st, c', w'. split; [exact Hrun|].
  cbv zeta in Hcases.
  destruct Hcases
    as [(Hh & -> & -> & _)
       | (Hh & l & Hrep &
          [(Hneg & Hne & -> & -> & _)
          | [(Hblk & -> & -> & _)
            | [(Hpos & Hh2 & -> & -> & _) | (Hpos & Hh2 & -> & Hst & _)]]])].
  - destruct (closed_and_settled c (io_ext w')) eqn:Hcs.
    + repeat split; auto; try congruence.
      intros _. eapply closed_and_settled_closing; eauto.
    + repeat split; auto; congruence.
  - cbn. repeat split; auto; congruence.
  - cbn. repeat split; auto; congruence.
  - cbn. repeat split; auto; congruence.
  - subst st.
    destruct (closed_and_settled _ (io_ext w')) eqn:Hcs.
    + cbn. repeat split; auto; try congruence.
      intros _. apply closed_and_settled_closing in Hcs. exact Hcs.
    + cbn. repeat split; auto; congruence.
Qed.

(** X27.  [connection_handle_write] never asks for EPOLLOUT: its only
    change of the event mask is the one back to the read events, on the
    connection's own descriptors, made after a send that left the queue
    without a head, and reported as IDLE or CLOSED.  With no head in the
    queue it does not send at all. *)
Theorem write_only_drops_epollout_after_draining (c : connection_t) (w : io_world W) :
  exists st c' w' t,
    connection_handle_write c w = io_Returned (st, c') w'
    /\ trace w' = trace w ++ t
    /\ (forall op ep sock ev,
          In (inl (call_epoll_ctl op ep sock ev)) t ->
          op = EPOLL_CTL_MOD /\ ep = epfd c /\ sock = fd c /\ ev = EV_READ
          /\ (st = CONNECTION_WRITE_IDLE \/ st = CONNECTION_WRITE_CLOSED)
          /\ zerocopy_queue_head Y (zc_queue c') (snd (zerocopy_send Y (fd c) (zc_queue c) (io_ext w))) = false
          /\ exists t', t = inr (call_zerocopy_send (fd c)) :: inl (call_epoll_ctl op ep sock ev) :: t')
    /\ (forall s, In (inr (call_zerocopy_send s)) t ->
          zerocopy_queue_head Y (zc_queue c) (io_ext w) = true /\ s = fd c).
Proof.
  destruct (handle_write_cases c w) as (st & c' & w' & t & Hrun & Ht & Hcases).
  exists st, c', w', t. split; [exact Hrun|]. split; [exact Ht|].
  cbv zeta in Hcases.
  destruct Hcases
    as [(Hh & -> & -> & l & -> & Hrep)
       | (Hh & l & Hrep &
          [(Hneg & Hne & -> & -> & ->)
          | [(Hblk & -> & -> & ->)
            | [(Hpos & Hh2 & -> & -> & ->) | (Hpos & Hh2 & -> & Hst & ->)]]])].
  - split.
    + intros op ep sock ev Hin. apply In_map_inl in Hin.
      exfalso. eapply report_only_no_epoll; eauto.
    + intros s Hin. exfalso. eapply In_map_inl_inr; eauto.
  - split.
    + intros op ep sock ev [Hin|Hin]; [discriminate|].
      apply In_map_inl in Hin. exfalso. eapply report_only_no_epoll; eauto.
    + intros s [Hin|Hin]; [injection Hin as <-; auto|].
      exfalso. eapply In_map_inl_inr; eauto.
  - split.
    + intros op ep sock ev [Hin|Hin]; [discriminate|].
      apply In_map_inl in Hin. exfalso. eapply report_only_no_epoll; eauto.
    + intros s [Hin|Hin]; [injection Hin as <-; auto|].
      exfalso. eapply In_map_inl_inr; eauto.
  - split.
    + intros op ep sock ev [Hin|Hin]; [discriminate|].
      apply In_map_inl in Hin. exfalso. eapply report_only_no_epoll; eauto.
    + intros s [Hin|Hin]; [injection Hin as <-; auto|].
      exfalso. eapply In_map_inl_inr; eauto.
  - split.
    + intros op ep sock ev [Hin|[Hin|Hin]]; [discriminate| |].
      * injection Hin as <- <- <- <-. cbn [zc_queue set_zc_queue].
        repeat split; auto.
        -- subst st. destruct (closed_and_settled _ _); auto.
        -- eexists. reflexivity.
      * apply In_map_inl in Hin. exfalso. eapply report_only_no_epoll; eauto.
    + intros s [Hin|[Hin|Hin]]; [injection Hin as <-; auto|discriminate|].
      exfalso. eapply In_map_inl_inr; eauto.
Qed.

(** ** Reading *)


(** Routing run from the socket side. *)
Lemma lift_route_and_start c w rc c' w' :
  lift (connection_route_and_start c) w = io_Returned (rc, c') w' ->
  exists l,
    trace w' = trace w ++ map inl l
    /\ ((state c' = CONN_STREAMING /\ streaming c' = 1 /\ service c' <> None)
        \/ state c' = CONN_CLOSING
        \/ In call_status_handle_sse_init l).
Proof.
  unfold lift. intros H.
  destruct (connection_route_and_start c (mk_world (io_ext w) [])) as [[rc1 c1] w1|code w1]
    eqn:Hr; [|discriminate H].
  injection H as <- <- <-. exists (calls w1). split; [reflexivity|].
  apply route_and_start_outcome in Hr.
  destruct Hr as [(_ & Hst & Hstr & _ & Hsv) | [(_ & Hst) | (l & Hl & Hin)]].
  - left. auto.
  - right. left. exact Hst.
  - right. right. cbn [calls app] in Hl. rewrite Hl. exact Hin.
Qed.

(** X29.  Whenever [connection_handle_read] returns, its trace is the
    socket-side calls (the read, the parse) followed by the calls of
    routing; routing runs only right after the parser, and the parser
    only for a connection that was reading the request line or the
    headers.  The connection is left in the state it had, closing, or
    streaming with a service attached, unless the request went to
    [status_handle_sse_init]: a complete request is routed within the
    call. *)
Theorem complete_request_is_routed_within_the_read (c : connection_t) (io : connection_io_t)
    (w : io_world W) c' io' w' :
  connection_handle_read c io w = io_Returned (c', io') w' ->
  exists t0 l,
    trace w' = trace w ++ t0 ++ map inl l
    /\ base_calls t0 = []
    /\ (l <> [] -> exists t1, t0 = t1 ++ [inr call_http_parse_request])
    /\ (In (inr call_http_parse_request) t0 ->
        state c = CONN_READ_REQ_LINE \/ state c = CONN_READ_HEADERS)
    /\ (state c' = state c
        \/ state c' = CONN_CLOSING
        \/ (state c' = CONN_STREAMING /\ streaming c' = 1 /\ service c' <> None)
        \/ In call_status_handle_sse_init l).
Proof.
  unfold connection_handle_read. intros H.
  unfold io_bind, io_extcall, io_ret in H.
  repeat (cbv beta iota zeta in H;
          match type of H with
          | context [if ?b then _ else _] => destruct b eqn:?
          | context [match state ?cc with _ => _ end] => destruct (state cc) eqn:?
          | context [match lift ?m ?ww with _ => _ end] =>
              let Hl := fresh "Hlift" in
              destruct (lift m ww) as [[rc1 c1] w1|code w1] eqn:Hl;
              [apply lift_route_and_start in Hl; destruct Hl as (l & Hl & Hout)
              | discriminate H]
          end).
  all: cbv beta iota zeta in H; cbn [fst snd] in H; injection H as <- <- <-.
  all: try (exists [], []; cbn [trace map app state set_state set_http_req base_calls flat_map];
            rewrite ?app_nil_r;
            repeat split; auto; try contradiction; try congruence; fail).
  all: try (eexists [_], []; cbn [trace map app state set_state set_http_req base_calls flat_map];
            rewrite ?app_nil_r;
            (split; [reflexivity|]); (split; [reflexivity|]);
            (split; [congruence|]);
            split; [intros [Hin|[]]; first [discriminate Hin | auto] | auto]; fail).
  all: try (eexists [_; _], []; cbn [trace map app state set_state set_http_req base_calls flat_map];
            rewrite <- ?app_assoc; rewrite ?app_nil_r;
            (split; [reflexivity|]); (split; [reflexivity|]);
            (split; [congruence|]);
            split; [intros _; auto | auto]; fail).
  all: cbn [trace] in Hlift.
  all: try (eexists [_], l; rewrite Hlift;
            rewrite <- ?app_assoc;
            (split; [reflexivity|]); (split; [reflexivity|]);
            (split; [intros _; exists []; reflexivity|]);
            split; [intros _; auto | tauto]; fail).
  all: try (eexists [_; _], l; rewrite Hlift;
            rewrite <- ?app_assoc;
            (split; [reflexivity|]); (split; [reflexivity|]);
            (split; [intros _; eexists [_]; reflexivity|]);
            split; [intros _; auto | tauto]; fail).
Qed.

(** ** Queueing a file *)


End Model.

(** * The model on concrete inputs *)

Lemma K0_ok : constants_ok K0.
Proof. reflexivity. Qed.

(** ** Backpressure *)

(** C1 at a backlog of 200 full buffers, 16 streams sharing 1024 buffers:
    the limit is 393216, a full buffer projects to 411648 and is
    dropped. *)
Lemma nonempty_enqueue_over_limit_witness :
  data_size full_buf <> 0
  /\ computed_queue_limit X0 K0 conn_backlog w0 < projected_bytes K0 conn_backlog full_buf
  /\ enqueue_rejected X0 K0 conn_backlog full_buf w0.
Proof.
  assert (H1 : data_size full_buf <> 0) by (vm_compute; lia).
  assert (H2 : computed_queue_limit X0 K0 conn_backlog w0
               < projected_bytes K0 conn_backlog full_buf) by (vm_compute; reflexivity).
  split; [exact H1|]. split; [exact H2|].
  exact (nonempty_enqueue_over_limit_is_dropped X0 K0 conn_backlog full_buf w0 H1 H2).
Defined.

(** C1 as stated fails on a buffer with [data_size = 0]: with the same
    backlog the projected bytes, 409600, exceed the limit, 393216, and
    [connection_queue_zerocopy] returns 0 without touching the
    connection. *)
Lemma empty_buffer_over_limit_is_not_dropped :
  computed_queue_limit X0 K0 conn_backlog w0 < projected_bytes K0 conn_backlog empty_buf
  /\ connection_queue_zerocopy X0 K0 conn_backlog empty_buf w0 = Returned (0, conn_backlog) w0
  /\ ~ every_enqueue_over_limit_is_dropped X0 K0.
Proof.
  split; [vm_compute; reflexivity|]. split; [reflexivity|].
  intros H.
  destruct (H conn_backlog empty_buf w0 ltac:(vm_compute; reflexivity))
    as (c' & w' & Hrun & _).
  vm_compute in Hrun. discriminate Hrun.
Qed.

(** C2 at the second enqueue of a full buffer: 4096 bytes queued under a
    limit of 393216. *)
Lemma accepted_enqueue_witness :
  zc_queue_wf K0 (zc_queue conn_one_queued)
  /\ (num_queued (zc_queue conn_one_queued) + 1) * BUFFER_POOL_BUFFER_SIZE K0 <= SIZE_MAX
  /\ buffer_fits K0 full_buf
  /\ exists c',
       enqueue_accepted X0 K0 conn_one_queued full_buf w0 c'
       /\ items (zc_queue c') = items (zc_queue conn_one_queued) ++ [full_buf]
       /\ queue_total_bytes (zc_queue c') <= queue_limit_bytes c'
       /\ queue_limit_bytes c' = computed_queue_limit X0 K0 conn_one_queued w0
       /\ zc_queue_wf K0 (zc_queue c').
Proof.
  assert (H1 : zc_queue_wf K0 (zc_queue conn_one_queued)).
  { split; [reflexivity|]. repeat constructor; vm_compute; discriminate. }
  assert (H2 : (num_queued (zc_queue conn_one_queued) + 1) * BUFFER_POOL_BUFFER_SIZE K0
               <= SIZE_MAX) by (vm_compute; discriminate).
  assert (H3 : buffer_fits K0 full_buf) by (split; vm_compute; discriminate).
  assert (H4 : exists c', enqueue_accepted X0 K0 conn_one_queued full_buf w0 c').
  { eexists. split; [vm_compute; lia|]. eexists. lazy. reflexivity. }
  split; [exact H1|]. split; [exact H2|]. split; [exact H3|].
  destruct H4 as [c' H4]. exists c'. split; [exact H4|].
  exact (accepted_enqueue_within_limit X0 K0 K0_ok conn_one_queued full_buf w0 c'
           H1 H2 H3 H4).
Defined.

(** C2 as stated fails where the queue or the buffer is outside these
    bounds, because the code bounds [num_queued * BUFFER_SIZE +
    data_size], computed in [size_t], and not the sum of the sizes.
    With one item of a million bytes queued, a full buffer projects to
    4096 bytes and is accepted under the limit 393216, while the queue
    then holds 1002048 bytes.  With one full buffer queued, a buffer
    whose [data_size] is [SIZE_MAX] projects to 2047 bytes and is
    accepted as well. *)
Lemma accepted_enqueue_over_limit :
  (exists c',
      enqueue_accepted X0 K0 conn_huge_item full_buf w0 c'
      /\ queue_total_bytes (zc_queue c') = 1002048
      /\ queue_limit_bytes c' = 393216)
  /\ (exists c',
         enqueue_accepted X0 K0 conn_one_queued wrapped_buf w0 c'
         /\ queue_total_bytes (zc_queue c') = 2048 + SIZE_MAX
         /\ queue_limit_bytes c' = 393216)
  /\ ~ every_accepted_enqueue_is_within_limit X0 K0.
Proof.
  assert (H1 : exists c',
             enqueue_accepted X0 K0 conn_huge_item full_buf w0 c'
             /\ queue_total_bytes (zc_queue c') = 1002048
             /\ queue_limit_bytes c' = 393216).
  { eexists. split; [|split].
    - split; [vm_compute; lia|]. eexists. lazy. reflexivity.
    - vm_compute. reflexivity.
    - vm_compute. reflexivity. }
  split; [exact H1|]. split.
  - eexists. split; [|split].
    + split; [vm_compute; lia|]. eexists. lazy. reflexivity.
    + vm_compute. reflexivity.
    + vm_compute. reflexivity.
  - intros H. destruct H1 as (c' & Hacc & Htot & Hlim).
    specialize (H conn_huge_item full_buf w0 c' Hacc).
    rewrite Htot, Hlim in H. vm_compute in H. apply H. reflexivity.
Qed.

(** A buffer with [data_size = 0] is not enqueued at all: the call
    returns 0 and leaves the connection as it was, whatever its queue
    holds, without computing a limit. *)
Lemma empty_buffer_is_ignored_not_accepted :
  connection_queue_zerocopy X0 K0 conn_backlog empty_buf w0 = Returned (0, conn_backlog) w0
  /\ queue_total_bytes (zc_queue conn_backlog) = 409600
  /\ queue_limit_bytes conn_backlog = 0.
Proof. split; [reflexivity|]. split; vm_compute; reflexivity. Qed.

(** C3 as stated fails on the pool of scenario S3, capped at 64 buffers:
    [max_buffers * BUFFER_SIZE - reserve] is 0, not positive, so the
    wording leaves the product 131072 * 3.0 = 393216 uncapped, while the
    code caps the limit at the whole pool, 64 * 2048 = 131072. *)
Lemma small_pool_limit_differs_from_spec :
  connection_compute_limit_bytes K0 small_pool 131072 CONN_QUEUE_BURST_FACTOR = 131072
  /\ spec_limit_bytes K0 small_pool 131072 CONN_QUEUE_BURST_FACTOR = 393216
  /\ ~ limit_is_spec_limit K0.
Proof.
  split; [vm_compute; reflexivity|]. split; [vm_compute; reflexivity|].
  intros H. specialize (H small_pool 131072 CONN_QUEUE_BURST_FACTOR).
  vm_compute in H. discriminate H.
Qed.

(** ** Chunked output *)

(** C10 on 5000 bytes with a single free buffer: the first chunk of
    2048 bytes is queued and stays queued, the pass for the second chunk
    finds the pools exhausted, and the call returns -1. *)
Lemma queue_output_witness :
  payload5000 <> []
  /\ exists c' w' l c_n w_n,
       connection_queue_output X0 K0 K0_ok conn0 payload5000 w_one_buffer
       = Returned (-1, c') w'
       /\ items (zc_queue c') = items (zc_queue conn0) ++ l
       /\ map stored_bytes l = [firstn 2048 payload5000]
       /\ (List.length l < List.length (chunks_of K0 K0_ok payload5000))%nat
       /\ connection_queue_output X0 K0 K0_ok conn0 (firstn 2048 payload5000) w_one_buffer
          = Returned (0, c_n) w_n
       /\ zc_queue c' = zc_queue c_n
       /\ pool_exhausted_for X0 c_n (ext w_n).
Proof.
  assert (H : payload5000 <> []) by (vm_compute; discriminate).
  split; [exact H|].
  destruct (queue_output_appends_chunks_in_order X0 K0 K0_ok conn0 payload5000 w_one_buffer H)
    as (rc & c' & w' & l & Hrun & Hitems & Hpay & _ & Hcases).
  pose proof Hrun as E. vm_compute in E. injection E as <- <- <-.
  destruct Hcases as [[H0 _] | (_ & Hl & c_n & w_n & Hpre & Hkept & Hfail)];
    [discriminate H0|].
  vm_compute in Hitems. subst l.
  pose proof Hpre as E. vm_compute in E. injection E as <- <-.
  eexists _, _, _, _, _.
  split; [exact Hrun|]. split; [reflexivity|]. split; [vm_compute; reflexivity|].
  split; [exact Hl|]. split; [exact Hpre|]. split; [exact Hkept|].
  destruct Hfail as [[Hex _] | (buf & w1 & w2 & Ha & _)]; [exact Hex|].
  vm_compute in Ha. discriminate Ha.
Defined.

(** The output path is not atomic: in that run it returns -1 and leaves
    one buffer of 2048 bytes in a queue that was empty; with enough
    buffers the same input is queued as 2048 + 2048 + 904 bytes. *)
Example queue_output_partial_failure :
  match connection_queue_output X0 K0 K0_ok conn0 payload5000 w_one_buffer with
  | Returned (rc, c') _ => (rc, map data_size (items (zc_queue c')))
  | Exited _ _ => (0, [])
  end = (-1, [2048]).
Proof. vm_compute. reflexivity. Qed.

Example queue_output_success :
  match connection_queue_output X0 K0 K0_ok conn0 payload5000 w0 with
  | Returned (rc, c') _ => (rc, map data_size (items (zc_queue c')))
  | Exited _ _ => (-1, [])
  end = (0, [2048; 2048; 904]).
Proof. vm_compute. reflexivity. Qed.

(** ** Stream context *)


(** C8 on a request sent at time 0 and a tick at time 100, past the
    signalling timeout of 80 ms: the join returns socket 9, its
    registration succeeds, and the tick returns 0. *)
Lemma fcc_signalling_timeout_witness :
  (fcc_state (fcc (stream conn_fcc_requested)) = FCC_STATE_REQUESTED
   \/ fcc_state (fcc (stream conn_fcc_requested)) = FCC_STATE_UNICAST_PENDING)
  /\ tick_reaches_fcc_block K0 conn_fcc_requested 100
  /\ FCC_TIMEOUT_SIGNALING_MS K0 <= 100 - last_fcc_data_time (stream conn_fcc_requested)
  /\ exists reason c3 w3,
       tick_mcast_rejoin X0 config0 conn_fcc_requested 100 w0
       = Returned conn_fcc_requested w0
       /\ join_registration_fails X0
            (upd_fcc (set_fcc_state FCC_STATE_MCAST_ACTIVE) conn_fcc_requested)
            (world_after_set_state X0 FCC_STATE_MCAST_ACTIVE reason w0) = false
       /\ stream_join_mcast_group X0 K0
            (upd_fcc (set_fcc_state FCC_STATE_MCAST_ACTIVE) conn_fcc_requested)
            (world_after_set_state X0 FCC_STATE_MCAST_ACTIVE reason w0)
          = Returned (9, c3) w3
       /\ calls w3
          = [call_fcc_session_set_state FCC_STATE_MCAST_ACTIVE reason;
             call_join_mcast_group None; call_epoll_ctl EPOLL_CTL_ADD 3 9 EPOLLIN;
             call_fdmap_set 9; call_get_time_ms]
       /\ fcc_state (fcc (stream (upd_stream (set_mcast_sock 9) c3))) = FCC_STATE_MCAST_ACTIVE
       /\ mcast_sock (stream (upd_stream (set_mcast_sock 9) c3)) = 9
       /\ exists c' w',
            stream_tick X0 K0 config0 conn_fcc_requested 100 w0 = Returned (0, c') w'
            /\ stream_tick_rest X0 K0 (upd_stream (set_mcast_sock 9) c3) 100 w3
               = Returned (0, c') w'.
Proof.
  assert (H1 : fcc_state (fcc (stream conn_fcc_requested)) = FCC_STATE_REQUESTED
               \/ fcc_state (fcc (stream conn_fcc_requested)) = FCC_STATE_UNICAST_PENDING)
    by (left; reflexivity).
  assert (H2 : tick_reaches_fcc_block K0 conn_fcc_requested 100)
    by (split; vm_compute; reflexivity).
  assert (H3 : FCC_TIMEOUT_SIGNALING_MS K0
               <= 100 - last_fcc_data_time (stream conn_fcc_requested))
    by (vm_compute; discriminate).
  split; [exact H1|]. split; [exact H2|]. split; [exact H3|].
  destruct (fcc_signalling_timeout_falls_back_to_multicast X0 K0 config0 conn_fcc_requested
              100 w0 H1 H2 H3) as (reason & c1 & w1 & Hrejoin & Hrest).
  assert (Hrejoin' : tick_mcast_rejoin X0 config0 conn_fcc_requested 100 w0
                     = Returned conn_fcc_requested w0) by reflexivity.
  rewrite Hrejoin' in Hrejoin. injection Hrejoin as <- <-.
  assert (Hreg : join_registration_fails X0
                   (upd_fcc (set_fcc_state FCC_STATE_MCAST_ACTIVE) conn_fcc_requested)
                   (world_after_set_state X0 FCC_STATE_MCAST_ACTIVE reason w0) = false)
    by reflexivity.
  cbv zeta in Hrest. rewrite Hreg in Hrest.
  destruct Hrest as (c3 & w3 & Hjoin & Hcalls & Hstate & Hsock & Htick).
  exists reason, c3, w3.
  split; [exact Hrejoin'|]. split; [exact Hreg|]. split; [exact Hjoin|].
  split; [exact Hcalls|]. split; [exact Hstate|]. split; [exact Hsock|]. exact Htick.
Defined.

(** In that run the tick returns 0 with the session in [MCAST_ACTIVE] on
    the joined socket 9. *)
Example fcc_signalling_timeout_run :
  match stream_tick X0 K0 config0 conn_fcc_requested 100 w0 with
  | Returned (rc, c') _ => (rc, fcc_state (fcc (stream c')), mcast_sock (stream c'))
  | Exited _ _ => (-1, FCC_STATE_INIT, 0)
  end = (0, FCC_STATE_MCAST_ACTIVE, 9).
Proof. vm_compute. reflexivity. Qed.

(** C8 as stated fails when the joined socket cannot be registered with
    epoll: the same tick closes socket 9 and ends the whole process with
    [RETVAL_SOCK_READ_FAILED], so the tick does not return and the
    connection does not go on.  When [join_mcast_group] itself fails
    with -1 the tick returns 0, the state is [MCAST_ACTIVE] and -1 is
    stored as [mcast_sock]: no group is joined. *)
Lemma failed_registration_ends_the_process :
  stream_tick (X_sim knobs_epoll_fails) K0 config0 conn_fcc_requested 100 w0
  = Exited (RETVAL_SOCK_READ_FAILED K0)
      (mk_world sim0
         [call_fcc_session_set_state FCC_STATE_MCAST_ACTIVE "Signaling timeout";
          call_join_mcast_group None; call_epoll_ctl EPOLL_CTL_ADD 3 9 EPOLLIN;
          call_close 9])
  /\ match stream_tick X0 K0 config0 conn_fcc_requested 100 w_join_fails with
     | Returned (rc, c') w' =>
         (rc, fcc_state (fcc (stream c')), mcast_sock (stream c'), calls w')
     | Exited _ w' => (-1, FCC_STATE_INIT, 0, calls w')
     end
     = (0, FCC_STATE_MCAST_ACTIVE, -1,
        [call_fcc_session_set_state FCC_STATE_MCAST_ACTIVE "Signaling timeout";
         call_join_mcast_group None])
  /\ ~ fcc_timeout_always_falls_back (X_sim knobs_epoll_fails) K0 config0.
Proof.
  split; [vm_compute; reflexivity|]. split; [vm_compute; reflexivity|].
  intros H.
  destruct (H conn_fcc_requested 100 w0) as (c' & w' & reason & Hrun & _).
  - left. reflexivity.
  - split; vm_compute; reflexivity.
  - vm_compute. discriminate.
  - vm_compute in Hrun. discriminate Hrun.
Qed.

(** ** Routing *)


(** C9 on the same request: eleven clients are streaming and the cap is
    ten. *)
Lemma head_request_over_capacity_witness :
  connection_route_resolve X0 K0 config0 services0 K0_ok head_conn w_busy
  = Returned (inr resolved_ch1) w_busy_resolved
  /\ strcasecmp_eq (method (http_req head_conn)) "HEAD" = true
  /\ status_shared_total_clients X0 (ext w_busy_resolved) = Some 11
  /\ maxclients config0 <= 11
  /\ exists c' w' l,
       connection_route_and_start X0 K0 config0 services0 K0_ok head_conn w_busy
       = Returned (0, c') w'
       /\ state c' = CONN_CLOSING
       /\ calls w' = calls w_busy ++ l
       /\ In (call_send_http_headers STATUS_200 CONTENT_MP2T None) l
       /\ ~ In (call_http_send STATUS_503) l.
Proof.
  assert (H1 : connection_route_resolve X0 K0 config0 services0 K0_ok head_conn w_busy
               = Returned (inr resolved_ch1) w_busy_resolved) by (vm_compute; reflexivity).
  assert (H2 : strcasecmp_eq (method (http_req head_conn)) "HEAD" = true) by reflexivity.
  assert (H3 : status_shared_total_clients X0 (ext w_busy_resolved) = Some 11) by reflexivity.
  assert (H4 : maxclients config0 <= 11) by (vm_compute; discriminate).
  split; [exact H1|]. split; [exact H2|]. split; [exact H3|]. split; [exact H4|].
  exact (head_request_skips_capacity_check X0 K0 config0 services0 K0_ok
           head_conn w_busy resolved_ch1 w_busy_resolved 11 H1 H2 H3 H4).
Defined.

(** C6 on [GET /ch1] with eleven clients streaming and a cap of ten. *)
Lemma get_over_capacity_witness :
  connection_route_resolve X0 K0 config0 services0 K0_ok get_conn w_busy
  = Returned (inr resolved_ch1) w_busy_resolved
  /\ method (http_req get_conn) = "GET"%string
  /\ status_shared_total_clients X0 (ext w_busy_resolved) = Some 11
  /\ maxclients config0 < 11
  /\ exists w' l,
       connection_route_and_start X0 K0 config0 services0 K0_ok get_conn w_busy
       = Returned (0, set_state CONN_CLOSING get_conn) w'
       /\ Forall is_lookup_call l
       /\ calls w' = calls w_busy ++ l
                     ++ [call_http_send STATUS_503; call_service_free svc_ch1].
Proof.
  assert (H1 : connection_route_resolve X0 K0 config0 services0 K0_ok get_conn w_busy
               = Returned (inr resolved_ch1) w_busy_resolved) by (vm_compute; reflexivity).
  assert (H2 : method (http_req get_conn) = "GET"%string) by reflexivity.
  assert (H3 : status_shared_total_clients X0 (ext w_busy_resolved) = Some 11) by reflexivity.
  assert (H4 : maxclients config0 < 11) by (vm_compute; reflexivity).
  split; [exact H1|]. split; [exact H2|]. split; [exact H3|]. split; [exact H4|].
  exact (get_over_capacity_answers_503 X0 K0 config0 services0 K0_ok
           get_conn w_busy resolved_ch1 w_busy_resolved 11 H1 H2 H3 H4).
Defined.

(** C5 on scenario S5 with the token "abc" configured:
    [GET /ch1?other=1] presents no token and is answered 401;
    [GET /ch1?r2h-token=abc] presents the token and no 401 is sent. *)
Lemma token_gate_witness :
  (String.prefix "/" (req_url (http_req (with_request "GET" "/ch1?other=1" conn0))) = true
   /\ hostname_rejected config_token (http_req (with_request "GET" "/ch1?other=1" conn0))
      = false
   /\ r2h_token config_token = Some "abc"%string
   /\ nonempty "abc" = true
   /\ presented_token X0 (http_req (with_request "GET" "/ch1?other=1" conn0))
      <> Some "abc"%string
   /\ answered_only_with X0 K0 config_token services0 K0_ok STATUS_401
        (with_request "GET" "/ch1?other=1" conn0) w0)
  /\ (String.prefix "/" (req_url (http_req (with_request "GET" "/ch1?r2h-token=abc" conn0)))
      = true
      /\ hostname_rejected config_token
           (http_req (with_request "GET" "/ch1?r2h-token=abc" conn0)) = false
      /\ presented_token X0 (http_req (with_request "GET" "/ch1?r2h-token=abc" conn0))
         = Some "abc"%string
      /\ never_sends_401 X0 K0 config_token services0 K0_ok
           (with_request "GET" "/ch1?r2h-token=abc" conn0) w0).
Proof.
  assert (H1 : String.prefix "/" (req_url (http_req (with_request "GET" "/ch1?other=1" conn0)))
               = true) by reflexivity.
  assert (H2 : hostname_rejected config_token
                 (http_req (with_request "GET" "/ch1?other=1" conn0)) = false) by reflexivity.
  assert (H3 : r2h_token config_token = Some "abc"%string) by reflexivity.
  assert (H4 : nonempty "abc" = true) by reflexivity.
  assert (H5 : presented_token X0 (http_req (with_request "GET" "/ch1?other=1" conn0))
               <> Some "abc"%string) by (vm_compute; discriminate).
  assert (G1 : String.prefix "/"
                 (req_url (http_req (with_request "GET" "/ch1?r2h-token=abc" conn0))) = true)
    by reflexivity.
  assert (G2 : hostname_rejected config_token
                 (http_req (with_request "GET" "/ch1?r2h-token=abc" conn0)) = false)
    by reflexivity.
  assert (G5 : presented_token X0 (http_req (with_request "GET" "/ch1?r2h-token=abc" conn0))
               = Some "abc"%string) by (vm_compute; reflexivity).
  split.
  - split; [exact H1|]. split; [exact H2|]. split; [exact H3|]. split; [exact H4|].
    split; [exact H5|].
    exact (proj1 (token_gate_after_url_and_host_checks X0 K0 config_token services0 K0_ok
                    (with_request "GET" "/ch1?other=1" conn0) w0 "abc" H1 H2 H3 H4) H5).
  - split; [exact G1|]. split; [exact G2|]. split; [exact G5|].
    exact (proj2 (token_gate_after_url_and_host_checks X0 K0 config_token services0 K0_ok
                    (with_request "GET" "/ch1?r2h-token=abc" conn0) w0 "abc" G1 G2 H3 H4) G5).
Defined.

(** Scenario S5 run: without the token the answer is 401 and the
    connection closes; with it the request goes on to stream. *)
Example scenario_S5 :
  (match connection_route_and_start X0 K0 config_token services0 K0_ok
           (with_request "GET" "/ch1?other=1" conn0) w0 with
   | Returned (rc, c') w' => (rc, state c', calls w')
   | Exited _ w' => (-1, CONN_ROUTE, calls w')
   end = (0, CONN_CLOSING, [call_http_send STATUS_401]))
  /\ (match connection_route_and_start X0 K0 config_token services0 K0_ok
             (with_request "GET" "/ch1?r2h-token=abc" conn0) w0 with
      | Returned (rc, c') _ => (rc, state c')
      | Exited _ _ => (-1, CONN_ROUTE)
      end = (0, CONN_STREAMING)).
Proof. split; vm_compute; reflexivity. Qed.

(** C5 as stated fails on a request whose URL does not begin with '/':
    "ch1?other=1" carries no token, and it is answered 400 by the URL
    check that runs before the token gate, not 401. *)
Lemma bad_url_without_token_gets_400 :
  answered_only_with X0 K0 config_token services0 K0_ok STATUS_400
    (with_request "GET" "ch1?other=1" conn0) w0
  /\ presented_token X0 (http_req (with_request "GET" "ch1?other=1" conn0))
     <> Some "abc"%string
  /\ ~ token_gate_for_every_request X0 K0 config_token services0 K0_ok.
Proof.
  split; [vm_compute; reflexivity|]. split; [vm_compute; discriminate|].
  intros H.
  destruct (H (with_request "GET" "ch1?other=1" conn0) w0 "abc"%string
              eq_refl eq_refl) as [H401 _].
  specialize (H401 ltac:(vm_compute; discriminate)).
  vm_compute in H401. discriminate H401.
Qed.

(** The token that is compared is the value [http_parse_query_param]
    delivers into a buffer of 256 bytes.  With a parser that refuses a
    value that does not fit, a configured token of 256 characters is
    answered 401 even when the request carries exactly it. *)
Lemma correct_long_token_is_answered_401 :
  r2h_token config_long_token = Some long_token
  /\ request_query (http_req long_token_request) = Some ("r2h-token=" ++ long_token)%string
  /\ http_parse_query_param X0 ("r2h-token=" ++ long_token) "r2h-token" 256 = None
  /\ answered_only_with X0 K0 config_long_token services0 K0_ok STATUS_401
       long_token_request w0.
Proof. repeat split; vm_compute; reflexivity. Qed.

(** ** Runs of the further properties *)

(** X1 at the first full buffer on a fresh connection. *)
Lemma enqueue_within_floor_witness :
  data_size full_buf <> 0
  /\ projected_bytes K0 conn0 full_buf <= size_mul (BUFFER_POOL_BUFFER_SIZE K0) 4
  /\ exists rc c' w',
       connection_queue_zerocopy X0 K0 conn0 full_buf w0 = Returned (rc, c') w'
       /\ dropped_packets c' = dropped_packets conn0
       /\ dropped_bytes c' = dropped_bytes conn0
       /\ backpressure_events c' = backpressure_events conn0
       /\ (zerocopy_queue_refuses X0 (zc_queue conn0) full_buf = false ->
           rc = 0 /\ items (zc_queue c') = items (zc_queue conn0) ++ [full_buf]).
Proof.
  assert (H1 : data_size full_buf <> 0) by (vm_compute; discriminate).
  assert (H2 : projected_bytes K0 conn0 full_buf <= size_mul (BUFFER_POOL_BUFFER_SIZE K0) 4)
    by (vm_compute; discriminate).
  split; [exact H1|]. split; [exact H2|].
  exact (enqueue_within_floor_is_never_dropped X0 K0 conn0 full_buf w0 H1 H2).
Defined.

(** X2 on the same enqueue: the buffer mark goes to 1, the byte mark
    stays at the 0 bytes that were queued before. *)
Lemma enqueue_highwater_witness :
  connection_queue_zerocopy X0 K0 conn0 full_buf w0
  = Returned (0, conn_one_queued) (mk_world sim0 [call_get_time_ms])
  /\ queue_bytes_highwater conn0 <= queue_bytes_highwater conn_one_queued
  /\ queue_buffers_highwater conn0 <= queue_buffers_highwater conn_one_queued
  /\ (0 = 0 -> data_size full_buf <> 0 ->
      num_queued (zc_queue conn_one_queued) <= queue_buffers_highwater conn_one_queued
      /\ queue_bytes_highwater conn_one_queued
         = Z.max (queue_bytes_highwater conn0)
             (size_mul (num_queued (zc_queue conn0)) (BUFFER_POOL_BUFFER_SIZE K0))).
Proof.
  assert (H : connection_queue_zerocopy X0 K0 conn0 full_buf w0
              = Returned (0, conn_one_queued) (mk_world sim0 [call_get_time_ms]))
    by (vm_compute; reflexivity).
  split; [exact H|].
  exact (enqueue_raises_highwater_marks X0 K0 conn0 full_buf w0 0 conn_one_queued
           (mk_world sim0 [call_get_time_ms]) H).
Defined.

(** X3 with a queue that refuses every buffer. *)
Lemma queue_refusal_witness :
  data_size full_buf <> 0
  /\ projected_bytes K0 conn0 full_buf <= computed_queue_limit (X_sim knobs_refusing) K0 conn0 w0
  /\ zerocopy_queue_refuses (X_sim knobs_refusing) (zc_queue conn0) full_buf = true
  /\ exists c',
       connection_queue_zerocopy (X_sim knobs_refusing) K0 conn0 full_buf w0
       = Returned (-1, c') (world_after_clock (X_sim knobs_refusing) w0)
       /\ zc_queue c' = zc_queue conn0
       /\ queue_limit_bytes c' = computed_queue_limit (X_sim knobs_refusing) K0 conn0 w0
       /\ dropped_packets c' = dropped_packets conn0
       /\ dropped_bytes c' = dropped_bytes conn0
       /\ backpressure_events c' = backpressure_events conn0.
Proof.
  assert (H1 : data_size full_buf <> 0) by (vm_compute; discriminate).
  assert (H2 : projected_bytes K0 conn0 full_buf
               <= computed_queue_limit (X_sim knobs_refusing) K0 conn0 w0)
    by (vm_compute; discriminate).
  assert (H3 : zerocopy_queue_refuses (X_sim knobs_refusing) (zc_queue conn0) full_buf = true)
    by reflexivity.
  split; [exact H1|]. split; [exact H2|]. split; [exact H3|].
  exact (queue_refusal_is_not_counted_as_drop (X_sim knobs_refusing) K0 conn0 full_buf w0
           H1 H2 H3).
Defined.

(** X4 on [conn0], whose [status_index] is -1. *)
Lemma unregistered_connection_witness :
  status_index conn0 < 0
  /\ (forall buf_ref, emits not_queue_report (connection_queue_zerocopy X0 K0 conn0 buf_ref))
  /\ (forall data,
         emits not_queue_report (connection_queue_output_and_flush X0 K0 K0_ok conn0 data)).
Proof.
  assert (H : status_index conn0 < 0) by (vm_compute; reflexivity).
  split; [exact H|].
  exact (unregistered_connection_never_reports_its_queue X0 K0 K0_ok conn0 H).
Defined.

(** X5 on a connection that has no candidate time yet. *)
Lemma slow_flag_witness :
  slow_active conn_backlog = 0
  /\ (slow_candidate_since conn_backlog = 0
      \/ 5000 < slow_candidate_since conn_backlog
      \/ 5000 - slow_candidate_since conn_backlog < CONN_QUEUE_SLOW_DEBOUNCE_MS)
  /\ exists lim c',
       connection_calculate_queue_limit X0 K0 conn_backlog 5000 w0 = Returned (lim, c') w0
       /\ slow_active c' = 0.
Proof.
  assert (H1 : slow_active conn_backlog = 0) by reflexivity.
  assert (H2 : slow_candidate_since conn_backlog = 0
               \/ 5000 < slow_candidate_since conn_backlog
               \/ 5000 - slow_candidate_since conn_backlog < CONN_QUEUE_SLOW_DEBOUNCE_MS)
    by (left; reflexivity).
  split; [exact H1|]. split; [exact H2|].
  exact (slow_flag_is_debounced X0 K0 conn_backlog 5000 w0 H1 H2).
Defined.

(** X7 on 5000 bytes with a single free buffer. *)
Lemma queue_output_release_witness :
  exists rc c' w' l bufs extra,
    connection_queue_output X0 K0 K0_ok conn0 payload5000 w_one_buffer = Returned (rc, c') w'
    /\ calls w' = calls w_one_buffer ++ l
    /\ items (zc_queue c') = items (zc_queue conn0) ++ bufs
    /\ released l = bufs ++ extra
    /\ (rc = 0 -> extra = [])
    /\ (List.length extra <= 1)%nat.
Proof.
  exact (queue_output_releases_the_buffers_it_filled X0 K0 K0_ok conn0 payload5000
           w_one_buffer).
Defined.

(** X8 on a URL without its leading slash. *)
Lemma malformed_request_witness :
  (String.prefix "/" (req_url (http_req (with_request "GET" "ch1" conn0))) = false
   \/ hostname_rejected config0 (http_req (with_request "GET" "ch1" conn0)) = true)
  /\ answered_only_with X0 K0 config0 services0 K0_ok STATUS_400
       (with_request "GET" "ch1" conn0) w0.
Proof.
  assert (H : String.prefix "/" (req_url (http_req (with_request "GET" "ch1" conn0))) = false
              \/ hostname_rejected config0 (http_req (with_request "GET" "ch1" conn0)) = true)
    by (left; reflexivity).
  split; [exact H|].
  exact (malformed_request_answers_400_only X0 K0 config0 services0 K0_ok
           (with_request "GET" "ch1" conn0) w0 H).
Defined.

(** X9 on [Host: example.com:8080] against the name [Example.COM]. *)
Lemma host_check_witness :
  hostname config_host = Some "Example.COM"%string
  /\ strcasecmp_eq "example.com" "Example.COM" = true
  /\ strchr "example.com" ":" = None
  /\ (String.length "example.com" <= 255)%nat
  /\ (req_hostname req_with_port = "example.com"%string
      \/ req_hostname req_with_port = ("example.com" ++ ":" ++ "8080")%string)
  /\ hostname_rejected config_host req_with_port = false.
Proof.
  assert (H1 : hostname config_host = Some "Example.COM"%string) by reflexivity.
  assert (H2 : strcasecmp_eq "example.com" "Example.COM" = true) by reflexivity.
  assert (H3 : strchr "example.com" ":" = None) by reflexivity.
  assert (H4 : (String.length "example.com" <= 255)%nat) by (vm_compute; lia).
  assert (H5 : req_hostname req_with_port = "example.com"%string
               \/ req_hostname req_with_port = ("example.com" ++ ":" ++ "8080")%string)
    by (right; reflexivity).
  split; [exact H1|]. split; [exact H2|]. split; [exact H3|]. split; [exact H4|].
  split; [exact H5|].
  exact (host_check_ignores_port_and_case config_host req_with_port "Example.COM"
           "example.com" "8080" H1 H2 H3 H4 H5).
Defined.

(** X10 on [HEAD /ch1]. *)
Lemma routing_end_state_witness :
  connection_route_and_start X0 K0 config0 services0 K0_ok head_conn w_busy
  = Returned (0, set_state CONN_CLOSING head_conn)
      (mk_world (ext w_busy)
         (calls w_busy_resolved
          ++ [call_send_http_headers STATUS_200 CONTENT_MP2T None;
              call_epoll_ctl EPOLL_CTL_MOD 3 7 EV_READ_WRITE; call_service_free svc_ch1]))
  /\ ((0 = 0 /\ state (set_state CONN_CLOSING head_conn) = CONN_STREAMING
       /\ streaming (set_state CONN_CLOSING head_conn) = 1
       /\ buffer_class (set_state CONN_CLOSING head_conn) = CONNECTION_BUFFER_MEDIA
       /\ service (set_state CONN_CLOSING head_conn) <> None)
      \/ ((0 = 0 \/ 0 = -1) /\ state (set_state CONN_CLOSING head_conn) = CONN_CLOSING)
      \/ (exists l,
             calls (mk_world (ext w_busy)
                      (calls w_busy_resolved
                       ++ [call_send_http_headers STATUS_200 CONTENT_MP2T None;
                           call_epoll_ctl EPOLL_CTL_MOD 3 7 EV_READ_WRITE;
                           call_service_free svc_ch1]))
             = calls w_busy ++ l
             /\ In call_status_handle_sse_init l)).
Proof.
  assert (H : connection_route_and_start X0 K0 config0 services0 K0_ok head_conn w_busy
              = Returned (0, set_state CONN_CLOSING head_conn)
                  (mk_world (ext w_busy)
                     (calls w_busy_resolved
                      ++ [call_send_http_headers STATUS_200 CONTENT_MP2T None;
                          call_epoll_ctl EPOLL_CTL_MOD 3 7 EV_READ_WRITE;
                          call_service_free svc_ch1])))
    by (vm_compute; reflexivity).
  split; [exact H|].
  exact (routing_ends_streaming_or_closing X0 K0 config0 services0 K0_ok head_conn w_busy
           0 (set_state CONN_CLOSING head_conn) _ H).
Defined.

(** X11 on the same request: the cloned service is freed once. *)
Lemma resolved_service_witness :
  connection_route_resolve X0 K0 config0 services0 K0_ok head_conn w_busy
  = Returned (inr resolved_ch1) w_busy_resolved
  /\ connection_route_and_start X0 K0 config0 services0 K0_ok head_conn w_busy
     = Returned (0, set_state CONN_CLOSING head_conn)
         (mk_world (ext w_busy)
            (calls w_busy_resolved
             ++ [call_send_http_headers STATUS_200 CONTENT_MP2T None;
                 call_epoll_ctl EPOLL_CTL_MOD 3 7 EV_READ_WRITE; call_service_free svc_ch1]))
  /\ exists l srv,
       calls (mk_world (ext w_busy)
                (calls w_busy_resolved
                 ++ [call_send_http_headers STATUS_200 CONTENT_MP2T None;
                     call_epoll_ctl EPOLL_CTL_MOD 3 7 EV_READ_WRITE;
                     call_service_free svc_ch1]))
       = calls w_busy_resolved ++ l
       /\ (srv = rs_service resolved_ch1
           \/ srv = set_user_agent (Some (req_user_agent (http_req head_conn)))
                      (rs_service resolved_ch1))
       /\ ((state (set_state CONN_CLOSING head_conn) = CONN_STREAMING
            /\ service (set_state CONN_CLOSING head_conn) = Some srv
            /\ service_owned (set_state CONN_CLOSING head_conn) = 1
            /\ services_freed l = [])
           \/ (state (set_state CONN_CLOSING head_conn) = CONN_CLOSING
               /\ services_freed l = [srv])).
Proof.
  assert (H1 : connection_route_resolve X0 K0 config0 services0 K0_ok head_conn w_busy
               = Returned (inr resolved_ch1) w_busy_resolved) by (vm_compute; reflexivity).
  assert (H2 : connection_route_and_start X0 K0 config0 services0 K0_ok head_conn w_busy
               = Returned (0, set_state CONN_CLOSING head_conn)
                   (mk_world (ext w_busy)
                      (calls w_busy_resolved
                       ++ [call_send_http_headers STATUS_200 CONTENT_MP2T None;
                           call_epoll_ctl EPOLL_CTL_MOD 3 7 EV_READ_WRITE;
                           call_service_free svc_ch1])))
    by (vm_compute; reflexivity).
  split; [exact H1|]. split; [exact H2|].
  exact (resolved_service_is_kept_or_freed_once X0 K0 config0 services0 K0_ok head_conn w_busy
           resolved_ch1 w_busy_resolved 0 (set_state CONN_CLOSING head_conn) _ H1 H2).
Defined.

(** X12 on [GET /ch1?snapshot=1] with snapshots enabled. *)
Lemma snapshot_request_witness :
  connection_route_resolve X0 K0 config_snapshot services0 K0_ok snapshot_conn w0
  = Returned (inr resolved_snapshot) w0_resolved_snapshot
  /\ strcasecmp_eq (method (http_req snapshot_conn)) "HEAD" = false
  /\ detect_snapshot_request X0 config_snapshot (http_req snapshot_conn)
       (rs_query_start resolved_snapshot) <> 0
  /\ exists l,
       calls (final_world
                (connection_route_and_start X0 K0 config_snapshot services0 K0_ok
                   snapshot_conn w0))
       = calls w0_resolved_snapshot ++ l
       /\ Forall not_stream_start l.
Proof.
  assert (H1 : connection_route_resolve X0 K0 config_snapshot services0 K0_ok snapshot_conn w0
               = Returned (inr resolved_snapshot) w0_resolved_snapshot)
    by (vm_compute; reflexivity).
  assert (H2 : strcasecmp_eq (method (http_req snapshot_conn)) "HEAD" = false) by reflexivity.
  assert (H3 : detect_snapshot_request X0 config_snapshot (http_req snapshot_conn)
                 (rs_query_start resolved_snapshot) <> 0) by (vm_compute; discriminate).
  split; [exact H1|]. split; [exact H2|]. split; [exact H3|].
  exact (snapshot_request_is_started_without_headers X0 K0 config_snapshot services0 K0_ok
           snapshot_conn w0 resolved_snapshot w0_resolved_snapshot H1 H2 H3).
Defined.

(** X13 on a datagram from 10.0.0.2 while the FCC server is 10.0.0.1. *)
Lemma fcc_stranger_witness :
  is_fcc_event conn_fcc_requested 5 = true
  /\ buffer_pool_alloc (X_sim knobs_stranger) (ext w0) = (Some empty_buf, sim0_one_taken)
  /\ ((actualr (fst (sys_recvfrom (X_sim knobs_stranger)
                       (fcc_sock (fcc (stream conn_fcc_requested)))
                       (BUFFER_POOL_BUFFER_SIZE K0) sim0_one_taken)) < 0
       /\ errno_is_EAGAIN (fst (sys_recvfrom (X_sim knobs_stranger)
                                  (fcc_sock (fcc (stream conn_fcc_requested)))
                                  (BUFFER_POOL_BUFFER_SIZE K0) sim0_one_taken)) = false)
      \/ sin_addr (peer_addr (fst (sys_recvfrom (X_sim knobs_stranger)
                                     (fcc_sock (fcc (stream conn_fcc_requested)))
                                     (BUFFER_POOL_BUFFER_SIZE K0) sim0_one_taken)))
         <> sin_addr (fcc_server (fcc (stream conn_fcc_requested))))
  /\ stream_handle_fd_event (X_sim knobs_stranger) K0 conn_fcc_requested 5 EPOLLIN 7000 w0
     = Returned (0, conn_fcc_requested)
         (mk_world sim0_one_taken
            [call_buffer_pool_alloc; call_recvfrom 5 2048;
             call_buffer_ref_put
               {| data := repeat Byte.x47 1316; data_offset := 0; data_size := 0 |}]).
Proof.
  assert (H1 : is_fcc_event conn_fcc_requested 5 = true) by reflexivity.
  assert (H2 : buffer_pool_alloc (X_sim knobs_stranger) (ext w0)
               = (Some empty_buf, sim0_one_taken)) by reflexivity.
  assert (H3 : (actualr (fst (sys_recvfrom (X_sim knobs_stranger)
                                (fcc_sock (fcc (stream conn_fcc_requested)))
                                (BUFFER_POOL_BUFFER_SIZE K0) sim0_one_taken)) < 0
                /\ errno_is_EAGAIN (fst (sys_recvfrom (X_sim knobs_stranger)
                                           (fcc_sock (fcc (stream conn_fcc_requested)))
                                           (BUFFER_POOL_BUFFER_SIZE K0) sim0_one_taken))
                   = false)
               \/ sin_addr (peer_addr (fst (sys_recvfrom (X_sim knobs_stranger)
                                              (fcc_sock (fcc (stream conn_fcc_requested)))
                                              (BUFFER_POOL_BUFFER_SIZE K0) sim0_one_taken)))
                  <> sin_addr (fcc_server (fcc (stream conn_fcc_requested))))
    by (right; vm_compute; discriminate).
  split; [exact H1|]. split; [exact H2|]. split; [exact H3|].
  exact (fcc_datagram_from_other_source_is_dropped (X_sim knobs_stranger) K0
           conn_fcc_requested 5 EPOLLIN 7000 w0 empty_buf sim0_one_taken H1 H2 H3).
Defined.

(** X14 on a datagram on the multicast socket 9. *)
Lemma receive_buffer_witness :
  (is_fcc_event conn_mcast 9 = true \/ is_mcast_event conn_mcast 9 = true)
  /\ buffer_pool_alloc (X_sim knobs0) (ext w0) = (Some empty_buf, sim0_one_taken)
  /\ exists rc c' w' l d n,
       let recv_buf := {| data := d; data_offset := data_offset empty_buf; data_size := n |} in
       stream_handle_fd_event (X_sim knobs0) K0 conn_mcast 9 EPOLLIN 7000 w0
       = Returned (rc, c') w'
       /\ calls w' = calls w0 ++ l
       /\ released l = [recv_buf]
       /\ last l call_get_time_ms = call_buffer_ref_put recv_buf.
Proof.
  assert (H1 : is_fcc_event conn_mcast 9 = true \/ is_mcast_event conn_mcast 9 = true)
    by (right; reflexivity).
  assert (H2 : buffer_pool_alloc (X_sim knobs0) (ext w0) = (Some empty_buf, sim0_one_taken))
    by reflexivity.
  split; [exact H1|]. split; [exact H2|].
  exact (receive_buffer_is_released_exactly_once (X_sim knobs0) K0 conn_mcast 9 EPOLLIN 7000
           w0 empty_buf sim0_one_taken H1 H2).
Defined.


(** X16 on descriptor 42, which the multicast connection does not own. *)
Lemma foreign_descriptor_witness :
  (forall s,
      In s [fcc_sock (fcc (stream conn_mcast)); mcast_sock (stream conn_mcast);
            rtsp_socket (rtsp (stream conn_mcast)); rtp_socket (rtsp (stream conn_mcast));
            rtcp_socket (rtsp (stream conn_mcast))] ->
      s <= 0 \/ 42 <> s)
  /\ stream_handle_fd_event X0 K0 conn_mcast 42 EPOLLIN 7000 w0 = Returned (0, conn_mcast) w0.
Proof.
  assert (H : forall s,
             In s [fcc_sock (fcc (stream conn_mcast)); mcast_sock (stream conn_mcast);
                   rtsp_socket (rtsp (stream conn_mcast));
                   rtp_socket (rtsp (stream conn_mcast));
                   rtcp_socket (rtsp (stream conn_mcast))] ->
             s <= 0 \/ 42 <> s).
  { intros s Hs. cbn in Hs.
    destruct Hs as [<- | [<- | [<- | [<- | [<- | []]]]]];
      first [left; vm_compute; discriminate | right; vm_compute; discriminate]. }
  split; [exact H|].
  exact (event_on_foreign_descriptor_is_ignored X0 K0 conn_mcast 42 EPOLLIN 7000 w0 H).
Defined.

(** X17 on a multicast stream that has been silent for ten seconds. *)
Lemma multicast_timeout_witness :
  0 < mcast_sock (stream conn_mcast)
  /\ MCAST_TIMEOUT_SEC K0 * 1000 <= 10000 - last_mcast_data_time (stream conn_mcast)
  /\ exists c' w' l,
       stream_tick X0 K0 config0 conn_mcast 10000 w0 = Returned (-1, c') w'
       /\ (c' = conn_mcast \/ c' = upd_stream (set_last_mcast_rejoin_time 10000) conn_mcast)
       /\ calls w' = calls w0 ++ l
       /\ (l = [] \/ l = [call_rejoin_mcast_group (mcast_sock (stream conn_mcast))]).
Proof.
  assert (H1 : 0 < mcast_sock (stream conn_mcast)) by (vm_compute; reflexivity).
  assert (H2 : MCAST_TIMEOUT_SEC K0 * 1000
               <= 10000 - last_mcast_data_time (stream conn_mcast))
    by (vm_compute; discriminate).
  split; [exact H1|]. split; [exact H2|].
  exact (multicast_timeout_ends_tick X0 K0 config0 conn_mcast 10000 w0 H1 H2).
Defined.

(** X18 on a unicast stream silent for 1500 ms, past the timeout of
    one second. *)
Lemma fcc_unicast_stall_witness :
  (fcc_state (fcc (stream conn_fcc_unicast)) = FCC_STATE_UNICAST_ACTIVE
   \/ fcc_state (fcc (stream conn_fcc_unicast)) = FCC_STATE_MCAST_REQUESTED)
  /\ tick_reaches_fcc_block K0 conn_fcc_unicast 1500
  /\ int_of_double (FCC_TIMEOUT_UNICAST_SEC K0 * 1000)%float
     <= 1500 - last_fcc_data_time (stream conn_fcc_unicast)
  /\ mcast_sock (stream conn_fcc_unicast) <> 0
  /\ exists c1 w1,
       tick_mcast_rejoin X0 config0 conn_fcc_unicast 1500 w0 = Returned c1 w1
       /\ mcast_sock (stream (upd_fcc (set_fcc_state FCC_STATE_MCAST_ACTIVE) c1))
          = mcast_sock (stream conn_fcc_unicast)
       /\ exists c' w',
            stream_tick X0 K0 config0 conn_fcc_unicast 1500 w0 = Returned (0, c') w'
            /\ stream_tick_rest X0 K0
                 (upd_fcc (set_fcc_state FCC_STATE_MCAST_ACTIVE) c1) 1500
                 (world_after_set_state X0 FCC_STATE_MCAST_ACTIVE "Unicast interrupted" w1)
               = Returned (0, c') w'.
Proof.
  assert (H1 : fcc_state (fcc (stream conn_fcc_unicast)) = FCC_STATE_UNICAST_ACTIVE
               \/ fcc_state (fcc (stream conn_fcc_unicast)) = FCC_STATE_MCAST_REQUESTED)
    by (left; reflexivity).
  assert (H2 : tick_reaches_fcc_block K0 conn_fcc_unicast 1500)
    by (split; vm_compute; reflexivity).
  assert (H3 : int_of_double (FCC_TIMEOUT_UNICAST_SEC K0 * 1000)%float
               <= 1500 - last_fcc_data_time (stream conn_fcc_unicast))
    by (vm_compute; discriminate).
  assert (H4 : mcast_sock (stream conn_fcc_unicast) <> 0) by (vm_compute; discriminate).
  split; [exact H1|]. split; [exact H2|]. split; [exact H3|]. split; [exact H4|].
  exact (fcc_unicast_stall_falls_back_without_rejoining X0 K0 config0 conn_fcc_unicast 1500
           w0 H1 H2 H3 H4).
Defined.


(** X23 on the connection [conn0], which never streamed: only the queue
    and the socket are released. *)
Lemma connection_free_witness :
  streaming conn0 = 0
  /\ exists x',
       connection_free X0 K0 Y0 conn0 iow0
       = io_Returned tt
           (mk_io_world x'
              (trace iow0
               ++ (if Zbool (stream_registered conn0)
                   then [inr call_zerocopy_unregister_stream_client] else [])
               ++ [inr call_zerocopy_queue_cleanup; inr call_buffer_pool_try_shrink]
               ++ (if Zbool (service_owned conn0)
                   then match service conn0 with
                        | Some s => [inl (call_service_free s)]
                        | None => []
                        end
                   else [])
               ++ (if 0 <=? status_index conn0
                   then [inr (call_status_unregister_client (status_index conn0))]
                   else [])
               ++ (if 0 <=? fd conn0 then [inl (call_close (fd conn0))] else []))).
Proof.
  assert (H : streaming conn0 = 0) by reflexivity.
  split; [exact H|].
  exact (connection_free_releases_in_order X0 K0 Y0 conn0 iow0 H).
Defined.

(** X24 on socket 7 accepted on epoll descriptor 3. *)
Lemma fresh_connection_witness :
  exists c io w1,
    connection_create K0 Y0 KIO0 7 3 None 16 iow0 = io_Returned (Some (c, io)) w1
    /\ fd c = 7 /\ state c = CONN_READ_REQ_LINE /\ status_index c = -1
    /\ buffer_class c = CONNECTION_BUFFER_CONTROL /\ in_len io = 0
    /\ exists x2,
         connection_free X0 K0 Y0 c w1
         = io_Returned tt
             (mk_io_world x2
                (trace w1
                 ++ [inr call_zerocopy_queue_cleanup; inr call_buffer_pool_try_shrink]
                 ++ (if 0 <=? 7 then [inl (call_close 7)] else []))).
Proof.
  eexists _, _, _.
  refine ((fun H => conj H
             (fresh_connection_is_freed_without_unregistering X0 K0 Y0 KIO0 7 3 None 16
                iow0 _ _ _ H)) _).
  lazy. reflexivity.
Defined.


(** X29 on [HEAD /ch1] arriving in one read while eleven clients are
    streaming: parsed, routed and answered within the call. *)
Lemma routed_read_witness :
  connection_handle_read X0 K0 config0 services0 K0_ok Y_head KIO0 head_conn io0
    (mk_io_world (ext w_busy) [])
  = io_Returned (set_state CONN_CLOSING head_conn, io_head_done) iow_head_done
  /\ exists t0 l,
       trace iow_head_done = trace (mk_io_world (ext w_busy) []) ++ t0 ++ map inl l
       /\ base_calls t0 = []
       /\ (l <> [] -> exists t1, t0 = t1 ++ [inr call_http_parse_request])
       /\ (In (inr call_http_parse_request) t0 ->
           state head_conn = CONN_READ_REQ_LINE \/ state head_conn = CONN_READ_HEADERS)
       /\ (state (set_state CONN_CLOSING head_conn) = state head_conn
           \/ state (set_state CONN_CLOSING head_conn) = CONN_CLOSING
           \/ (state (set_state CONN_CLOSING head_conn) = CONN_STREAMING
               /\ streaming (set_state CONN_CLOSING head_conn) = 1
               /\ service (set_state CONN_CLOSING head_conn) <> None)
           \/ In call_status_handle_sse_init l).
Proof.
  assert (H : connection_handle_read X0 K0 config0 services0 K0_ok Y_head KIO0 head_conn
                io0 (mk_io_world (ext w_busy) [])
              = io_Returned (set_state CONN_CLOSING head_conn, io_head_done) iow_head_done)
    by (vm_compute; reflexivity).
  split; [exact H|].
  exact (complete_request_is_routed_within_the_read X0 K0 config0 services0 K0_ok Y_head
           KIO0 head_conn io0 (mk_io_world (ext w_busy) []) _ _ _ H).
Defined.
